(** * SentryAI: the detection and alert pipeline of [src/App.tsx]

    A shallow embedding of the stateful core of the [App] component: the
    per-frame tick [detectMotion] (audio peak estimation, frame differencing,
    thresholds, the shared cooldown clock), the verifier adapter
    [analyzeFrame], the session commands [startCamera] and [stopCamera] and
    the bounded event log.

    Conventions of the embedding.
    - React state ([useState]) and refs ([useRef]) are the fields of one record,
      [AppState]; a state setter is an update of that record.
    - A tick reads [isMonitoring], [sensitivity], [audioSensitivity],
      [isSmartGuard] and, through [analyzeFrame], [isAnalyzing] from its
      closure.  The record a tick is applied to holds the values the tick
      reads.  The effect that owns the loop is re-created when
      [isMonitoring], [sensitivity] or [analyzeFrame] changes, so these are
      current; [audioSensitivity] and [isSmartGuard] are not in its dependency
      list and may be those of an earlier render.  A tick of that kind is a
      tick on the record with the earlier settings ([staleTick]), and it
      stays inside the states of the transition system
      ([settings_reachable], [staleTick_reachable]).  No statement below
      compares what a tick did under [audioSensitivity] or [isSmartGuard]
      with what a render shows for them.
    - Wall-clock readings ([Date.now()]) are integers ([Z], milliseconds).
      Scores and thresholds are JavaScript numbers, that is IEEE binary64
      values.  The motion score [(diff / (w * h / 4)) * 100] is computed with
      the kernel's binary64 operations ([PrimFloat]), each of which rounds as
      the source's does, and is then read as the rational it denotes
      ([Q_of_Number]); so a count whose exact percentage sits on a threshold
      and whose double lies above it is accepted here as it is in the
      browser ([motionLevelOf_rounds_up]).  The thresholds are integers or
      half-integers and the audio score is [(max / 255) * 100] for a byte
      [max]; these are kept as rationals, and [audioScore_double] checks, for
      every byte and every slider position, that the comparison of the doubles
      is the comparison of the rationals.
    - Everything the browser supplies during a tick (clock, analyser bins, the
      canvas context, the grabbed frame, JPEG snapshots, random ids) is an
      explicit input record, [TickEnv].
    - The one suspension point, [await ai.models.generateContent], splits
      [analyzeFrame] in two: the part that runs inside the caller and the
      continuation that runs when the request settles.  Requests that have
      been sent and have not settled yet are kept in the field [pending]; an
      exception thrown before the request is sent is treated as a request
      that rejects. *)

From Stdlib Require Import ZArith QArith Qminmax Qabs List Bool Lia Lqa String Ascii.
From Stdlib Require PrimFloat FloatOps Uint63.
Import ListNotations.

Local Open Scope string_scope.
Local Open Scope Z_scope.

(** ** JavaScript values that cross the model *)

(** The value [JSON.parse] returns. *)
#[warnings="-register-all"]
Inductive JSON : Type :=
| JNull
| JBool (b : bool)
| JNum (q : Q)
| JStr (s : string)
| JArr (items : list JSON)
| JObj (fields : list (string * JSON)).

(** [v.name] on a parsed value other than [null]: [None] is [undefined].
    Only an object parsed from JSON has properties with these names. *)
Fixpoint own_property (name : string) (fields : list (string * JSON)) : option JSON :=
  match fields with
  | [] => None
  | (k, v) :: rest => if String.eqb k name then Some v else own_property name rest
  end.

Definition property (name : string) (v : JSON) : option JSON :=
  match v with
  | JObj fields => own_property name fields
  | _ => None
  end.

(** ToBoolean. *)
Definition truthy (v : option JSON) : bool :=
  match v with
  | None => false
  | Some JNull => false
  | Some (JBool b) => b
  | Some (JNum q) => negb (Qeq_bool q 0)
  | Some (JStr s) => negb (String.eqb s "")
  | Some (JArr _) => true
  | Some (JObj _) => true
  end.

(** [a || b] on values. *)
Definition js_or (a : option JSON) (b : JSON) : JSON :=
  match a with
  | Some v => if truthy a then v else b
  | None => b
  end.

(** ** Types *)

(** [interface DetectionEvent].  [reason] is declared a string; the verifier
    path stores whatever [result.reason || "Person detected"] evaluates to,
    so the field holds a value. *)
Record DetectionEvent : Type := mkEvent {
  id : string;
  timestamp : Z;
  image : string;
  ev_isSuspicious : bool;
  reason : JSON
}.

(** An element of a [Uint8Array] or [Uint8ClampedArray], read as a number. *)
Definition u8 (b : Byte.byte) : Z := Z.of_N (Byte.to_N b).

(** [ImageData]: the RGBA bytes of a grabbed frame. *)
Record ImageData : Type := mkImageData { data : list Byte.byte }.

Inductive MediaStream : Type := LiveStream.

Record AnalyserNode : Type := mkAnalyser { fftSize : Z }.

Definition frequencyBinCount (a : AnalyserNode) : Z := fftSize a / 2.

(** The canvas element: [<canvas ref={canvasRef} width="640" height="480">]. *)
Definition canvas_width : Z := 640.
Definition canvas_height : Z := 480.

(** A JavaScript number that may be [-Infinity] ([Math.max()] of nothing). *)
Inductive number : Type :=
| NegInfinity
| Num (q : Q).

Definition number_gt (x : number) (y : Q) : bool :=
  match x with
  | NegInfinity => false
  | Num q => match (q ?= y)%Q with Gt => true | _ => false end
  end.

Definition Qgtb (x y : Q) : bool :=
  match (x ?= y)%Q with Gt => true | _ => false end.

(** ** State *)

Record AppState : Type := mkApp {
  (* useState *)
  isMonitoring : bool;
  stream : option MediaStream;
  isSuspicious : bool;
  events : list DetectionEvent;
  isMuted : bool;
  sensitivity : Z;
  audioSensitivity : Z;
  isSmartGuard : bool;
  isAnalyzing : bool;
  lastMotionDetected : bool;
  audioLevel : number;
  currentMotionLevel : Q;
  (* useRef *)
  prevFrameRef : option ImageData;
  lastFrameTimeRef : Z;
  lastDetectionTimeRef : Z;
  analyserRef : option AnalyserNode;
  (* snapshots of the generateContent requests that have not settled *)
  pending : list string
}.

Definition initialState : AppState :=
  {| isMonitoring := false; stream := None; isSuspicious := false;
     events := []; isMuted := false; sensitivity := 85;
     audioSensitivity := 60; isSmartGuard := true; isAnalyzing := false;
     lastMotionDetected := false; audioLevel := Num 0;
     currentMotionLevel := 0%Q;
     prevFrameRef := None; lastFrameTimeRef := 0;
     lastDetectionTimeRef := 0; analyserRef := None; pending := [] |}.

(** Setters: one per field that the code writes. *)
Definition setIsMonitoring (v : bool) (s : AppState) : AppState :=
  mkApp v (stream s) (isSuspicious s) (events s) (isMuted s) (sensitivity s)
    (audioSensitivity s) (isSmartGuard s) (isAnalyzing s)
    (lastMotionDetected s) (audioLevel s) (currentMotionLevel s)
    (prevFrameRef s) (lastFrameTimeRef s) (lastDetectionTimeRef s)
    (analyserRef s) (pending s).

Definition setStream (v : option MediaStream) (s : AppState) : AppState :=
  mkApp (isMonitoring s) v (isSuspicious s) (events s) (isMuted s)
    (sensitivity s) (audioSensitivity s) (isSmartGuard s) (isAnalyzing s)
    (lastMotionDetected s) (audioLevel s) (currentMotionLevel s)
    (prevFrameRef s) (lastFrameTimeRef s) (lastDetectionTimeRef s)
    (analyserRef s) (pending s).

Definition setIsSuspicious (v : bool) (s : AppState) : AppState :=
  mkApp (isMonitoring s) (stream s) v (events s) (isMuted s) (sensitivity s)
    (audioSensitivity s) (isSmartGuard s) (isAnalyzing s)
    (lastMotionDetected s) (audioLevel s) (currentMotionLevel s)
    (prevFrameRef s) (lastFrameTimeRef s) (lastDetectionTimeRef s)
    (analyserRef s) (pending s).

(** [setEvents] takes the updater function, as the code passes it. *)
Definition setEvents (f : list DetectionEvent -> list DetectionEvent)
    (s : AppState) : AppState :=
  mkApp (isMonitoring s) (stream s) (isSuspicious s) (f (events s))
    (isMuted s) (sensitivity s) (audioSensitivity s) (isSmartGuard s)
    (isAnalyzing s) (lastMotionDetected s) (audioLevel s)
    (currentMotionLevel s) (prevFrameRef s) (lastFrameTimeRef s)
    (lastDetectionTimeRef s) (analyserRef s) (pending s).

Definition setIsMuted (v : bool) (s : AppState) : AppState :=
  mkApp (isMonitoring s) (stream s) (isSuspicious s) (events s) v
    (sensitivity s) (audioSensitivity s) (isSmartGuard s) (isAnalyzing s)
    (lastMotionDetected s) (audioLevel s) (currentMotionLevel s)
    (prevFrameRef s) (lastFrameTimeRef s) (lastDetectionTimeRef s)
    (analyserRef s) (pending s).

Definition setSensitivity (v : Z) (s : AppState) : AppState :=
  mkApp (isMonitoring s) (stream s) (isSuspicious s) (events s) (isMuted s) v
    (audioSensitivity s) (isSmartGuard s) (isAnalyzing s)
    (lastMotionDetected s) (audioLevel s) (currentMotionLevel s)
    (prevFrameRef s) (lastFrameTimeRef s) (lastDetectionTimeRef s)
    (analyserRef s) (pending s).

Definition setAudioSensitivity (v : Z) (s : AppState) : AppState :=
  mkApp (isMonitoring s) (stream s) (isSuspicious s) (events s) (isMuted s)
    (sensitivity s) v (isSmartGuard s) (isAnalyzing s)
    (lastMotionDetected s) (audioLevel s) (currentMotionLevel s)
    (prevFrameRef s) (lastFrameTimeRef s) (lastDetectionTimeRef s)
    (analyserRef s) (pending s).

Definition setIsSmartGuard (v : bool) (s : AppState) : AppState :=
  mkApp (isMonitoring s) (stream s) (isSuspicious s) (events s) (isMuted s)
    (sensitivity s) (audioSensitivity s) v (isAnalyzing s)
    (lastMotionDetected s) (audioLevel s) (currentMotionLevel s)
    (prevFrameRef s) (lastFrameTimeRef s) (lastDetectionTimeRef s)
    (analyserRef s) (pending s).

Definition setIsAnalyzing (v : bool) (s : AppState) : AppState :=
  mkApp (isMonitoring s) (stream s) (isSuspicious s) (events s) (isMuted s)
    (sensitivity s) (audioSensitivity s) (isSmartGuard s) v
    (lastMotionDetected s) (audioLevel s) (currentMotionLevel s)
    (prevFrameRef s) (lastFrameTimeRef s) (lastDetectionTimeRef s)
    (analyserRef s) (pending s).

Definition setLastMotionDetected (v : bool) (s : AppState) : AppState :=
  mkApp (isMonitoring s) (stream s) (isSuspicious s) (events s) (isMuted s)
    (sensitivity s) (audioSensitivity s) (isSmartGuard s) (isAnalyzing s) v
    (audioLevel s) (currentMotionLevel s)
    (prevFrameRef s) (lastFrameTimeRef s) (lastDetectionTimeRef s)
    (analyserRef s) (pending s).

Definition setAudioLevel (v : number) (s : AppState) : AppState :=
  mkApp (isMonitoring s) (stream s) (isSuspicious s) (events s) (isMuted s)
    (sensitivity s) (audioSensitivity s) (isSmartGuard s) (isAnalyzing s)
    (lastMotionDetected s) v (currentMotionLevel s)
    (prevFrameRef s) (lastFrameTimeRef s) (lastDetectionTimeRef s)
    (analyserRef s) (pending s).

Definition setCurrentMotionLevel (v : Q) (s : AppState) : AppState :=
  mkApp (isMonitoring s) (stream s) (isSuspicious s) (events s) (isMuted s)
    (sensitivity s) (audioSensitivity s) (isSmartGuard s) (isAnalyzing s)
    (lastMotionDetected s) (audioLevel s) v
    (prevFrameRef s) (lastFrameTimeRef s) (lastDetectionTimeRef s)
    (analyserRef s) (pending s).

Definition setPrevFrameRef (v : option ImageData) (s : AppState) : AppState :=
  mkApp (isMonitoring s) (stream s) (isSuspicious s) (events s) (isMuted s)
    (sensitivity s) (audioSensitivity s) (isSmartGuard s) (isAnalyzing s)
    (lastMotionDetected s) (audioLevel s) (currentMotionLevel s)
    v (lastFrameTimeRef s) (lastDetectionTimeRef s)
    (analyserRef s) (pending s).

Definition setLastFrameTimeRef (v : Z) (s : AppState) : AppState :=
  mkApp (isMonitoring s) (stream s) (isSuspicious s) (events s) (isMuted s)
    (sensitivity s) (audioSensitivity s) (isSmartGuard s) (isAnalyzing s)
    (lastMotionDetected s) (audioLevel s) (currentMotionLevel s)
    (prevFrameRef s) v (lastDetectionTimeRef s)
    (analyserRef s) (pending s).

Definition setLastDetectionTimeRef (v : Z) (s : AppState) : AppState :=
  mkApp (isMonitoring s) (stream s) (isSuspicious s) (events s) (isMuted s)
    (sensitivity s) (audioSensitivity s) (isSmartGuard s) (isAnalyzing s)
    (lastMotionDetected s) (audioLevel s) (currentMotionLevel s)
    (prevFrameRef s) (lastFrameTimeRef s) v
    (analyserRef s) (pending s).

Definition setAnalyserRef (v : option AnalyserNode) (s : AppState) : AppState :=
  mkApp (isMonitoring s) (stream s) (isSuspicious s) (events s) (isMuted s)
    (sensitivity s) (audioSensitivity s) (isSmartGuard s) (isAnalyzing s)
    (lastMotionDetected s) (audioLevel s) (currentMotionLevel s)
    (prevFrameRef s) (lastFrameTimeRef s) (lastDetectionTimeRef s)
    v (pending s).

Definition setPending (v : list string) (s : AppState) : AppState :=
  mkApp (isMonitoring s) (stream s) (isSuspicious s) (events s) (isMuted s)
    (sensitivity s) (audioSensitivity s) (isSmartGuard s) (isAnalyzing s)
    (lastMotionDetected s) (audioLevel s) (currentMotionLevel s)
    (prevFrameRef s) (lastFrameTimeRef s) (lastDetectionTimeRef s)
    (analyserRef s) v.

(** ** Motion estimator (the frame-differencing loop of [detectMotion]) *)

(** The offsets [for (let i = 0; i < data.length; i += 16)] visits. *)
Definition sampleOffsets (len : nat) : list nat :=
  map (fun k => 16 * k)%nat (seq 0 ((len + 15) / 16)).

(** [Math.abs(data[i] - prevData[i])]; an index past the end reads
    [undefined] and the difference is [NaN], here [None]. *)
Definition channelDiff (data prevData : list Byte.byte) (i : nat) : option Z :=
  match nth_error data i, nth_error prevData i with
  | Some a, Some b => Some (Z.abs (u8 a - u8 b))
  | _, _ => None
  end.

(** [rDiff + gDiff + bDiff > 45]; a comparison with [NaN] is false. *)
Definition pixelChanged (data prevData : list Byte.byte) (i : nat) : bool :=
  match channelDiff data prevData i,
        channelDiff data prevData (i + 1),
        channelDiff data prevData (i + 2) with
  | Some rDiff, Some gDiff, Some bDiff => 45 <? rDiff + gDiff + bDiff
  | _, _, _ => false
  end.

(** The value of [diff] when the loop ends. *)
Definition countChanged (data prevData : list Byte.byte) : Z :=
  fold_left
    (fun diff i => if pixelChanged data prevData i then diff + 1 else diff)
    (sampleOffsets (List.length data)) 0.

(** A JavaScript number is an IEEE binary64 value. *)
Definition Number : Set := PrimFloat.float.

(** An integer below [2^63] as a number (exact below [2^53]). *)
Definition Number_of_Z (z : Z) : Number := PrimFloat.of_uint63 (Uint63.of_Z z).

(** The rational a finite number denotes; zero for the zeros and, by
    convention, for the infinities and [NaN], which no score reaches. *)
Definition Q_of_Number (x : Number) : Q :=
  match FloatOps.Prim2SF x with
  | SpecFloat.S754_finite s m e =>
      let v := (inject_Z (Z.pos m) * Qpower 2 e)%Q in
      if s then Qopp v else v
  | _ => 0%Q
  end.

(** [(diff / (width * height / 4)) * 100] for a count [diff]; each of the
    four operations rounds to the nearest binary64 value, as the source's. *)
Definition percentOfSamples (width height diff : Z) : Number :=
  PrimFloat.mul
    (PrimFloat.div (Number_of_Z diff)
       (PrimFloat.div (PrimFloat.mul (Number_of_Z width) (Number_of_Z height))
          (Number_of_Z 4)))
    (Number_of_Z 100).

(** [(diff / (canvas.width * canvas.height / 4)) * 100]. *)
Definition motionLevelOf (width height : Z) (data prevData : list Byte.byte) : Q :=
  Q_of_Number (percentOfSamples width height (countChanged data prevData)).

(** [Math.max(0.5, (100 - sensitivity) / 2)]. *)
Definition motionThreshold (sensitivity : Z) : Q :=
  Qmax (1 # 2) (inject_Z (100 - sensitivity) / 2).

(** ** Audio estimator *)

(** [Math.max(...xs)]: [None] is [-Infinity], the value for no argument. *)
Fixpoint Math_max (xs : list Z) : option Z :=
  match xs with
  | [] => None
  | x :: rest =>
      match Math_max rest with
      | None => Some x
      | Some m => Some (Z.max x m)
      end
  end.

(** [(max / 255) * 100]. *)
Definition normalizedLevelOf (dataArray : list Byte.byte) : number :=
  match Math_max (map u8 dataArray) with
  | None => NegInfinity
  | Some max => Num (inject_Z max / 255 * 100)%Q
  end.

(** [100 - audioSensitivity]. *)
Definition audioThreshold (audioSensitivity : Z) : Q :=
  inject_Z (100 - audioSensitivity).

(** [isSmartGuard ? 1000 : 300]. *)
Definition cooldownWindow (isSmartGuard : bool) : Z :=
  if isSmartGuard then 1000 else 300.

(** ** The event log *)

(** [prev => [newEvent, ...prev].slice(0, 50)]. *)
Definition prependEvent (newEvent : DetectionEvent)
    (prev : list DetectionEvent) : list DetectionEvent :=
  firstn 50 (newEvent :: prev).

(** ** Verifier adapter: the part of [analyzeFrame] before the [await] *)

Inductive TriggerSource : Type := motion | sound.

Definition analyzeFrame (base64Image : string) (triggerSource : TriggerSource)
    (s : AppState) : AppState :=
  if isAnalyzing s then s
  else
    let s := setIsAnalyzing true s in
    setPending (pending s ++ [base64Image])%list s.

(** ** The tick *)

(** What the browser hands to one run of [detectMotion].  The two calls of
    [canvas.getContext('2d', ...)] are on the same canvas and return the same
    context, or [null] both times. *)
Record TickEnv : Type := mkEnv {
  now : Z;                                   (* Date.now() *)
  videoRef : bool;                           (* videoRef.current is set *)
  canvasRef : bool;                          (* canvasRef.current is set *)
  getByteFrequencyData : nat -> Byte.byte;   (* bin k of the analyser *)
  getContext : bool;                         (* canvas.getContext('2d') is not null *)
  getImageData : ImageData;                  (* the frame drawn on the canvas *)
  soundSnapshot : string;                    (* canvas.toDataURL, audio branch *)
  soundId : string;                          (* Math.random()..., audio branch *)
  soundDate : Z;                             (* new Date(), audio branch *)
  motionSnapshot : string;
  motionId : string;
  motionDate : Z
}.

(** [new Uint8Array(frequencyBinCount)] once [getByteFrequencyData] has
    filled it. *)
Definition dataArrayOf (env : TickEnv) (analyser : AnalyserNode) : list Byte.byte :=
  map (getByteFrequencyData env) (seq 0 (Z.to_nat (frequencyBinCount analyser))).

(** The block under [// Audio Level Detection]. *)
Definition detectAudio (env : TickEnv) (s : AppState) : AppState :=
  match analyserRef s with
  | None => s
  | Some analyser =>
      let dataArray := dataArrayOf env analyser in
      let normalizedLevel := normalizedLevelOf dataArray in
      let s := setAudioLevel normalizedLevel s in
      if number_gt normalizedLevel (audioThreshold (audioSensitivity s)) then
        if cooldownWindow (isSmartGuard s) <? now env - lastDetectionTimeRef s then
          let s := setLastDetectionTimeRef (now env) s in
          if getContext env then
            let snapshot := soundSnapshot env in
            if isSmartGuard s then analyzeFrame snapshot sound s
            else
              let s := setIsSuspicious true s in
              let newEvent :=
                {| id := soundId env; timestamp := soundDate env;
                   image := snapshot; ev_isSuspicious := true;
                   reason := JStr "Instant Sound Alert" |} in
              setEvents (prependEvent newEvent) s
          else s
        else s
      else s
  end.

(** The block under [if (prevFrameRef.current)]. *)
Definition compareFrames (env : TickEnv) (currentFrame prevFrame : ImageData)
    (s : AppState) : AppState :=
  let motionLevel :=
    motionLevelOf canvas_width canvas_height (data currentFrame) (data prevFrame) in
  let s := setCurrentMotionLevel motionLevel s in
  let threshold := motionThreshold (sensitivity s) in
  if Qgtb motionLevel threshold then
    let s := setLastMotionDetected true s in
    if cooldownWindow (isSmartGuard s) <? now env - lastDetectionTimeRef s then
      let s := setLastDetectionTimeRef (now env) s in
      let snapshot := motionSnapshot env in
      if isSmartGuard s then analyzeFrame snapshot motion s
      else
        let s := setIsSuspicious true s in
        let newEvent :=
          {| id := motionId env; timestamp := motionDate env;
             image := snapshot; ev_isSuspicious := true;
             reason := JStr "Instant Motion Alert" |} in
        setEvents (prependEvent newEvent) s
    else s
  else s.

(** From the 100 ms cadence gate to the end of [detectMotion]. *)
Definition detectFrame (env : TickEnv) (s : AppState) : AppState :=
  if now env - lastFrameTimeRef s <? 100 then s
  else
    let s := setLastFrameTimeRef (now env) s in
    if negb (getContext env) then s
    else
      let currentFrame := getImageData env in
      let s :=
        match prevFrameRef s with
        | Some prevFrame => compareFrames env currentFrame prevFrame s
        | None => s
        end in
      setPrevFrameRef (Some currentFrame) s.

Definition detectMotion (env : TickEnv) (s : AppState) : AppState :=
  if negb (isMonitoring s) || negb (videoRef env) || negb (canvasRef env) then s
  else detectFrame env (detectAudio env s).

(** ** String primitives used by the adapter

    Characters are those of [string]; the JavaScript methods work on code
    units in the same way. *)

(** [s.indexOf(c)], [-1] when [c] does not occur. *)
Fixpoint indexOf (c : ascii) (s : string) : Z :=
  match s with
  | EmptyString => -1
  | String a rest =>
      if Ascii.eqb a c then 0
      else let r := indexOf c rest in if r <? 0 then -1 else r + 1
  end.

(** [s.lastIndexOf(c)], [-1] when [c] does not occur. *)
Fixpoint lastIndexOf (c : ascii) (s : string) : Z :=
  match s with
  | EmptyString => -1
  | String a rest =>
      let r := lastIndexOf c rest in
      if 0 <=? r then r + 1 else if Ascii.eqb a c then 0 else -1
  end.

(** [s.substring(indexStart, indexEnd)]: both arguments are clamped to
    [0 .. s.length] and swapped when the first is the larger. *)
Definition js_substring (s : string) (indexStart indexEnd : Z) : string :=
  let len := Z.of_nat (String.length s) in
  let a := Z.min (Z.max indexStart 0) len in
  let b := Z.min (Z.max indexEnd 0) len in
  String.substring (Z.to_nat (Z.min a b)) (Z.to_nat (Z.max a b - Z.min a b)) s.

(** [text.substring(text.indexOf('{'), text.lastIndexOf('}') + 1)]. *)
Definition extractJson (text : string) : string :=
  js_substring text (indexOf "{"%char text) (lastIndexOf "}"%char text + 1).

(** How the awaited [generateContent] call settles: the promise rejects, or
    it resolves to a response whose [text] may be [undefined]. *)
Inductive Settled : Type :=
| Rejected
| Fulfilled (text : option string).

(** [response.text || "{}"]. *)
Definition responseText (text : option string) : string :=
  match text with
  | Some t => if String.eqb t "" then "{}" else t
  | None => "{}"
  end.

(** ** Session commands *)

(** Where [startCamera] stops: [getUserMedia] rejects, the audio graph
    throws after the two state setters, or everything succeeds. *)
Inductive StartOutcome : Type :=
| MediaDenied
| AudioSetupFailed
| MediaStarted.

Definition startCamera (o : StartOutcome) (s : AppState) : AppState :=
  match o with
  | MediaDenied => s
  | AudioSetupFailed =>
      let s := setStream (Some LiveStream) s in
      setIsMonitoring true s
  | MediaStarted =>
      let s := setStream (Some LiveStream) s in
      let s := setIsMonitoring true s in
      let analyser := {| fftSize := 256 |} in
      setAnalyserRef (Some analyser) s
  end.

Definition stopCamera (s : AppState) : AppState :=
  let s := setStream None s in
  let s := setIsMonitoring false s in
  setIsSuspicious false s.

Section Verifier.

(** [JSON.parse]: [None] when it throws. *)
Variable JSON_parse : string -> option JSON.

(** The [try] block of [analyzeFrame] from the point where the awaited
    request settles.  An exception (the request rejects, [JSON.parse] throws
    a [SyntaxError], reading [isSuspicious] of [null] throws a [TypeError])
    leaves the block with the state as it is. *)
Definition analyzeFrame_try (base64Image : string) (r : Settled)
    (newId : string) (newDate : Z) (s : AppState) : AppState :=
  match r with
  | Rejected => s
  | Fulfilled response_text =>
      let text := responseText response_text in
      match JSON_parse (extractJson text) with
      | None => s
      | Some JNull => s
      | Some result =>
          if truthy (property "isSuspicious" result) then
            let s := setIsSuspicious true s in
            let newEvent :=
              {| id := newId; timestamp := newDate;
                 image := base64Image; ev_isSuspicious := true;
                 reason := js_or (property "reason" result)
                                 (JStr "Person detected") |} in
            setEvents (prependEvent newEvent) s
          else s
      end
  end.

(** The continuation of [analyzeFrame]: [try], [catch], then [finally]. *)
Definition analyzeFrame_settle (base64Image : string) (r : Settled)
    (newId : string) (newDate : Z) (s : AppState) : AppState :=
  let s := analyzeFrame_try base64Image r newId newDate s in
  setIsAnalyzing false s.

(** A request is confirmed when it resolves, its text parses to a value
    other than [null], and the value's [isSuspicious] is truthy. *)
Definition confirmed (r : Settled) : bool :=
  match r with
  | Rejected => false
  | Fulfilled text =>
      match JSON_parse (extractJson (responseText text)) with
      | Some result => truthy (property "isSuspicious" result)
      | None => false
      end
  end.

(** The event the adapter builds for a confirmed request. *)
Definition verifierEvent (base64Image : string) (r : Settled)
    (newId : string) (newDate : Z) : DetectionEvent :=
  {| id := newId; timestamp := newDate; image := base64Image;
     ev_isSuspicious := true;
     reason :=
       match r with
       | Fulfilled text =>
           match JSON_parse (extractJson (responseText text)) with
           | Some result =>
               js_or (property "reason" result) (JStr "Person detected")
           | None => JStr "Person detected"
           end
       | Rejected => JStr "Person detected"
       end |}.

(** ** The application as a transition system *)

Inductive Action : Type :=
| StartCamera (o : StartOutcome)                   (* "Start Monitoring" *)
| StopCamera                                       (* "Stop Feed" *)
| Tick (env : TickEnv)                             (* animation frame *)
| Settle (r : Settled) (newId : string) (newDate : Z)  (* the request settles *)
| Dismiss                                          (* setIsSuspicious(false) *)
| ClearLogs                                        (* setEvents([]) *)
| ToggleMute                                       (* setIsMuted(!isMuted) *)
| ToggleSmartGuard                                 (* setIsSmartGuard(!isSmartGuard) *)
| SlideSensitivity (v : Z)
| SlideAudioSensitivity (v : Z)
| MotionFlagTimeout.                               (* the 1000 ms setTimeout *)

Definition step (a : Action) (s : AppState) : AppState :=
  match a with
  | StartCamera o => startCamera o s
  | StopCamera => stopCamera s
  | Tick env => detectMotion env s
  | Settle r newId newDate =>
      match pending s with
      | [] => s
      | base64Image :: rest =>
          analyzeFrame_settle base64Image r newId newDate (setPending rest s)
      end
  | Dismiss => setIsSuspicious false s
  | ClearLogs => setEvents (fun _ => []) s
  | ToggleMute => setIsMuted (negb (isMuted s)) s
  | ToggleSmartGuard => setIsSmartGuard (negb (isSmartGuard s)) s
  | SlideSensitivity v => setSensitivity v s
  | SlideAudioSensitivity v => setAudioSensitivity v s
  | MotionFlagTimeout => setLastMotionDetected false s
  end.

(** The sliders are [<input type="range" min="1" max="99">]. *)
Definition possible (a : Action) : Prop :=
  match a with
  | SlideSensitivity v | SlideAudioSensitivity v => 1 <= v <= 99
  | _ => True
  end.

Definition run (actions : list Action) (s : AppState) : AppState :=
  fold_left (fun s a => step a s) actions s.

Inductive reachable : AppState -> Prop :=
| reachable_initial : reachable initialState
| reachable_step : forall a s,
    reachable s -> possible a -> reachable (step a s).

End Verifier.

(** ** Vocabulary for the statements

    Each definition names a condition or a value that [detectMotion] computes
    on the way, so that the theorems can speak about it. *)

(** Inserting a sequence of events, oldest first. *)
Definition insertAll (es : list DetectionEvent) (log : list DetectionEvent)
    : list DetectionEvent :=
  fold_left (fun log e => prependEvent e log) es log.

(** The tick gets past its first guard. *)
Definition live (env : TickEnv) (s : AppState) : bool :=
  isMonitoring s && videoRef env && canvasRef env.

(** [now - lastDetectionTimeRef.current > (isSmartGuard ? 1000 : 300)]. *)
Definition cooledDown (env : TickEnv) (s : AppState) : bool :=
  cooldownWindow (isSmartGuard s) <? now env - lastDetectionTimeRef s.

(** The audio score of the tick, when there is an analyser. *)
Definition audioScore (env : TickEnv) (s : AppState) : option number :=
  match analyserRef s with
  | Some analyser => Some (normalizedLevelOf (dataArrayOf env analyser))
  | None => None
  end.

(** The audio reading crosses its threshold. *)
Definition audioCandidate (env : TickEnv) (s : AppState) : bool :=
  match audioScore env s with
  | Some level => number_gt level (audioThreshold (audioSensitivity s))
  | None => false
  end.

(** The tick reaches the frame comparison: the 100 ms gate is open, the
    canvas has a context and a previous frame is stored. *)
Definition comparesFrames (env : TickEnv) (s : AppState) : bool :=
  negb (now env - lastFrameTimeRef s <? 100) && getContext env &&
  match prevFrameRef s with Some _ => true | None => false end.

(** The motion score of the tick against the stored frame. *)
Definition motionScore (env : TickEnv) (s : AppState) : option Q :=
  match prevFrameRef s with
  | Some prevFrame =>
      Some (motionLevelOf canvas_width canvas_height
              (data (getImageData env)) (data prevFrame))
  | None => None
  end.

(** The motion reading crosses its threshold. *)
Definition motionCandidate (env : TickEnv) (s : AppState) : bool :=
  comparesFrames env s &&
  match motionScore env s with
  | Some level => Qgtb level (motionThreshold (sensitivity s))
  | None => false
  end.

(** A frame as [getImageData(0, 0, canvas.width, canvas.height)] returns it:
    four bytes for each pixel of the canvas. *)
Definition canvasRaster (frame : ImageData) : Prop :=
  Z.of_nat (List.length (data frame)) = 4 * canvas_width * canvas_height.

(** The single-flight condition: the flag is set exactly while a request is
    outstanding, and there is at most one. *)
Definition single_flight (s : AppState) : Prop :=
  (List.length (pending s) <= 1)%nat /\
  (isAnalyzing s = true <-> pending s <> []).

(** Until a first frame has been stored nothing has been scored. *)
Definition no_frame_yet (s : AppState) : Prop :=
  prevFrameRef s = None ->
  currentMotionLevel s = 0%Q /\ lastMotionDetected s = false.

(** The analyser is the one [startCamera] builds. *)
Definition analyser_shape (s : AppState) : Prop :=
  forall analyser, analyserRef s = Some analyser -> fftSize analyser = 256.

Definition invariant (s : AppState) : Prop :=
  (List.length (events s) <= 50)%nat /\ single_flight s /\
  no_frame_yet s /\ analyser_shape s.

(** [c] occurs in [s]. *)
Definition occurs (c : ascii) (s : string) : Prop :=
  In c (list_ascii_of_string s).

(** The byte of a frame at an offset inside it. *)
Definition byteAt (frame : ImageData) (i : nat) : Z :=
  u8 (nth i (data frame) Byte.x00).

(** The summed absolute differences of the red, green and blue bytes of the
    pixel that starts at offset [i]. *)
Definition colourDistance (frame prevFrame : ImageData) (i : nat) : Z :=
  Z.abs (byteAt frame i - byteAt prevFrame i)
  + Z.abs (byteAt frame (i + 1) - byteAt prevFrame (i + 1))
  + Z.abs (byteAt frame (i + 2) - byteAt prevFrame (i + 2)).

(** A score that is zero. *)
Definition number_is_zero (n : number) : Prop :=
  match n with
  | Num q => (q == 0)%Q
  | NegInfinity => False
  end.

(** The events the two instant branches build. *)
Definition soundEvent (env : TickEnv) : DetectionEvent :=
  {| id := soundId env; timestamp := soundDate env;
     image := soundSnapshot env; ev_isSuspicious := true;
     reason := JStr "Instant Sound Alert" |}.

Definition motionEvent (env : TickEnv) : DetectionEvent :=
  {| id := motionId env; timestamp := motionDate env;
     image := motionSnapshot env; ev_isSuspicious := true;
     reason := JStr "Instant Motion Alert" |}.

(** What an instant alert does to the state: one event with a fixed label in
    front of the log, the alarm on, the verifier left alone. *)
Definition instantAlert (s s' : AppState) : Prop :=
  exists e,
    events s' = prependEvent e (events s) /\
    (reason e = JStr "Instant Motion Alert" \/
     reason e = JStr "Instant Sound Alert") /\
    ev_isSuspicious e = true /\
    isSuspicious s' = true /\
    pending s' = pending s /\ isAnalyzing s' = isAnalyzing s.

(** What the sentence on stopping a session asks of [stopCamera]. *)
Definition runStateCleared (s s' : AppState) : Prop :=
  prevFrameRef s' = None /\
  (currentMotionLevel s' == 0)%Q /\
  number_is_zero (audioLevel s') /\
  lastDetectionTimeRef s' = 0 /\
  events s' = events s.

(** ** Concrete inputs for the examples *)

(** A black frame of the canvas size. *)
Definition blackFrame : ImageData :=
  mkImageData (repeat Byte.x00 (Z.to_nat (4 * canvas_width * canvas_height))).

(** A tick at time [t] during which every analyser bin is at full scale. *)
Definition loudEnv (t : Z) : TickEnv :=
  {| now := t; videoRef := true; canvasRef := true;
     getByteFrequencyData := fun _ => Byte.xff;
     getContext := true; getImageData := blackFrame;
     soundSnapshot := "data:image/jpeg;base64,/9j/4AAQ";
     soundId := "k3x9q0a1z"; soundDate := t;
     motionSnapshot := "data:image/jpeg;base64,/9j/4AAR";
     motionId := "p7m2c5d8w"; motionDate := t |}.

(** The same tick on a canvas that yields no 2D context. *)
Definition loudEnvNoContext (t : Z) : TickEnv :=
  {| now := t; videoRef := true; canvasRef := true;
     getByteFrequencyData := fun _ => Byte.xff;
     getContext := false; getImageData := blackFrame;
     soundSnapshot := "data:image/jpeg;base64,/9j/4AAQ";
     soundId := "k3x9q0a1z"; soundDate := t;
     motionSnapshot := "data:image/jpeg;base64,/9j/4AAR";
     motionId := "p7m2c5d8w"; motionDate := t |}.

(** A parser that knows one answer of the service and rejects the rest. *)
Definition dquote : string := String (ascii_of_nat 34) EmptyString.

Definition sampleBody : string :=
  dquote ++ "isSuspicious" ++ dquote ++ ": false".

Definition sampleAnswer : string := "{" ++ sampleBody ++ "}".

Definition sampleParse (text : string) : option JSON :=
  if String.eqb text sampleAnswer
  then Some (JObj [("isSuspicious", JBool false); ("reason", JStr "empty room")])
  else None.

(** A session that has just started, and the same with Smart Guard off. *)
Definition startedState : AppState := startCamera MediaStarted initialState.

Definition instantState : AppState := setIsSmartGuard false startedState.

(** A session in which one verification is outstanding. *)
Definition scanningState : AppState := detectMotion (loudEnv 5000) startedState.

(** A numbered event, for exercising the log. *)
Definition numberedEvent (n : nat) : DetectionEvent :=
  {| id := String (ascii_of_nat (48 + n)) EmptyString;
     timestamp := Z.of_nat n; image := "data:image/jpeg;base64,";
     ev_isSuspicious := true; reason := JStr "Instant Motion Alert" |}.

(** * Properties *)

(** ** Tactics for the state record *)

Ltac st_simpl :=
  cbn [isMonitoring stream isSuspicious events isMuted sensitivity
       audioSensitivity isSmartGuard isAnalyzing lastMotionDetected
       audioLevel currentMotionLevel prevFrameRef lastFrameTimeRef
       lastDetectionTimeRef analyserRef pending
       setIsMonitoring setStream setIsSuspicious setEvents setIsMuted
       setSensitivity setAudioSensitivity setIsSmartGuard setIsAnalyzing
       setLastMotionDetected setAudioLevel setCurrentMotionLevel
       setPrevFrameRef setLastFrameTimeRef setLastDetectionTimeRef
       setAnalyserRef setPending negb orb andb] in *.

(** The leftmost test of a compound condition. *)
Ltac first_test c :=
  lazymatch c with
  | andb ?a _ => first_test a
  | orb ?a _ => first_test a
  | negb ?a => first_test a
  | _ => constr:(c)
  end.

Ltac split_branch :=
  match goal with
  | |- context [if ?c then _ else _] =>
      let a := first_test c in destruct a eqn:?
  | |- context [match ?c with Some _ => _ | None => _ end] => destruct c eqn:?
  end.

Ltac tick_cases :=
  unfold detectMotion, detectFrame, detectAudio, compareFrames, analyzeFrame;
  st_simpl; repeat (split_branch; st_simpl).

(** ** The event log *)

Lemma prependEvent_length (e : DetectionEvent) (l : list DetectionEvent) :
  (List.length (prependEvent e l) <= 50)%nat.
Proof.
  unfold prependEvent. apply firstn_le_length.
Qed.

Lemma prependEvent_below (e : DetectionEvent) (l : list DetectionEvent) :
  (List.length l < 50)%nat -> prependEvent e l = e :: l.
Proof.
  intros H. unfold prependEvent. apply firstn_all2. simpl. lia.
Qed.

Lemma prependEvent_full (e : DetectionEvent) (l : list DetectionEvent) :
  List.length l = 50%nat -> prependEvent e l = e :: removelast l.
Proof.
  intros H. unfold prependEvent.
  change (firstn 50 (e :: l)) with (e :: firstn 49 l). f_equal.
  rewrite removelast_firstn_len, H. reflexivity.
Qed.

Lemma firstn_app_firstn {A} (n : nat) (a b : list A) :
  firstn n (a ++ firstn n b)%list = firstn n (a ++ b)%list.
Proof.
  rewrite !firstn_app, firstn_firstn. do 2 f_equal. lia.
Qed.

Lemma insertAll_firstn (es log : list DetectionEvent) :
  (List.length log <= 50)%nat ->
  insertAll es log = firstn 50 (rev es ++ log)%list.
Proof.
  revert log. induction es as [|e es IH]; intros log Hlog.
  - unfold insertAll. cbn [fold_left rev app].
    symmetry. apply firstn_all2. exact Hlog.
  - unfold insertAll in *. cbn [fold_left rev].
    rewrite IH by apply prependEvent_length.
    unfold prependEvent. rewrite firstn_app_firstn, <- app_assoc.
    reflexivity.
Qed.


(** ** The audio block, field by field *)

Ltac audio_cases :=
  unfold detectAudio, audioCandidate, audioScore, cooledDown, analyzeFrame,
    soundEvent;
  st_simpl; repeat (split_branch; st_simpl);
  try reflexivity; try discriminate; try congruence.

Lemma detectAudio_lastDetectionTimeRef (env : TickEnv) (s : AppState) :
  lastDetectionTimeRef (detectAudio env s) =
  if audioCandidate env s && cooledDown env s then now env
  else lastDetectionTimeRef s.
Proof. audio_cases. Qed.

Lemma detectAudio_events (env : TickEnv) (s : AppState) :
  events (detectAudio env s) =
  if audioCandidate env s && cooledDown env s && getContext env
     && negb (isSmartGuard s)
  then prependEvent (soundEvent env) (events s)
  else events s.
Proof. audio_cases. Qed.

Lemma detectAudio_isSuspicious (env : TickEnv) (s : AppState) :
  isSuspicious (detectAudio env s) =
  if audioCandidate env s && cooledDown env s && getContext env
     && negb (isSmartGuard s)
  then true
  else isSuspicious s.
Proof. audio_cases. Qed.

Lemma detectAudio_pending (env : TickEnv) (s : AppState) :
  pending (detectAudio env s) =
  if audioCandidate env s && cooledDown env s && getContext env
     && isSmartGuard s && negb (isAnalyzing s)
  then (pending s ++ [soundSnapshot env])%list
  else pending s.
Proof. audio_cases. Qed.

Lemma detectAudio_isAnalyzing (env : TickEnv) (s : AppState) :
  isAnalyzing (detectAudio env s) =
  if audioCandidate env s && cooledDown env s && getContext env
     && isSmartGuard s
  then true
  else isAnalyzing s.
Proof. audio_cases. Qed.

Lemma detectAudio_audioLevel (env : TickEnv) (s : AppState) :
  audioLevel (detectAudio env s) =
  match audioScore env s with
  | Some level => level
  | None => audioLevel s
  end.
Proof. audio_cases. Qed.

(** The fields the audio block never writes. *)
Lemma detectAudio_untouched (env : TickEnv) (s : AppState) :
  let s' := detectAudio env s in
  isMonitoring s' = isMonitoring s /\ stream s' = stream s /\
  isMuted s' = isMuted s /\ sensitivity s' = sensitivity s /\
  audioSensitivity s' = audioSensitivity s /\
  isSmartGuard s' = isSmartGuard s /\
  lastMotionDetected s' = lastMotionDetected s /\
  currentMotionLevel s' = currentMotionLevel s /\
  prevFrameRef s' = prevFrameRef s /\
  lastFrameTimeRef s' = lastFrameTimeRef s /\
  analyserRef s' = analyserRef s.
Proof.
  cbv zeta. audio_cases; repeat split; congruence.
Qed.

(** ** The frame block, field by field *)

Ltac frame_cases :=
  unfold detectFrame, compareFrames, motionCandidate, comparesFrames,
    motionScore, cooledDown, analyzeFrame, motionEvent;
  st_simpl; repeat (split_branch; st_simpl);
  try reflexivity; try discriminate; try congruence.

Lemma detectFrame_lastDetectionTimeRef (env : TickEnv) (s : AppState) :
  lastDetectionTimeRef (detectFrame env s) =
  if motionCandidate env s && cooledDown env s then now env
  else lastDetectionTimeRef s.
Proof. frame_cases. Qed.

Lemma detectFrame_events (env : TickEnv) (s : AppState) :
  events (detectFrame env s) =
  if motionCandidate env s && cooledDown env s && negb (isSmartGuard s)
  then prependEvent (motionEvent env) (events s)
  else events s.
Proof. frame_cases. Qed.

Lemma detectFrame_isSuspicious (env : TickEnv) (s : AppState) :
  isSuspicious (detectFrame env s) =
  if motionCandidate env s && cooledDown env s && negb (isSmartGuard s)
  then true
  else isSuspicious s.
Proof. frame_cases. Qed.

Lemma detectFrame_pending (env : TickEnv) (s : AppState) :
  pending (detectFrame env s) =
  if motionCandidate env s && cooledDown env s && isSmartGuard s
     && negb (isAnalyzing s)
  then (pending s ++ [motionSnapshot env])%list
  else pending s.
Proof. frame_cases. Qed.

Lemma detectFrame_isAnalyzing (env : TickEnv) (s : AppState) :
  isAnalyzing (detectFrame env s) =
  if motionCandidate env s && cooledDown env s && isSmartGuard s
  then true
  else isAnalyzing s.
Proof. frame_cases. Qed.

Lemma detectFrame_lastMotionDetected (env : TickEnv) (s : AppState) :
  lastMotionDetected (detectFrame env s) =
  if motionCandidate env s then true else lastMotionDetected s.
Proof. frame_cases. Qed.

Lemma detectFrame_currentMotionLevel (env : TickEnv) (s : AppState) :
  currentMotionLevel (detectFrame env s) =
  if comparesFrames env s then
    match motionScore env s with
    | Some level => level
    | None => currentMotionLevel s
    end
  else currentMotionLevel s.
Proof. frame_cases. Qed.

Lemma detectFrame_prevFrameRef (env : TickEnv) (s : AppState) :
  prevFrameRef (detectFrame env s) =
  if negb (now env - lastFrameTimeRef s <? 100) && getContext env
  then Some (getImageData env)
  else prevFrameRef s.
Proof. frame_cases. Qed.

Lemma detectFrame_lastFrameTimeRef (env : TickEnv) (s : AppState) :
  lastFrameTimeRef (detectFrame env s) =
  if now env - lastFrameTimeRef s <? 100 then lastFrameTimeRef s else now env.
Proof. frame_cases. Qed.

(** The fields the frame block never writes. *)
Lemma detectFrame_untouched (env : TickEnv) (s : AppState) :
  let s' := detectFrame env s in
  isMonitoring s' = isMonitoring s /\ stream s' = stream s /\
  isMuted s' = isMuted s /\ sensitivity s' = sensitivity s /\
  audioSensitivity s' = audioSensitivity s /\
  isSmartGuard s' = isSmartGuard s /\
  audioLevel s' = audioLevel s /\
  analyserRef s' = analyserRef s.
Proof.
  cbv zeta. frame_cases; repeat split; congruence.
Qed.

(** ** The whole tick *)

Lemma detectMotion_live (env : TickEnv) (s : AppState) :
  live env s = true ->
  detectMotion env s = detectFrame env (detectAudio env s).
Proof.
  unfold live, detectMotion. intros H.
  apply andb_true_iff in H as [H Hc]. apply andb_true_iff in H as [Hm Hv].
  rewrite Hm, Hv, Hc. reflexivity.
Qed.

Lemma detectMotion_not_live (env : TickEnv) (s : AppState) :
  live env s = false -> detectMotion env s = s.
Proof.
  unfold live, detectMotion. intros H.
  destruct (isMonitoring s), (videoRef env), (canvasRef env);
    simpl in *; congruence.
Qed.

Lemma cooldownWindow_pos (b : bool) : 300 <= cooldownWindow b.
Proof. destruct b; simpl; lia. Qed.

(** The frame block tests its conditions after the audio block has run. *)
Lemma motionCandidate_after_audio (env : TickEnv) (s : AppState) :
  motionCandidate env (detectAudio env s) = motionCandidate env s.
Proof.
  pose proof (detectAudio_untouched env s) as H. cbv zeta in H.
  destruct H as (_ & _ & _ & Hs & _ & _ & _ & _ & Hp & Ht & _).
  unfold motionCandidate, comparesFrames, motionScore.
  rewrite Hs, Hp, Ht. reflexivity.
Qed.

Lemma comparesFrames_after_audio (env : TickEnv) (s : AppState) :
  comparesFrames env (detectAudio env s) = comparesFrames env s.
Proof.
  pose proof (detectAudio_untouched env s) as H. cbv zeta in H.
  destruct H as (_ & _ & _ & _ & _ & _ & _ & _ & Hp & Ht & _).
  unfold comparesFrames. rewrite Hp, Ht. reflexivity.
Qed.

Lemma motionScore_after_audio (env : TickEnv) (s : AppState) :
  motionScore env (detectAudio env s) = motionScore env s.
Proof.
  pose proof (detectAudio_untouched env s) as H. cbv zeta in H.
  destruct H as (_ & _ & _ & _ & _ & _ & _ & _ & Hp & _).
  unfold motionScore. rewrite Hp. reflexivity.
Qed.

Lemma isSmartGuard_after_audio (env : TickEnv) (s : AppState) :
  isSmartGuard (detectAudio env s) = isSmartGuard s.
Proof. apply (detectAudio_untouched env s). Qed.

(** An audio acceptance restarts the clock, so the motion reading of the
    same tick finds the window closed. *)
Lemma cooledDown_after_audio (env : TickEnv) (s : AppState) :
  cooledDown env (detectAudio env s) =
  cooledDown env s && negb (audioCandidate env s).
Proof.
  unfold cooledDown at 1.
  rewrite isSmartGuard_after_audio, detectAudio_lastDetectionTimeRef.
  destruct (audioCandidate env s); simpl.
  - destruct (cooledDown env s) eqn:Hc; simpl.
    + pose proof (cooldownWindow_pos (isSmartGuard s)).
      apply Z.ltb_ge. lia.
    + exact Hc.
  - rewrite andb_true_r. reflexivity.
Qed.

Lemma detectMotion_lastDetectionTimeRef (env : TickEnv) (s : AppState) :
  lastDetectionTimeRef (detectMotion env s) =
  if live env s && (audioCandidate env s || motionCandidate env s)
     && cooledDown env s
  then now env
  else lastDetectionTimeRef s.
Proof.
  destruct (live env s) eqn:Hl.
  - rewrite detectMotion_live by exact Hl.
    rewrite detectFrame_lastDetectionTimeRef, motionCandidate_after_audio,
      cooledDown_after_audio, detectAudio_lastDetectionTimeRef.
    destruct (audioCandidate env s), (motionCandidate env s),
      (cooledDown env s); reflexivity.
  - rewrite detectMotion_not_live by exact Hl. reflexivity.
Qed.

Lemma detectMotion_events (env : TickEnv) (s : AppState) :
  events (detectMotion env s) =
  if live env s && cooledDown env s && negb (isSmartGuard s) then
    if audioCandidate env s then
      if getContext env then prependEvent (soundEvent env) (events s)
      else events s
    else if motionCandidate env s
         then prependEvent (motionEvent env) (events s)
         else events s
  else events s.
Proof.
  destruct (live env s) eqn:Hl.
  - rewrite detectMotion_live by exact Hl.
    rewrite detectFrame_events, motionCandidate_after_audio,
      cooledDown_after_audio, isSmartGuard_after_audio, detectAudio_events.
    destruct (audioCandidate env s), (motionCandidate env s),
      (cooledDown env s), (isSmartGuard s), (getContext env); reflexivity.
  - rewrite detectMotion_not_live by exact Hl. reflexivity.
Qed.

Lemma detectMotion_isSuspicious (env : TickEnv) (s : AppState) :
  isSuspicious (detectMotion env s) =
  if live env s && cooledDown env s && negb (isSmartGuard s)
     && ((audioCandidate env s && getContext env)
         || (negb (audioCandidate env s) && motionCandidate env s))
  then true
  else isSuspicious s.
Proof.
  destruct (live env s) eqn:Hl.
  - rewrite detectMotion_live by exact Hl.
    rewrite detectFrame_isSuspicious, motionCandidate_after_audio,
      cooledDown_after_audio, isSmartGuard_after_audio,
      detectAudio_isSuspicious.
    destruct (audioCandidate env s), (motionCandidate env s),
      (cooledDown env s), (isSmartGuard s), (getContext env); reflexivity.
  - rewrite detectMotion_not_live by exact Hl. reflexivity.
Qed.

Lemma detectMotion_pending (env : TickEnv) (s : AppState) :
  pending (detectMotion env s) =
  if live env s && cooledDown env s && isSmartGuard s && negb (isAnalyzing s)
  then
    if audioCandidate env s then
      if getContext env then (pending s ++ [soundSnapshot env])%list
      else pending s
    else if motionCandidate env s
         then (pending s ++ [motionSnapshot env])%list
         else pending s
  else pending s.
Proof.
  destruct (live env s) eqn:Hl.
  - rewrite detectMotion_live by exact Hl.
    rewrite detectFrame_pending, motionCandidate_after_audio,
      cooledDown_after_audio, isSmartGuard_after_audio,
      detectAudio_isAnalyzing, detectAudio_pending.
    destruct (audioCandidate env s), (motionCandidate env s),
      (cooledDown env s), (isSmartGuard s), (getContext env),
      (isAnalyzing s); reflexivity.
  - rewrite detectMotion_not_live by exact Hl. reflexivity.
Qed.

Lemma detectMotion_isAnalyzing (env : TickEnv) (s : AppState) :
  isAnalyzing (detectMotion env s) =
  if live env s && cooledDown env s && isSmartGuard s
     && ((audioCandidate env s && getContext env)
         || (negb (audioCandidate env s) && motionCandidate env s))
  then true
  else isAnalyzing s.
Proof.
  destruct (live env s) eqn:Hl.
  - rewrite detectMotion_live by exact Hl.
    rewrite detectFrame_isAnalyzing, motionCandidate_after_audio,
      cooledDown_after_audio, isSmartGuard_after_audio,
      detectAudio_isAnalyzing.
    destruct (audioCandidate env s), (motionCandidate env s),
      (cooledDown env s), (isSmartGuard s), (getContext env),
      (isAnalyzing s); reflexivity.
  - rewrite detectMotion_not_live by exact Hl. reflexivity.
Qed.

Lemma detectMotion_lastMotionDetected (env : TickEnv) (s : AppState) :
  lastMotionDetected (detectMotion env s) =
  if live env s && motionCandidate env s then true
  else lastMotionDetected s.
Proof.
  destruct (live env s) eqn:Hl.
  - rewrite detectMotion_live by exact Hl.
    rewrite detectFrame_lastMotionDetected, motionCandidate_after_audio.
    simpl. destruct (motionCandidate env s); [reflexivity|].
    apply (detectAudio_untouched env s).
  - rewrite detectMotion_not_live by exact Hl. reflexivity.
Qed.

Lemma detectMotion_currentMotionLevel (env : TickEnv) (s : AppState) :
  currentMotionLevel (detectMotion env s) =
  if live env s && comparesFrames env s then
    match motionScore env s with
    | Some level => level
    | None => currentMotionLevel s
    end
  else currentMotionLevel s.
Proof.
  pose proof (detectAudio_untouched env s) as H. cbv zeta in H.
  destruct H as (_ & _ & _ & _ & _ & _ & _ & Hc & _).
  destruct (live env s) eqn:Hl.
  - rewrite detectMotion_live by exact Hl.
    rewrite detectFrame_currentMotionLevel, comparesFrames_after_audio,
      motionScore_after_audio, Hc. reflexivity.
  - rewrite detectMotion_not_live by exact Hl. reflexivity.
Qed.

Lemma detectMotion_prevFrameRef (env : TickEnv) (s : AppState) :
  prevFrameRef (detectMotion env s) =
  if live env s && negb (now env - lastFrameTimeRef s <? 100) && getContext env
  then Some (getImageData env)
  else prevFrameRef s.
Proof.
  pose proof (detectAudio_untouched env s) as H. cbv zeta in H.
  destruct H as (_ & _ & _ & _ & _ & _ & _ & _ & Hp & Ht & _).
  destruct (live env s) eqn:Hl.
  - rewrite detectMotion_live by exact Hl.
    rewrite detectFrame_prevFrameRef, Hp, Ht. reflexivity.
  - rewrite detectMotion_not_live by exact Hl. reflexivity.
Qed.

Lemma detectMotion_audioLevel (env : TickEnv) (s : AppState) :
  audioLevel (detectMotion env s) =
  if live env s then
    match audioScore env s with
    | Some level => level
    | None => audioLevel s
    end
  else audioLevel s.
Proof.
  destruct (live env s) eqn:Hl.
  - rewrite detectMotion_live by exact Hl.
    pose proof (detectFrame_untouched env (detectAudio env s)) as H.
    cbv zeta in H. destruct H as (_ & _ & _ & _ & _ & _ & Ha & _).
    rewrite Ha. apply detectAudio_audioLevel.
  - rewrite detectMotion_not_live by exact Hl. reflexivity.
Qed.

(** The fields no tick writes. *)
Lemma detectMotion_untouched (env : TickEnv) (s : AppState) :
  let s' := detectMotion env s in
  isMonitoring s' = isMonitoring s /\ stream s' = stream s /\
  isMuted s' = isMuted s /\ sensitivity s' = sensitivity s /\
  audioSensitivity s' = audioSensitivity s /\
  isSmartGuard s' = isSmartGuard s /\
  analyserRef s' = analyserRef s.
Proof.
  cbv zeta. destruct (live env s) eqn:Hl.
  - rewrite detectMotion_live by exact Hl.
    pose proof (detectFrame_untouched env (detectAudio env s)) as H.
    pose proof (detectAudio_untouched env s) as H'. cbv zeta in H, H'.
    repeat split; intuition congruence.
  - rewrite detectMotion_not_live by exact Hl. repeat split.
Qed.

(** ** Arithmetic of the two estimators *)

Lemma inject_Z_bounds (lo hi x : Z) :
  lo <= x <= hi -> (inject_Z lo <= inject_Z x <= inject_Z hi)%Q.
Proof.
  intros [H1 H2]. split; rewrite <- Zle_Qle; assumption.
Qed.

Lemma Qgtb_lt (x y : Q) : Qgtb x y = true <-> (y < x)%Q.
Proof.
  unfold Qgtb. rewrite (Qgt_alt x y).
  destruct (x ?= y)%Q; split; intros H; try discriminate; reflexivity.
Qed.

Lemma number_gt_lt (q y : Q) : number_gt (Num q) y = true <-> (y < q)%Q.
Proof. apply Qgtb_lt. Qed.

Lemma sampleOffsets_length (len : nat) :
  List.length (sampleOffsets len) = ((len + 15) / 16)%nat.
Proof.
  unfold sampleOffsets. rewrite length_map, length_seq. reflexivity.
Qed.

(** The loop visits the multiples of sixteen below [len], and nothing else. *)
Lemma sampleOffsets_In (len i : nat) :
  In i (sampleOffsets len) <-> (i < len)%nat /\ (i mod 16 = 0)%nat.
Proof.
  unfold sampleOffsets. rewrite in_map_iff. split.
  - intros (k & <- & Hk). apply in_seq in Hk.
    split.
    + assert (k < (len + 15) / 16)%nat as Hlt by lia.
      pose proof (Nat.div_mod_eq (len + 15) 16).
      pose proof (Nat.mod_upper_bound (len + 15) 16). lia.
    + rewrite Nat.mul_comm. apply Nat.Div0.mod_mul.
  - intros [Hlt Hmod]. exists (i / 16)%nat. split.
    + pose proof (Nat.div_mod_eq i 16). lia.
    + apply in_seq. split; [lia|].
      pose proof (Nat.div_mod_eq i 16).
      pose proof (Nat.div_mod_eq (len + 15) 16).
      pose proof (Nat.mod_upper_bound (len + 15) 16). lia.
Qed.

Lemma count_fold_bounds {A} (f : A -> bool) (l : list A) (z : Z) :
  z <= fold_left (fun diff i => if f i then diff + 1 else diff) l z
    <= z + Z.of_nat (List.length l).
Proof.
  revert z. induction l as [|a l IH]; intros z; cbn [fold_left List.length].
  - lia.
  - specialize (IH (if f a then z + 1 else z)).
    destruct (f a); lia.
Qed.

Lemma count_fold_none {A} (f : A -> bool) (l : list A) (z : Z) :
  (forall i, In i l -> f i = false) ->
  fold_left (fun diff i => if f i then diff + 1 else diff) l z = z.
Proof.
  revert z. induction l as [|a l IH]; intros z H; cbn [fold_left].
  - reflexivity.
  - rewrite (H a) by (left; reflexivity).
    apply IH. intros i Hi. apply H. right. exact Hi.
Qed.

Lemma countChanged_bounds (data prevData : list Byte.byte) :
  0 <= countChanged data prevData
    <= Z.of_nat ((List.length data + 15) / 16).
Proof.
  unfold countChanged. rewrite <- sampleOffsets_length.
  apply (count_fold_bounds (pixelChanged data prevData)).
Qed.

Lemma channelDiff_same (data : list Byte.byte) (i : nat) :
  channelDiff data data i = None \/ channelDiff data data i = Some 0.
Proof.
  unfold channelDiff. destruct (nth_error data i); [right | left; reflexivity].
  rewrite Z.sub_diag. reflexivity.
Qed.

Lemma pixelChanged_same (data : list Byte.byte) (i : nat) :
  pixelChanged data data i = false.
Proof.
  unfold pixelChanged.
  destruct (channelDiff_same data i) as [-> | ->]; [reflexivity|].
  destruct (channelDiff_same data (i + 1)) as [-> | ->]; [reflexivity|].
  destruct (channelDiff_same data (i + 2)) as [-> | ->]; reflexivity.
Qed.

Lemma countChanged_same (data : list Byte.byte) : countChanged data data = 0.
Proof.
  unfold countChanged.
  apply (count_fold_none (pixelChanged data data)).
  intros i _. apply pixelChanged_same.
Qed.

Lemma count_fold_filter {A} (f : A -> bool) (l : list A) (z : Z) :
  fold_left (fun diff i => if f i then diff + 1 else diff) l z
  = z + Z.of_nat (List.length (filter f l)).
Proof.
  revert z. induction l as [|a l IH]; intros z; cbn [fold_left filter].
  - cbn [List.length]. lia.
  - rewrite IH. destruct (f a); cbn [List.length]; lia.
Qed.

Lemma countChanged_filter (data prevData : list Byte.byte) :
  countChanged data prevData
  = Z.of_nat (List.length (filter (pixelChanged data prevData)
                             (sampleOffsets (List.length data)))).
Proof.
  unfold countChanged.
  rewrite (count_fold_filter (pixelChanged data prevData)). lia.
Qed.

Lemma channelDiff_inside (frame prevFrame : ImageData) (i : nat) :
  (i < List.length (data frame))%nat ->
  (i < List.length (data prevFrame))%nat ->
  channelDiff (data frame) (data prevFrame) i
  = Some (Z.abs (byteAt frame i - byteAt prevFrame i)).
Proof.
  intros Hi Hp. unfold channelDiff, byteAt.
  rewrite (nth_error_nth' (data frame) Byte.x00 Hi).
  rewrite (nth_error_nth' (data prevFrame) Byte.x00 Hp). reflexivity.
Qed.

(** On two canvas-sized frames every sampled offset has its three colour
    bytes inside both frames. *)
Lemma pixelChanged_canvas (frame prevFrame : ImageData) (i : nat) :
  canvasRaster frame -> canvasRaster prevFrame ->
  In i (sampleOffsets (List.length (data frame))) ->
  pixelChanged (data frame) (data prevFrame) i
  = (45 <? colourDistance frame prevFrame i).
Proof.
  unfold canvasRaster, canvas_width, canvas_height. intros Hf Hp Hin.
  apply sampleOffsets_In in Hin as [Hlt Hmod].
  assert (i + 16 <= List.length (data frame))%nat as Hroom.
  { pose proof (Nat.div_mod_eq i 16) as Hi.
    pose proof (Nat.div_mod_eq (List.length (data frame)) 16) as Hl.
    assert (List.length (data frame) mod 16 = 0)%nat as Hlm.
    { apply Nat2Z.inj. rewrite Nat2Z.inj_mod, Hf. reflexivity. }
    lia. }
  assert (List.length (data prevFrame) = List.length (data frame)) as Hsame
    by lia.
  unfold pixelChanged, colourDistance.
  rewrite !channelDiff_inside by lia. reflexivity.
Qed.

(** On a canvas-sized frame the loop samples exactly a quarter of the pixels,
    which is the divisor of the score. *)
Lemma canvasRaster_samples (frame : ImageData) :
  canvasRaster frame ->
  Z.of_nat ((List.length (data frame) + 15) / 16) = 76800.
Proof.
  unfold canvasRaster, canvas_width, canvas_height. intros H.
  rewrite Nat2Z.inj_div, Nat2Z.inj_add, H. reflexivity.
Qed.

(** The score of a canvas-sized frame as a function of the count. *)
Definition canvasScore (diff : Z) : Q :=
  Q_of_Number (percentOfSamples canvas_width canvas_height diff).

(** What is checked of the score of one count: it is a finite number, it
    lies between 0 and 100 and it differs from the exact percentage
    [diff / 76800 * 100] by at most [10^-13]. *)
Definition scoreChecked (diff : Z) : bool :=
  let q := canvasScore diff in
  PrimFloat.is_finite (percentOfSamples canvas_width canvas_height diff)
  && Qle_bool 0 q && Qle_bool q 100
  && Qle_bool (Qabs (q - inject_Z diff * (1 # 768))) (1 # 10000000000000).

(** [f] on the [n] integers from [from] on. *)
Fixpoint allFrom (f : Z -> bool) (n : nat) (from : Z) : bool :=
  match n with
  | O => true
  | S k => f from && allFrom f k (from + 1)
  end.

Lemma allFrom_spec (f : Z -> bool) (n : nat) (from z : Z) :
  allFrom f n from = true ->
  from <= z < from + Z.of_nat n ->
  f z = true.
Proof.
  revert from. induction n as [|n IH]; intros from Hall Hin.
  - cbn in Hin. lia.
  - cbn [allFrom] in Hall. apply andb_true_iff in Hall as [Hhere Hrest].
    destruct (Z.eq_dec z from) as [->|Hne]; [exact Hhere|].
    apply (IH (from + 1) Hrest). lia.
Qed.

(** Every count a canvas-sized frame can produce, evaluated. *)
Lemma canvasScore_table : allFrom scoreChecked (Z.to_nat 76801) 0 = true.
Proof. vm_cast_no_check (eq_refl true). Qed.

Lemma canvasScore_checked (diff : Z) :
  0 <= diff <= 76800 ->
  PrimFloat.is_finite (percentOfSamples canvas_width canvas_height diff)
  = true /\
  (0 <= canvasScore diff <= 100)%Q /\
  (Qabs (canvasScore diff - inject_Z diff * (1 # 768)) <= 1 # 10000000000000)%Q.
Proof.
  intros Hd.
  assert (scoreChecked diff = true) as H.
  { apply (allFrom_spec _ _ 0 diff canvasScore_table).
    rewrite Z2Nat.id; lia. }
  unfold scoreChecked in H. cbv zeta in H.
  apply andb_true_iff in H as [H Herr].
  apply andb_true_iff in H as [H Hhi].
  apply andb_true_iff in H as [Hfin Hlo].
  apply Qle_bool_iff in Hlo, Hhi, Herr. auto.
Qed.

Lemma motionLevelOf_canvas_count (data prevData : list Byte.byte) :
  motionLevelOf canvas_width canvas_height data prevData
  = canvasScore (countChanged data prevData).
Proof. reflexivity. Qed.

Lemma countChanged_canvas_bounds (frame prevFrame : ImageData) :
  canvasRaster frame ->
  0 <= countChanged (data frame) (data prevFrame) <= 76800.
Proof.
  intros Hr.
  pose proof (countChanged_bounds (data frame) (data prevFrame)) as Hc.
  rewrite (canvasRaster_samples frame Hr) in Hc. exact Hc.
Qed.

Lemma motionLevelOf_range (frame prevFrame : ImageData) :
  canvasRaster frame ->
  (0 <= motionLevelOf canvas_width canvas_height (data frame) (data prevFrame)
     <= 100)%Q.
Proof.
  intros Hr. rewrite motionLevelOf_canvas_count.
  apply (canvasScore_checked _ (countChanged_canvas_bounds _ _ Hr)).
Qed.

(** The score of two canvas-sized frames is a finite number, so the
    convention of [Q_of_Number] for the other values is not used. *)
Lemma motionLevelOf_finite (frame prevFrame : ImageData) :
  canvasRaster frame ->
  PrimFloat.is_finite
    (percentOfSamples canvas_width canvas_height
       (countChanged (data frame) (data prevFrame))) = true.
Proof.
  intros Hr.
  apply (canvasScore_checked _ (countChanged_canvas_bounds _ _ Hr)).
Qed.

(** The score is the exact percentage of changed samples up to the rounding
    of the three operations. *)
Lemma motionLevelOf_exact (frame prevFrame : ImageData) :
  canvasRaster frame ->
  (Qabs (motionLevelOf canvas_width canvas_height (data frame) (data prevFrame)
         - inject_Z (countChanged (data frame) (data prevFrame)) * (1 # 768))
   <= 1 # 10000000000000)%Q.
Proof.
  intros Hr. rewrite motionLevelOf_canvas_count.
  apply (canvasScore_checked _ (countChanged_canvas_bounds _ _ Hr)).
Qed.

Lemma canvasScore_0 : (canvasScore 0 == 0)%Q.
Proof. vm_compute. reflexivity. Qed.

Lemma canvasScore_76800 : (canvasScore 76800 == 100)%Q.
Proof. vm_compute. reflexivity. Qed.

Lemma motionLevelOf_same (frame : ImageData) :
  (motionLevelOf canvas_width canvas_height (data frame) (data frame) == 0)%Q.
Proof.
  rewrite motionLevelOf_canvas_count, countChanged_same. exact canvasScore_0.
Qed.

(** The count 5376 is 7 percent of the samples; its score in binary64 is
    [7.000000000000001], above the threshold 7 of sensitivity 86. *)
Lemma motionLevelOf_rounds_up :
  (inject_Z 5376 / inject_Z 76800 * 100 == 7)%Q /\
  (motionThreshold 86 == 7)%Q /\
  Qred (canvasScore 5376) = (7881299347898369 # 1125899906842624)%Q /\
  Qgtb (canvasScore 5376) (motionThreshold 86) = true.
Proof. repeat split; vm_compute; reflexivity. Qed.

(** So a tick at sensitivity 86 whose frame differs from the stored one in
    5376 samples has a motion candidate, as in the browser. *)
Lemma motionCandidate_rounds_up (env : TickEnv) (s : AppState)
    (prevFrame : ImageData) :
  sensitivity s = 86 ->
  prevFrameRef s = Some prevFrame ->
  countChanged (data (getImageData env)) (data prevFrame) = 5376 ->
  comparesFrames env s = true ->
  motionCandidate env s = true.
Proof.
  intros Hs Hp Hcount Hcmp. unfold motionCandidate, motionScore.
  rewrite Hcmp, Hp, Hs, motionLevelOf_canvas_count, Hcount.
  apply motionLevelOf_rounds_up.
Qed.

(** [(max / 255) * 100] in binary64, and its comparison with
    [100 - audioSensitivity]. *)
Definition audioPercent (max : Z) : Number :=
  PrimFloat.mul (PrimFloat.div (Number_of_Z max) (Number_of_Z 255))
    (Number_of_Z 100).

Definition audioAgrees (max audioSensitivity : Z) : bool :=
  Bool.eqb
    (PrimFloat.ltb (Number_of_Z (100 - audioSensitivity)) (audioPercent max))
    (Qgtb (inject_Z max / 255 * 100) (inject_Z (100 - audioSensitivity))).

Lemma audioScore_table :
  allFrom (fun max => allFrom (audioAgrees max) 99 1) 256 0 = true.
Proof. vm_cast_no_check (eq_refl true). Qed.

(** For a byte [max] and a slider position the source's comparison of
    doubles is the comparison of the exact values. *)
Lemma audioScore_double (max audioSensitivity : Z) :
  0 <= max <= 255 -> 1 <= audioSensitivity <= 99 ->
  PrimFloat.ltb (Number_of_Z (100 - audioSensitivity)) (audioPercent max)
  = Qgtb (inject_Z max / 255 * 100) (inject_Z (100 - audioSensitivity)).
Proof.
  intros Hm Ha. apply Bool.eqb_prop.
  change (audioAgrees max audioSensitivity = true).
  apply (allFrom_spec (audioAgrees max) 99 1); [|lia].
  apply (allFrom_spec (fun max => allFrom (audioAgrees max) 99 1) 256 0);
    [exact audioScore_table | lia].
Qed.

Lemma motionThreshold_floor (sensitivity : Z) :
  (1 # 2 <= motionThreshold sensitivity)%Q.
Proof. unfold motionThreshold. apply Q.le_max_l. Qed.

Lemma motionThreshold_slider (sensitivity : Z) :
  1 <= sensitivity <= 99 ->
  (motionThreshold sensitivity == inject_Z (100 - sensitivity) * (1 # 2))%Q.
Proof.
  intros H. unfold motionThreshold.
  destruct (inject_Z_bounds 1 99 (100 - sensitivity)) as [H1 _]; [lia|].
  change (inject_Z 1) with 1%Q in H1.
  setoid_replace (inject_Z (100 - sensitivity) / 2)%Q
    with (inject_Z (100 - sensitivity) * (1 # 2))%Q by field.
  apply Q.max_r. lra.
Qed.

Lemma u8_range (b : Byte.byte) : 0 <= u8 b <= 255.
Proof.
  unfold u8. pose proof (Byte.to_N_bounded b). lia.
Qed.

Lemma Math_max_spec (xs : list Z) :
  xs <> [] ->
  exists m, Math_max xs = Some m /\ In m xs /\ (forall x, In x xs -> x <= m).
Proof.
  induction xs as [|x rest IH]; intros Hne; [congruence|].
  cbn [Math_max]. destruct rest as [|y rest'].
  - exists x. cbn [Math_max]. repeat split.
    + left; reflexivity.
    + intros z [<- | []]. lia.
  - destruct IH as (m & Hm & Hin & Hle); [discriminate|].
    rewrite Hm. exists (Z.max x m). split; [reflexivity|]. split.
    + destruct (Z.max_spec x m) as [[_ ->] | [_ ->]];
        [right; exact Hin | left; reflexivity].
    + intros z [<- | Hz]; [lia|]. specialize (Hle z Hz). lia.
Qed.

Lemma dataArrayOf_length (env : TickEnv) (analyser : AnalyserNode) :
  List.length (dataArrayOf env analyser)
  = Z.to_nat (frequencyBinCount analyser).
Proof.
  unfold dataArrayOf. rewrite length_map, length_seq. reflexivity.
Qed.

(** The score of a buffer that has at least one bin. *)
Lemma normalizedLevelOf_spec (dataArray : list Byte.byte) :
  dataArray <> [] ->
  exists max,
    normalizedLevelOf dataArray = Num (inject_Z max / 255 * 100)%Q /\
    In max (map u8 dataArray) /\
    (forall b, In b dataArray -> u8 b <= max) /\
    (0 <= inject_Z max / 255 * 100 <= 100)%Q.
Proof.
  intros Hne.
  destruct (Math_max_spec (map u8 dataArray)) as (m & Hm & Hin & Hle).
  { destruct dataArray; [congruence | discriminate]. }
  exists m. unfold normalizedLevelOf. rewrite Hm.
  split; [reflexivity|]. split; [exact Hin|]. split.
  - intros b Hb. apply Hle. apply in_map. exact Hb.
  - apply in_map_iff in Hin as (b & <- & _).
    pose proof (inject_Z_bounds _ _ _ (u8_range b)) as [H0 H1].
    change (inject_Z 0) with 0%Q in H0.
    change (inject_Z 255) with (255 # 1)%Q in H1.
    setoid_replace (inject_Z (u8 b) / 255 * 100)%Q
      with (inject_Z (u8 b) * (100 # 255))%Q by field.
    split; lra.
Qed.

(** ** Rounding

    The audio score is kept as a rational above, while the code rounds its
    division and its multiplication.  Rounding is monotone and leaves 0, 1
    and 100 as they are, which is all the bounds of a percentage need. *)

Section Rounding.

Variable round : Q -> Q.
Hypothesis round_monotone : forall x y, (x <= y)%Q -> (round x <= round y)%Q.
Hypothesis round_0 : (round 0 == 0)%Q.
Hypothesis round_1 : (round 1 == 1)%Q.
Hypothesis round_100 : (round 100 == 100)%Q.

(** [(numerator / denominator) * 100] with both operations rounded. *)
Definition roundedPercent (numerator denominator : Z) : Q :=
  round (round (inject_Z numerator / inject_Z denominator) * 100).

Lemma roundedPercent_range (numerator denominator : Z) :
  0 <= numerator <= denominator -> 0 < denominator ->
  (0 <= roundedPercent numerator denominator <= 100)%Q.
Proof.
  intros Hn Hd. unfold roundedPercent.
  assert (0 <= inject_Z numerator / inject_Z denominator <= 1)%Q as [Hlo Hhi].
  { assert (0 < inject_Z denominator)%Q as Hpos
      by (change 0%Q with (inject_Z 0); rewrite <- Zlt_Qlt; exact Hd).
    destruct (inject_Z_bounds 0 denominator numerator Hn) as [H0 H1].
    change (inject_Z 0) with 0%Q in H0. split.
    - apply Qle_shift_div_l; [exact Hpos | lra].
    - apply Qle_shift_div_r; [exact Hpos | lra]. }
  pose proof (round_monotone _ _ Hlo) as Hlo'.
  pose proof (round_monotone _ _ Hhi) as Hhi'.
  rewrite round_0 in Hlo'. rewrite round_1 in Hhi'.
  split.
  - apply Qle_trans with (round 0).
    + rewrite round_0. apply Qle_refl.
    + apply round_monotone. lra.
  - apply Qle_trans with (round 100).
    + apply round_monotone. lra.
    + rewrite round_100. apply Qle_refl.
Qed.

End Rounding.

(** ** The string primitives *)

Lemma string_length_app (s t : string) :
  String.length (s ++ t) = (String.length s + String.length t)%nat.
Proof.
  induction s as [|a s IH]; cbn [String.append String.length];
    [reflexivity | rewrite IH; reflexivity].
Qed.

Lemma indexOf_absent (c : ascii) (s : string) :
  ~ occurs c s -> indexOf c s = -1.
Proof.
  unfold occurs. induction s as [|a s IH]; intros H; cbn [indexOf].
  - reflexivity.
  - cbn [list_ascii_of_string] in H.
    destruct (Ascii.eqb_spec a c) as [-> | Hne].
    + exfalso. apply H. left. reflexivity.
    + rewrite IH by (intros Hin; apply H; right; exact Hin). reflexivity.
Qed.

Lemma lastIndexOf_absent (c : ascii) (s : string) :
  ~ occurs c s -> lastIndexOf c s = -1.
Proof.
  unfold occurs. induction s as [|a s IH]; intros H; cbn [lastIndexOf].
  - reflexivity.
  - cbn [list_ascii_of_string] in H.
    rewrite IH by (intros Hin; apply H; right; exact Hin).
    destruct (Ascii.eqb_spec a c) as [-> | Hne]; [|reflexivity].
    exfalso. apply H. left. reflexivity.
Qed.

Lemma lastIndexOf_lower (c : ascii) (s : string) : -1 <= lastIndexOf c s.
Proof.
  induction s as [|a s IH]; cbn [lastIndexOf]; [lia|].
  destruct (0 <=? lastIndexOf c s) eqn:H; [apply Z.leb_le in H; lia|].
  destruct (Ascii.eqb a c); lia.
Qed.

(** The first occurrence: nothing before it is [c]. *)
Lemma indexOf_first (c : ascii) (pre rest : string) :
  ~ occurs c pre ->
  indexOf c (pre ++ String c rest) = Z.of_nat (String.length pre).
Proof.
  unfold occurs. induction pre as [|a pre IH]; intros H;
    cbn [String.append indexOf String.length].
  - rewrite Ascii.eqb_refl. reflexivity.
  - cbn [list_ascii_of_string] in H.
    destruct (Ascii.eqb_spec a c) as [-> | Hne].
    + exfalso. apply H. left. reflexivity.
    + rewrite IH by (intros Hin; apply H; right; exact Hin).
      destruct (Z.ltb_spec (Z.of_nat (String.length pre)) 0); lia.
Qed.

(** The last occurrence: nothing after it is [c]. *)
Lemma lastIndexOf_last (c : ascii) (s post : string) :
  ~ occurs c post ->
  lastIndexOf c (s ++ String c post) = Z.of_nat (String.length s).
Proof.
  intros H. induction s as [|a s IH];
    cbn [String.append lastIndexOf String.length].
  - rewrite (lastIndexOf_absent c post H). cbn.
    rewrite Ascii.eqb_refl. reflexivity.
  - rewrite IH.
    destruct (Z.leb_spec 0 (Z.of_nat (String.length s))); lia.
Qed.

Lemma substring_middle (pre mid post : string) :
  String.substring (String.length pre) (String.length mid) (pre ++ mid ++ post)
  = mid.
Proof.
  induction pre as [|a pre IH]; cbn [String.length String.append].
  - revert post. induction mid as [|b mid IHm]; intros post;
      cbn [String.length String.append String.substring].
    + destruct post; reflexivity.
    + rewrite IHm. reflexivity.
  - cbn [String.substring]. exact IH.
Qed.

Lemma string_app_assoc (s t u : string) : (s ++ t) ++ u = s ++ t ++ u.
Proof.
  induction s as [|a s IH]; cbn [String.append];
    [reflexivity | rewrite IH; reflexivity].
Qed.

Lemma extractJson_between (pre mid post : string) :
  ~ occurs "{"%char pre ->
  ~ occurs "}"%char post ->
  extractJson (pre ++ "{" ++ mid ++ "}" ++ post) = "{" ++ mid ++ "}".
Proof.
  intros Hpre Hpost. unfold extractJson.
  set (text := pre ++ "{" ++ mid ++ "}" ++ post).
  assert (indexOf "{"%char text = Z.of_nat (String.length pre)) as Hi.
  { unfold text. apply indexOf_first. exact Hpre. }
  assert (lastIndexOf "}"%char text
          = Z.of_nat (String.length pre + 1 + String.length mid)) as Hj.
  { unfold text.
    replace (pre ++ "{" ++ mid ++ "}" ++ post)
      with ((pre ++ "{" ++ mid) ++ String "}"%char post)
      by (rewrite string_app_assoc; reflexivity).
    rewrite lastIndexOf_last by exact Hpost.
    rewrite !string_length_app. cbn [String.length]. f_equal. lia. }
  assert (String.length text
          = (String.length pre + (String.length mid + 2)
             + String.length post)%nat) as Hlen.
  { unfold text. rewrite !string_length_app. cbn [String.length]. lia. }
  assert (String.length ("{" ++ mid ++ "}") = (String.length mid + 2)%nat)
    as Hmid.
  { cbn [String.append String.length]. rewrite string_length_app.
    cbn [String.length]. lia. }
  unfold js_substring. rewrite Hi, Hj, Hlen.
  replace (Z.to_nat _) with (String.length pre) by lia.
  replace (Z.to_nat _) with (String.length ("{" ++ mid ++ "}"))
    by (rewrite Hmid; lia).
  unfold text.
  replace (pre ++ "{" ++ mid ++ "}" ++ post)
    with (pre ++ ("{" ++ mid ++ "}") ++ post)
    by (rewrite !string_app_assoc; reflexivity).
  apply substring_middle.
Qed.

(** ** Invariants of the transition system *)

Lemma single_flight_idle (s : AppState) :
  single_flight s -> isAnalyzing s = false -> pending s = [].
Proof.
  intros [_ Hflag] Hb. destruct (pending s) as [|p ps] eqn:Hp; [reflexivity|].
  assert (isAnalyzing s = true) by (apply Hflag; discriminate). congruence.
Qed.

Lemma detectMotion_single_flight (env : TickEnv) (s : AppState) :
  single_flight s -> single_flight (detectMotion env s).
Proof.
  intros Hsf. pose proof (single_flight_idle s Hsf) as Hidle.
  destruct Hsf as [Hlen Hflag]. unfold single_flight.
  rewrite detectMotion_isAnalyzing, detectMotion_pending.
  destruct (isAnalyzing s) eqn:Hb.
  - rewrite !andb_false_r. split; [exact Hlen|].
    split; [intros _; apply Hflag; reflexivity|].
    intros _. destruct (_ && _); reflexivity.
  - rewrite (Hidle eq_refl).
    destruct (live env s), (cooledDown env s), (isSmartGuard s),
      (audioCandidate env s), (getContext env), (motionCandidate env s);
      cbn [andb orb negb app List.length];
      (split; [lia | split; [intros H; congruence | intros H; congruence]]).
Qed.

Lemma detectMotion_no_frame_yet (env : TickEnv) (s : AppState) :
  no_frame_yet s -> no_frame_yet (detectMotion env s).
Proof.
  unfold no_frame_yet.
  rewrite detectMotion_prevFrameRef, detectMotion_currentMotionLevel,
    detectMotion_lastMotionDetected.
  unfold motionCandidate, comparesFrames.
  destruct (live env s && negb (now env - lastFrameTimeRef s <? 100)
            && getContext env); [discriminate|].
  intros Hframe Hp. rewrite Hp, !andb_false_r. apply Hframe. exact Hp.
Qed.

Lemma detectMotion_events_bounded (env : TickEnv) (s : AppState) :
  (List.length (events s) <= 50)%nat ->
  (List.length (events (detectMotion env s)) <= 50)%nat.
Proof.
  intros Hlog. rewrite detectMotion_events.
  repeat match goal with
         | |- context [if ?c then _ else _] => destruct c
         end; auto using prependEvent_length.
Qed.

Lemma detectMotion_invariant (env : TickEnv) (s : AppState) :
  invariant s -> invariant (detectMotion env s).
Proof.
  intros (Hlog & Hsf & Hframe & Han).
  split; [apply detectMotion_events_bounded; exact Hlog|].
  split; [apply detectMotion_single_flight; exact Hsf|].
  split; [apply detectMotion_no_frame_yet; exact Hframe|].
  intros analyser.
  pose proof (detectMotion_untouched env s) as Hu. cbv zeta in Hu.
  destruct Hu as (_ & _ & _ & _ & _ & _ & ->). apply Han.
Qed.

Section Reachability.

Variable JSON_parse : string -> option JSON.

Lemma analyzeFrame_try_cases (base64Image : string) (r : Settled)
    (newId : string) (newDate : Z) (s : AppState) :
  analyzeFrame_try JSON_parse base64Image r newId newDate s =
  if confirmed JSON_parse r then
    setEvents
      (prependEvent (verifierEvent JSON_parse base64Image r newId newDate))
      (setIsSuspicious true s)
  else s.
Proof.
  unfold analyzeFrame_try, confirmed, verifierEvent.
  destruct r as [|text]; [reflexivity|].
  destruct (JSON_parse (extractJson (responseText text))) as [result|];
    [|reflexivity].
  destruct result; cbn [property truthy]; try reflexivity.
Qed.

(** The invariant reads seven fields only. *)
Lemma invariant_ext (s s' : AppState) :
  events s' = events s -> pending s' = pending s ->
  isAnalyzing s' = isAnalyzing s -> prevFrameRef s' = prevFrameRef s ->
  currentMotionLevel s' = currentMotionLevel s ->
  lastMotionDetected s' = lastMotionDetected s ->
  analyserRef s' = analyserRef s ->
  invariant s -> invariant s'.
Proof.
  unfold invariant, single_flight, no_frame_yet, analyser_shape.
  intros -> -> -> -> -> -> ->. exact (fun H => H).
Qed.

Lemma step_invariant (a : Action) (s : AppState) :
  invariant s -> invariant (step JSON_parse a s).
Proof.
  intros Hinv. destruct a; cbn [step].
  - (* StartCamera *)
    destruct o; cbn [startCamera].
    + exact Hinv.
    + revert Hinv. apply invariant_ext; reflexivity.
    + destruct Hinv as (Hlog & Hsf & Hframe & Han).
      split; [exact Hlog|]. split; [exact Hsf|]. split; [exact Hframe|].
      intros analyser. st_simpl. intros [= <-]. reflexivity.
  - (* StopCamera *)
    revert Hinv. apply invariant_ext; reflexivity.
  - (* Tick *)
    apply detectMotion_invariant. exact Hinv.
  - (* Settle *)
    destruct (pending s) as [|base64Image rest] eqn:Hp; [exact Hinv|].
    destruct Hinv as (Hlog & [Hlen Hflag] & Hframe & Han).
    assert (rest = []) as ->.
    { rewrite Hp in Hlen. destruct rest; [reflexivity | simpl in Hlen; lia]. }
    unfold analyzeFrame_settle. rewrite analyzeFrame_try_cases.
    destruct (confirmed JSON_parse r).
    + split; [apply prependEvent_length|].
      split; [split; st_simpl; cbn [List.length]; [lia | split; congruence]|].
      split; [exact Hframe | exact Han].
    + split; [exact Hlog|].
      split; [split; st_simpl; cbn [List.length]; [lia | split; congruence]|].
      split; [exact Hframe | exact Han].
  - (* Dismiss *)
    revert Hinv. apply invariant_ext; reflexivity.
  - (* ClearLogs *)
    destruct Hinv as (Hlog & Hsf & Hframe & Han).
    split; [st_simpl; cbn [List.length]; lia|].
    split; [exact Hsf|]. split; [exact Hframe | exact Han].
  - (* ToggleMute *)
    revert Hinv. apply invariant_ext; reflexivity.
  - (* ToggleSmartGuard *)
    revert Hinv. apply invariant_ext; reflexivity.
  - (* SlideSensitivity *)
    revert Hinv. apply invariant_ext; reflexivity.
  - (* SlideAudioSensitivity *)
    revert Hinv. apply invariant_ext; reflexivity.
  - (* MotionFlagTimeout *)
    destruct Hinv as (Hlog & Hsf & Hframe & Han).
    split; [exact Hlog|]. split; [exact Hsf|].
    split; [|exact Han].
    intros Hp. split; [apply Hframe; exact Hp | reflexivity].
Qed.

Lemma initialState_invariant : invariant initialState.
Proof.
  split; [cbn; lia|].
  split; [split; cbn; [lia | split; congruence]|].
  split; [intros _; split; reflexivity|].
  intros analyser; cbn; discriminate.
Qed.

Lemma reachable_invariant (s : AppState) :
  reachable JSON_parse s -> invariant s.
Proof.
  induction 1 as [|a s _ IH _].
  - apply initialState_invariant.
  - apply step_invariant. exact IH.
Qed.

(** Any setting of the two controls that the loop does not depend on can be
    reached without touching the rest of the state. *)
Lemma settings_reachable (s : AppState) (a : Z) (g : bool) :
  reachable JSON_parse s -> 1 <= a <= 99 ->
  reachable JSON_parse (setIsSmartGuard g (setAudioSensitivity a s)).
Proof.
  intros Hreach Ha.
  pose proof (reachable_step JSON_parse (SlideAudioSensitivity a) s Hreach Ha)
    as H1. cbn [step] in H1.
  destruct (Bool.eqb g (isSmartGuard s)) eqn:Hg.
  - apply Bool.eqb_prop in Hg. subst g.
    destruct s; exact H1.
  - pose proof (reachable_step JSON_parse ToggleSmartGuard _ H1 I) as H2.
    cbn [step] in H2. st_simpl.
    replace g with (negb (isSmartGuard s)); [exact H2|].
    destruct g, (isSmartGuard s); try reflexivity; discriminate.
Qed.

(** A tick of a loop created under an earlier render: its closure holds the
    values [audioSensitivity0] and [isSmartGuard0] of the two settings that
    are no dependency of the effect, while the record holds the current
    ones; the tick writes neither. *)
Definition staleTick (audioSensitivity0 : Z) (isSmartGuard0 : bool)
    (env : TickEnv) (s : AppState) : AppState :=
  setIsSmartGuard (isSmartGuard s)
    (setAudioSensitivity (audioSensitivity s)
       (detectMotion env
          (setIsSmartGuard isSmartGuard0
             (setAudioSensitivity audioSensitivity0 s)))).

(** With the current values in its closure it is the tick itself. *)
Lemma staleTick_current (env : TickEnv) (s : AppState) :
  staleTick (audioSensitivity s) (isSmartGuard s) env s = detectMotion env s.
Proof.
  unfold staleTick.
  replace (setIsSmartGuard (isSmartGuard s)
             (setAudioSensitivity (audioSensitivity s) s)) with s
    by (destruct s; reflexivity).
  pose proof (detectMotion_untouched env s) as H. cbv zeta in H.
  destruct H as (_ & _ & _ & _ & Ha & Hg & _).
  rewrite <- Ha, <- Hg. destruct (detectMotion env s); reflexivity.
Qed.

(** Such a tick does not leave the reachable states, so what holds of every
    reachable state holds after it. *)
Lemma staleTick_reachable (audioSensitivity0 : Z) (isSmartGuard0 : bool)
    (env : TickEnv) (s : AppState) :
  reachable JSON_parse s ->
  1 <= audioSensitivity0 <= 99 -> 1 <= audioSensitivity s <= 99 ->
  reachable JSON_parse (staleTick audioSensitivity0 isSmartGuard0 env s).
Proof.
  intros Hreach H0 Hs. unfold staleTick.
  apply settings_reachable; [|exact Hs].
  apply (reachable_step JSON_parse (Tick env)); [|exact I].
  apply settings_reachable; assumption.
Qed.

End Reachability.

(** ** The cooldown gate *)

Lemma cooledDown_lt (env : TickEnv) (s : AppState) :
  cooledDown env s = true <->
  cooldownWindow (isSmartGuard s) < now env - lastDetectionTimeRef s.
Proof. unfold cooledDown. apply Z.ltb_lt. Qed.

(** While the window is closed a tick accepts nothing. *)
Lemma detectMotion_closed_window (env : TickEnv) (s : AppState) :
  cooledDown env s = false ->
  let s' := detectMotion env s in
  lastDetectionTimeRef s' = lastDetectionTimeRef s /\
  events s' = events s /\ pending s' = pending s /\
  isSuspicious s' = isSuspicious s /\ isAnalyzing s' = isAnalyzing s.
Proof.
  intros Hc. cbv zeta.
  rewrite detectMotion_lastDetectionTimeRef, detectMotion_events,
    detectMotion_pending, detectMotion_isSuspicious, detectMotion_isAnalyzing.
  rewrite Hc, !andb_false_r. cbn [andb]. repeat split.
Qed.

(** A candidate that finds the window open restarts the clock. *)
Lemma detectMotion_open_window (env : TickEnv) (s : AppState) :
  live env s = true ->
  audioCandidate env s || motionCandidate env s = true ->
  cooledDown env s = true ->
  lastDetectionTimeRef (detectMotion env s) = now env.
Proof.
  intros Hl Hcand Hc.
  rewrite detectMotion_lastDetectionTimeRef, Hl, Hcand, Hc. reflexivity.
Qed.

(** Under Smart Guard a tick decides nothing by itself. *)
Lemma detectMotion_smart_guard (env : TickEnv) (s : AppState) :
  isSmartGuard s = true ->
  events (detectMotion env s) = events s /\
  isSuspicious (detectMotion env s) = isSuspicious s.
Proof.
  intros Hg. rewrite detectMotion_events, detectMotion_isSuspicious, Hg.
  cbn [negb]. rewrite !andb_false_r. cbn [andb]. split; reflexivity.
Qed.

Section Claims.

Variable JSON_parse : string -> option JSON.

(** C1.  In every tick a candidate, audio or motion, is accepted only if
    [now - lastDetectionTime] is strictly greater than the cooldown window,
    1000 ms with Smart Guard and 300 ms without: whenever a tick restarts the
    clock, logs an event, raises the alarm or sends a request, the window had
    elapsed.  A candidate that finds the window elapsed is accepted and the
    clock is set to [now] inside the tick, where under Smart Guard no event
    and no alarm can appear yet.  With the clock at [t0], a tick at
    [t0 + window - 1] accepts nothing and a candidate at [t0 + window + 1] is
    accepted. *)
Theorem C1_cooldown_gate (env : TickEnv) (s : AppState) :
  let s' := detectMotion env s in
  let t0 := lastDetectionTimeRef s in
  let window := cooldownWindow (isSmartGuard s) in
  window = (if isSmartGuard s then 1000 else 300) /\
  (lastDetectionTimeRef s' <> t0 \/ events s' <> events s \/
   pending s' <> pending s \/ isSuspicious s' <> isSuspicious s \/
   isAnalyzing s' <> isAnalyzing s ->
   window < now env - t0) /\
  (live env s = true ->
   audioCandidate env s || motionCandidate env s = true ->
   window < now env - t0 ->
   lastDetectionTimeRef s' = now env) /\
  (isSmartGuard s = true ->
   events s' = events s /\ isSuspicious s' = isSuspicious s) /\
  (now env = t0 + window - 1 ->
   lastDetectionTimeRef s' = t0 /\ events s' = events s /\
   pending s' = pending s /\ isSuspicious s' = isSuspicious s) /\
  (live env s = true ->
   audioCandidate env s || motionCandidate env s = true ->
   now env = t0 + window + 1 ->
   lastDetectionTimeRef s' = now env).
Proof.
  cbv zeta. split; [reflexivity|]. split; [|split; [|split; [|split]]].
  - intros Heffect. apply cooledDown_lt.
    destruct (cooledDown env s) eqn:Hc; [reflexivity|].
    destruct (detectMotion_closed_window env s Hc) as (H1 & H2 & H3 & H4 & H5).
    destruct Heffect as [H | [H | [H | [H | H]]]]; contradiction.
  - intros Hl Hcand Hw. apply detectMotion_open_window; try assumption.
    apply cooledDown_lt. exact Hw.
  - apply detectMotion_smart_guard.
  - intros Hnow.
    assert (cooledDown env s = false) as Hc.
    { unfold cooledDown. apply Z.ltb_ge. lia. }
    destruct (detectMotion_closed_window env s Hc) as (H1 & H2 & H3 & H4 & H5).
    repeat split; assumption.
  - intros Hl Hcand Hnow. apply detectMotion_open_window; try assumption.
    apply cooledDown_lt. lia.
Qed.

(** C2.  For a motion sensitivity between 1 and 99 the motion threshold is the
    larger of 0.5 and [(100 - sensitivity) / 2], hence at least 0.5 (on the
    slider range it is [(100 - sensitivity) / 2] itself).  In a tick that
    compares frames the published score is the computed one, and the motion
    flag is raised exactly when that score is strictly greater than the
    threshold; when the audio reading is no candidate and the cooldown window
    is open, the clock restarts exactly in that case.  The motion reading is
    a candidate exactly when the score is strictly greater than the
    threshold, and the score is the binary64 value of
    [(diff / (canvas.width * canvas.height / 4)) * 100] for the count [diff]
    of the grabbed frame against the stored one. *)
Theorem C2_motion_threshold (env : TickEnv) (s : AppState) (level : Q) :
  1 <= sensitivity s <= 99 ->
  live env s = true ->
  comparesFrames env s = true ->
  motionScore env s = Some level ->
  let threshold := motionThreshold (sensitivity s) in
  let s' := detectMotion env s in
  ((1 # 2 <= threshold)%Q /\
   (inject_Z (100 - sensitivity s) / 2 <= threshold)%Q /\
   (threshold == 1 # 2 \/ threshold == inject_Z (100 - sensitivity s) / 2)%Q /\
   (threshold == inject_Z (100 - sensitivity s) / 2)%Q) /\
  currentMotionLevel s' = level /\
  (lastMotionDetected s' = true <->
   (threshold < level)%Q \/ lastMotionDetected s = true) /\
  (audioCandidate env s = false -> cooledDown env s = true ->
   (lastDetectionTimeRef s' = now env <-> (threshold < level)%Q)) /\
  (motionCandidate env s = true <-> (threshold < level)%Q) /\
  (exists prevFrame,
     prevFrameRef s = Some prevFrame /\
     level = Q_of_Number
               (percentOfSamples canvas_width canvas_height
                  (countChanged (data (getImageData env)) (data prevFrame)))).
Proof.
  intros Hrange Hl Hcmp Hscore. cbv zeta.
  assert (motionCandidate env s = Qgtb level (motionThreshold (sensitivity s)))
    as Hcand.
  { unfold motionCandidate. rewrite Hcmp, Hscore. reflexivity. }
  split; [|split; [|split; [|split; [|split]]]].
  - split; [apply motionThreshold_floor|].
    split; [unfold motionThreshold; apply Q.le_max_r|].
    split.
    + unfold motionThreshold.
      destruct (Q.max_dec (1 # 2) (inject_Z (100 - sensitivity s) / 2));
        [left | right]; assumption.
    + rewrite motionThreshold_slider by exact Hrange. field.
  - rewrite detectMotion_currentMotionLevel, Hl, Hcmp, Hscore. reflexivity.
  - rewrite detectMotion_lastMotionDetected, Hl, Hcand. cbn [andb].
    rewrite <- Qgtb_lt.
    destruct (Qgtb level (motionThreshold (sensitivity s))).
    + split; [intros _; left; reflexivity | reflexivity].
    + split; [intros H; right; exact H | intros [H | H]; [discriminate | exact H]].
  - intros Ha Hc.
    rewrite detectMotion_lastDetectionTimeRef, Hl, Ha, Hc, Hcand.
    cbn [andb orb]. rewrite andb_true_r, <- Qgtb_lt.
    destruct (Qgtb level (motionThreshold (sensitivity s)));
      [split; reflexivity|].
    apply cooledDown_lt in Hc.
    pose proof (cooldownWindow_pos (isSmartGuard s)).
    split; [intros H'; lia | discriminate].
  - rewrite Hcand. apply Qgtb_lt.
  - unfold motionScore in Hscore.
    destruct (prevFrameRef s) as [prevFrame|]; [|discriminate].
    exists prevFrame. split; [reflexivity|].
    injection Hscore as <-. reflexivity.
Qed.

(** C3 (amended).  For two frames of the canvas size the motion score is
    the number of sampled pixels (every fourth one, the offsets that are
    multiples of 16) whose summed absolute differences of red, green and blue
    exceed 45, divided by the number of sampled pixels, times 100, computed
    in binary64: it is finite, within [10^-13] of the exact percentage, it lies
    between 0 and 100, and two identical frames score exactly 0.  A tick that
    compares the two frames publishes that score.
    While no previous frame is stored, which is so until the first frame of
    the first session is grabbed and not on the first tick of a later
    session, the published score is 0, the motion flag stays down, the
    motion reading is no candidate, and what a live tick does to the log,
    the alarm, the verifier requests, the cooldown clock and the audio level
    is what its audio block alone does; a tick that is not live changes
    nothing. *)
Theorem C3_motion_score (env : TickEnv) (s : AppState)
    (frame prevFrame : ImageData) :
  canvasRaster frame ->
  canvasRaster prevFrame ->
  reachable JSON_parse s ->
  let count := countChanged (data frame) (data prevFrame) in
  let samples :=
    Z.of_nat (List.length (sampleOffsets (List.length (data frame)))) in
  let score :=
    motionLevelOf canvas_width canvas_height (data frame) (data prevFrame) in
  let s' := detectMotion env s in
  let heard := detectAudio env s in
  score = Q_of_Number (percentOfSamples canvas_width canvas_height count) /\
  PrimFloat.is_finite (percentOfSamples canvas_width canvas_height count)
  = true /\
  samples = canvas_width * canvas_height / 4 /\
  (Qabs (score - inject_Z count / inject_Z samples * 100)
   <= 1 # 10000000000000)%Q /\
  count
  = Z.of_nat (List.length
                (filter (fun i => 45 <? colourDistance frame prevFrame i)
                   (sampleOffsets (List.length (data frame))))) /\
  (forall i, In i (sampleOffsets (List.length (data frame))) <->
             (i < List.length (data frame))%nat /\ (i mod 16 = 0)%nat) /\
  (0 <= score <= 100)%Q /\
  (motionLevelOf canvas_width canvas_height (data frame) (data frame) == 0)%Q /\
  (live env s = true -> comparesFrames env s = true ->
   getImageData env = frame -> prevFrameRef s = Some prevFrame ->
   currentMotionLevel s' = score) /\
  (prevFrameRef s = None ->
   (currentMotionLevel s' == 0)%Q /\
   lastMotionDetected s' = false /\
   motionCandidate env s = false /\
   (events s' = events s \/
    events s' = prependEvent (soundEvent env) (events s)) /\
   (live env s = true ->
    events s' = events heard /\
    isSuspicious s' = isSuspicious heard /\
    pending s' = pending heard /\
    isAnalyzing s' = isAnalyzing heard /\
    lastDetectionTimeRef s' = lastDetectionTimeRef heard /\
    audioLevel s' = audioLevel heard) /\
   (live env s = false -> s' = s)).
Proof.
  intros Hframe Hprev Hreach. cbv zeta.
  assert (Z.of_nat (List.length (sampleOffsets (List.length (data frame))))
          = 76800) as Hsamples
    by (rewrite sampleOffsets_length; apply canvasRaster_samples, Hframe).
  split; [reflexivity|].
  split; [apply motionLevelOf_finite; exact Hframe|].
  split; [|split; [|split; [|split; [|split; [|split; [|split]]]]]].
  - rewrite Hsamples. reflexivity.
  - rewrite Hsamples.
    pose proof (motionLevelOf_exact frame prevFrame Hframe) as Herr.
    setoid_replace
      (inject_Z (countChanged (data frame) (data prevFrame))
       / inject_Z 76800 * 100)%Q
      with (inject_Z (countChanged (data frame) (data prevFrame))
            * (1 # 768))%Q
      by (change (inject_Z 76800) with (76800 # 1)%Q; field).
    exact Herr.
  - rewrite countChanged_filter. do 2 f_equal.
    apply filter_ext_in. intros i Hi.
    apply pixelChanged_canvas; assumption.
  - intros i. apply sampleOffsets_In.
  - apply motionLevelOf_range. exact Hframe.
  - apply motionLevelOf_same.
  - intros Hl Hcmp Henv Hp.
    rewrite detectMotion_currentMotionLevel, Hl, Hcmp.
    unfold motionScore. rewrite Hp, Henv. reflexivity.
  - intros Hnone.
    destruct (reachable_invariant JSON_parse s Hreach)
      as (_ & _ & Hfirst & _).
    destruct (Hfirst Hnone) as [Hlevel Hflag].
    assert (comparesFrames env s = false) as Hcmp.
    { unfold comparesFrames. rewrite Hnone. apply andb_false_r. }
    assert (motionCandidate env s = false) as Hcand.
    { unfold motionCandidate. rewrite Hcmp. reflexivity. }
    split; [|split; [|split; [|split; [|split]]]].
    + rewrite detectMotion_currentMotionLevel, Hcmp, andb_false_r, Hlevel.
      reflexivity.
    + rewrite detectMotion_lastMotionDetected, Hcand, andb_false_r.
      exact Hflag.
    + exact Hcand.
    + rewrite detectMotion_events, Hcand.
      destruct (live env s && cooledDown env s && negb (isSmartGuard s));
        [|left; reflexivity].
      destruct (audioCandidate env s); [|left; reflexivity].
      destruct (getContext env); [right | left]; reflexivity.
    + intros Hl. rewrite (detectMotion_live env s Hl).
      pose proof (detectAudio_untouched env s) as Hsame. cbv zeta in Hsame.
      destruct Hsame as (_ & _ & _ & _ & _ & _ & _ & _ & Hp & _).
      unfold detectFrame.
      destruct (now env - lastFrameTimeRef (detectAudio env s) <? 100);
        [repeat split|].
      destruct (getContext env); cbn [negb]; [|repeat split].
      change (prevFrameRef (setLastFrameTimeRef (now env) (detectAudio env s)))
        with (prevFrameRef (detectAudio env s)).
      rewrite Hp, Hnone. repeat split.
    + apply detectMotion_not_live.
Qed.

(** C4.  The audio score of a tick is the largest of the analyser's 128
    magnitude bins (the peak, not the mean), divided by 255, the largest value
    a bin can hold, and multiplied by 100, so it lies between 0 and 100.  The
    audio reading is a candidate exactly when the score is strictly greater
    than [100 - audioSensitivity]; when the motion reading is no candidate
    and the cooldown window is open, the clock restarts exactly in that
    case. *)
Theorem C4_audio_score (env : TickEnv) (s : AppState) (analyser : AnalyserNode) :
  reachable JSON_parse s ->
  analyserRef s = Some analyser ->
  live env s = true ->
  let s' := detectMotion env s in
  let dataArray := dataArrayOf env analyser in
  exists max : Z,
    let score := (inject_Z max / 255 * 100)%Q in
    List.length dataArray = 128%nat /\
    In max (map u8 dataArray) /\
    (forall b, In b dataArray -> u8 b <= max) /\
    audioLevel s' = Num score /\
    (0 <= score <= 100)%Q /\
    (audioCandidate env s = true <->
     (inject_Z (100 - audioSensitivity s) < score)%Q) /\
    (motionCandidate env s = false -> cooledDown env s = true ->
     (lastDetectionTimeRef s' = now env <->
      (inject_Z (100 - audioSensitivity s) < score)%Q)).
Proof.
  intros Hreach Han Hl. cbv zeta.
  destruct (reachable_invariant JSON_parse s Hreach) as (_ & _ & _ & Hshape).
  assert (List.length (dataArrayOf env analyser) = 128%nat) as Hlen.
  { rewrite dataArrayOf_length. unfold frequencyBinCount.
    rewrite (Hshape analyser Han). reflexivity. }
  destruct (normalizedLevelOf_spec (dataArrayOf env analyser))
    as (max & Hscore & Hin & Hmax & Hrange).
  { intros Hnil. rewrite Hnil in Hlen. discriminate. }
  assert (audioScore env s
          = Some (Num (inject_Z max / 255 * 100)%Q)) as Haudio.
  { unfold audioScore. rewrite Han, Hscore. reflexivity. }
  assert (audioCandidate env s = true <->
          (inject_Z (100 - audioSensitivity s) < inject_Z max / 255 * 100)%Q)
    as Hcand.
  { unfold audioCandidate. rewrite Haudio. apply number_gt_lt. }
  exists max. cbv zeta.
  split; [exact Hlen|]. split; [exact Hin|]. split; [exact Hmax|].
  split; [rewrite detectMotion_audioLevel, Hl, Haudio; reflexivity|].
  split; [exact Hrange|]. split; [exact Hcand|].
  intros Hmotion Hopen. split.
  - intros Hclock. apply Hcand.
    rewrite detectMotion_lastDetectionTimeRef, Hl, Hmotion, Hopen in Hclock.
    destruct (audioCandidate env s); [reflexivity|].
    cbn [andb orb] in Hclock. apply cooledDown_lt in Hopen.
    pose proof (cooldownWindow_pos (isSmartGuard s)). lia.
  - intros Hlt. apply Hcand in Hlt.
    rewrite detectMotion_lastDetectionTimeRef, Hl, Hlt, Hopen. reflexivity.
Qed.

(** ** The event log, claim by claim *)

Lemma insertAll_fifty_one (e1 : DetectionEvent) (es : list DetectionEvent) :
  List.length es = 50%nat -> insertAll (e1 :: es) [] = rev es.
Proof.
  intros Hlen. rewrite insertAll_firstn by (cbn [List.length]; lia).
  cbn [rev]. rewrite app_nil_r, firstn_app, length_rev, Hlen.
  change (50 - 50)%nat with 0%nat. rewrite firstn_O, app_nil_r.
  apply firstn_all2. rewrite length_rev, Hlen. lia.
Qed.

(** The event an action puts into the log of [s], if it puts one: a live
    tick outside the cooldown window with Smart Guard off, for a sound
    candidate on a canvas with a context or else for a motion candidate; a
    settled request that was outstanding and is confirmed. *)
Definition inserted (a : Action) (s : AppState) : option DetectionEvent :=
  match a with
  | Tick env =>
      if live env s && cooledDown env s && negb (isSmartGuard s) then
        if audioCandidate env s then
          if getContext env then Some (soundEvent env) else None
        else if motionCandidate env s then Some (motionEvent env) else None
      else None
  | Settle r newId newDate =>
      match pending s with
      | base64Image :: _ =>
          if confirmed JSON_parse r
          then Some (verifierEvent JSON_parse base64Image r newId newDate)
          else None
      | [] => None
      end
  | _ => None
  end.

(** The events put into the log along a run, oldest first. *)
Fixpoint insertedAlong (actions : list Action) (s : AppState)
    : list DetectionEvent :=
  match actions with
  | [] => []
  | a :: rest =>
      match inserted a s with
      | Some e => e :: insertedAlong rest (step JSON_parse a s)
      | None => insertedAlong rest (step JSON_parse a s)
      end
  end.

(** What a step does to the log. *)
Lemma step_inserted (a : Action) (s : AppState) :
  events (step JSON_parse a s) =
  match inserted a s with
  | Some e => prependEvent e (events s)
  | None => match a with ClearLogs => [] | _ => events s end
  end.
Proof.
  destruct a; cbn [step inserted]; try reflexivity.
  - destruct o; reflexivity.
  - rewrite detectMotion_events.
    destruct (live env s && cooledDown env s && negb (isSmartGuard s));
      [|reflexivity].
    destruct (audioCandidate env s).
    + destruct (getContext env); reflexivity.
    + destruct (motionCandidate env s); reflexivity.
  - destruct (pending s) as [|base64Image rest]; [reflexivity|].
    unfold analyzeFrame_settle. rewrite analyzeFrame_try_cases.
    destruct (confirmed JSON_parse r); reflexivity.
Qed.

(** What a run without [Clear Logs] does to the log. *)
Lemma run_inserted (actions : list Action) (s : AppState) :
  ~ In ClearLogs actions ->
  events (run JSON_parse actions s)
  = insertAll (insertedAlong actions s) (events s).
Proof.
  revert s. induction actions as [|a rest IH]; intros s Hclear.
  - reflexivity.
  - change (run JSON_parse (a :: rest) s)
      with (run JSON_parse rest (step JSON_parse a s)).
    rewrite IH by (intros Hin; apply Hclear; right; exact Hin).
    rewrite step_inserted. cbn [insertedAlong].
    destruct (inserted a s) as [e|]; [reflexivity|].
    destruct a; try reflexivity.
    exfalso. apply Hclear. left. reflexivity.
Qed.

(** C5.  The event log never holds more than 50 entries and is ordered
    newest first.  Each of the three insertions puts the new event in front:
    the sound alert of a live tick outside the cooldown window with Smart
    Guard off, a sound candidate and a canvas context; the motion alert of
    such a tick with no sound candidate and a motion candidate; the alert of
    an outstanding request that settles confirmed.  Below the cap nothing is
    lost, at the cap the last, oldest entry is dropped.  No other step
    changes the log, except [Clear Logs], which empties it.  So a run
    without [Clear Logs] leaves the log that inserting its events one by one
    gives, and a run that inserts 51 events leaves the last 50, newest
    first, without the first one. *)
Theorem C5_event_log (s : AppState) (e1 : DetectionEvent)
    (es : list DetectionEvent) :
  reachable JSON_parse s ->
  List.length es = 50%nat ->
  (List.length (events s) <= 50)%nat /\
  (forall e log, (List.length log < 50)%nat -> prependEvent e log = e :: log) /\
  (forall e log, List.length log = 50%nat ->
     prependEvent e log = e :: removelast log) /\
  (forall env,
     live env s = true -> cooledDown env s = true -> isSmartGuard s = false ->
     audioCandidate env s = true -> getContext env = true ->
     events (detectMotion env s) = prependEvent (soundEvent env) (events s)) /\
  (forall env,
     live env s = true -> cooledDown env s = true -> isSmartGuard s = false ->
     audioCandidate env s = false -> motionCandidate env s = true ->
     events (detectMotion env s) = prependEvent (motionEvent env) (events s)) /\
  (forall r newId newDate base64Image rest,
     pending s = base64Image :: rest -> confirmed JSON_parse r = true ->
     events (step JSON_parse (Settle r newId newDate) s)
     = prependEvent (verifierEvent JSON_parse base64Image r newId newDate)
         (events s)) /\
  (forall a,
     events (step JSON_parse a s) =
     match inserted a s with
     | Some e => prependEvent e (events s)
     | None => match a with ClearLogs => [] | _ => events s end
     end) /\
  (forall actions,
     ~ In ClearLogs actions ->
     events (run JSON_parse actions s)
     = insertAll (insertedAlong actions s) (events s)) /\
  (forall actions,
     ~ In ClearLogs actions ->
     insertedAlong actions s = e1 :: es ->
     events (run JSON_parse actions s) = rev es /\
     List.length (events (run JSON_parse actions s)) = 50%nat /\
     (NoDup (e1 :: es) -> ~ In e1 (events (run JSON_parse actions s)))) /\
  insertAll (e1 :: es) [] = rev es.
Proof.
  intros Hreach Hlen.
  assert (List.length (events s) <= 50)%nat as Hlog
    by apply (reachable_invariant JSON_parse s Hreach).
  split; [exact Hlog|].
  split; [apply prependEvent_below|].
  split; [apply prependEvent_full|].
  split; [|split; [|split; [|split; [|split; [|split]]]]].
  - intros env Hl Hc Hg Ha Hctx.
    rewrite detectMotion_events, Hl, Hc, Hg, Ha, Hctx. reflexivity.
  - intros env Hl Hc Hg Ha Hm.
    rewrite detectMotion_events, Hl, Hc, Hg, Ha, Hm. reflexivity.
  - intros r newId newDate base64Image rest Hp Hconf.
    rewrite step_inserted. cbn [inserted]. rewrite Hp, Hconf. reflexivity.
  - intros a. apply step_inserted.
  - intros actions. apply run_inserted.
  - intros actions Hclear Hins.
    assert (events (run JSON_parse actions s) = rev es) as Hrun.
    { rewrite run_inserted by exact Hclear. rewrite Hins.
      rewrite insertAll_firstn by exact Hlog.
      cbn [rev]. rewrite <- app_assoc, firstn_app, length_rev, Hlen.
      change (50 - 50)%nat with 0%nat. rewrite firstn_O, app_nil_r.
      apply firstn_all2. rewrite length_rev, Hlen. lia. }
    rewrite Hrun. split; [reflexivity|].
    split; [rewrite length_rev; exact Hlen|].
    intros Hnodup. rewrite <- in_rev. inversion Hnodup. assumption.
  - apply insertAll_fifty_one. exact Hlen.
Qed.

(** ** The verifier adapter, claim by claim *)

Lemma responseText_wrapped (pre rest : string) :
  responseText (Some (pre ++ "{" ++ rest)) = pre ++ "{" ++ rest.
Proof.
  unfold responseText. destruct pre; reflexivity.
Qed.

Lemma step_settle_unconfirmed (s : AppState) (r : Settled)
    (newId : string) (newDate : Z) :
  confirmed JSON_parse r = false ->
  let s' := step JSON_parse (Settle r newId newDate) s in
  events s' = events s /\ isSuspicious s' = isSuspicious s /\
  isMonitoring s' = isMonitoring s /\ stream s' = stream s.
Proof.
  intros Hc. cbv zeta. cbn [step].
  destruct (pending s) as [|base64Image rest]; [repeat split|].
  unfold analyzeFrame_settle. rewrite analyzeFrame_try_cases, Hc.
  repeat split.
Qed.

(** C6.  The adapter hands to the parser the part of the response text from
    the first opening brace to the last closing brace.  When the request
    rejects, the text does not parse, or the parsed result has no truthy
    [isSuspicious], settling the request creates no event, leaves the alarm
    as it was and leaves the session running. *)
Theorem C6_verifier_degrades (s : AppState) (r : Settled)
    (newId : string) (newDate : Z) (pre mid post : string) :
  ~ occurs "{"%char pre ->
  ~ occurs "}"%char post ->
  r = Rejected \/
  (exists text,
     r = Fulfilled text /\
     JSON_parse (extractJson (responseText text)) = None) \/
  (exists text result,
     r = Fulfilled text /\
     JSON_parse (extractJson (responseText text)) = Some result /\
     truthy (property "isSuspicious" result) = false) ->
  let wrapped := pre ++ "{" ++ mid ++ "}" ++ post in
  let s' := step JSON_parse (Settle r newId newDate) s in
  extractJson wrapped = "{" ++ mid ++ "}" /\
  confirmed JSON_parse (Fulfilled (Some wrapped)) =
    match JSON_parse ("{" ++ mid ++ "}") with
    | Some result => truthy (property "isSuspicious" result)
    | None => false
    end /\
  events s' = events s /\
  isSuspicious s' = isSuspicious s /\
  isMonitoring s' = isMonitoring s /\
  stream s' = stream s.
Proof.
  intros Hpre Hpost Hfail. cbv zeta.
  split; [apply extractJson_between; assumption|].
  split.
  - unfold confirmed. rewrite responseText_wrapped.
    rewrite extractJson_between by assumption. reflexivity.
  - apply step_settle_unconfirmed.
    destruct Hfail as [-> | [(text & -> & Hparse) | (text & result & -> & Hparse & Hfalse)]].
    + reflexivity.
    + unfold confirmed. rewrite Hparse. reflexivity.
    + unfold confirmed. rewrite Hparse. exact Hfalse.
Qed.

(** C7.  At most one verification is outstanding, and the in-flight flag is
    set exactly while there is one.  A call of the adapter made while the
    flag is set changes nothing: it is dropped, not queued.  A call made
    while the flag is clear sets it and sends one request.  However the
    request settles, the flag is clear afterwards and nothing is left
    outstanding. *)
Theorem C7_single_flight (s : AppState) :
  reachable JSON_parse s ->
  (List.length (pending s) <= 1)%nat /\
  (isAnalyzing s = true <-> pending s <> []) /\
  (forall base64Image triggerSource,
     isAnalyzing s = true -> analyzeFrame base64Image triggerSource s = s) /\
  (forall base64Image triggerSource,
     isAnalyzing s = false ->
     isAnalyzing (analyzeFrame base64Image triggerSource s) = true /\
     pending (analyzeFrame base64Image triggerSource s) = [base64Image]) /\
  (forall r newId newDate,
     isAnalyzing (step JSON_parse (Settle r newId newDate) s) = false /\
     pending (step JSON_parse (Settle r newId newDate) s) = []) /\
  (forall base64Image r newId newDate s0,
     isAnalyzing
       (analyzeFrame_settle JSON_parse base64Image r newId newDate s0) = false).
Proof.
  intros Hreach.
  destruct (reachable_invariant JSON_parse s Hreach) as (_ & Hsf & _).
  pose proof (single_flight_idle s Hsf) as Hidle.
  destruct Hsf as [Hlen Hflag].
  split; [exact Hlen|]. split; [exact Hflag|].
  split; [|split; [|split]].
  - intros base64Image triggerSource Hb. unfold analyzeFrame.
    rewrite Hb. reflexivity.
  - intros base64Image triggerSource Hb. unfold analyzeFrame.
    rewrite Hb. st_simpl. rewrite (Hidle Hb). split; reflexivity.
  - intros r newId newDate. cbn [step].
    destruct (pending s) as [|base64Image rest] eqn:Hp.
    + split; [|exact Hp].
      destruct (isAnalyzing s) eqn:Hb; [|reflexivity].
      exfalso. apply Hflag; reflexivity.
    + assert (rest = []) as ->
        by (destruct rest; [reflexivity | cbn [List.length] in Hlen; lia]).
      unfold analyzeFrame_settle. rewrite analyzeFrame_try_cases.
      destruct (confirmed JSON_parse r); split; reflexivity.
  - intros base64Image r newId newDate s0. reflexivity.
Qed.

(** ** Session stop *)

(** C8 (as amended).  Stopping a session drops the stream, clears the
    monitoring flag and resets the alarm to idle, and that is all it writes:
    the stored previous frame, the motion and audio scores, the two clocks,
    the in-flight flag and the outstanding request keep their values, and the
    event log is unchanged.  A tick that still arrives after the stop does
    nothing. *)
Theorem C8_stop_camera (s : AppState) :
  let s' := stopCamera s in
  (stream s' = None /\ isMonitoring s' = false /\ isSuspicious s' = false) /\
  events s' = events s /\
  (prevFrameRef s' = prevFrameRef s /\
   currentMotionLevel s' = currentMotionLevel s /\
   audioLevel s' = audioLevel s /\
   lastDetectionTimeRef s' = lastDetectionTimeRef s /\
   lastFrameTimeRef s' = lastFrameTimeRef s /\
   isAnalyzing s' = isAnalyzing s /\
   pending s' = pending s) /\
  (forall env, detectMotion env s' = s').
Proof.
  cbv zeta. split; [repeat split|]. split; [reflexivity|].
  split; [repeat split|].
  intros env. apply detectMotion_not_live. reflexivity.
Qed.

(** ** Instant alerts *)

(** C9 (as amended).  With Smart Guard off, an accepted motion candidate, and
    an accepted audio candidate for which the canvas has a 2D context, puts
    exactly one event in front of the log, with the fixed reason
    "Instant Sound Alert" or "Instant Motion Alert" and [isSuspicious] true,
    raises the alarm and sends nothing to the verifier.  An accepted audio
    candidate on a canvas without a 2D context only restarts the clock. *)
Theorem C9_instant_alert (env : TickEnv) (s : AppState) :
  isSmartGuard s = false ->
  live env s = true ->
  cooledDown env s = true ->
  audioCandidate env s || motionCandidate env s = true ->
  let s' := detectMotion env s in
  lastDetectionTimeRef s' = now env /\
  ((audioCandidate env s = true -> getContext env = true) ->
   events s' =
     prependEvent
       (if audioCandidate env s then soundEvent env else motionEvent env)
       (events s) /\
   (List.length (events s) < 50 ->
    List.length (events s') = S (List.length (events s)))%nat /\
   instantAlert s s') /\
  reason (soundEvent env) = JStr "Instant Sound Alert" /\
  reason (motionEvent env) = JStr "Instant Motion Alert" /\
  (audioCandidate env s = true -> getContext env = false ->
   events s' = events s /\ isSuspicious s' = isSuspicious s /\
   pending s' = pending s /\ isAnalyzing s' = isAnalyzing s).
Proof.
  intros Hg Hl Hc Hcand. cbv zeta.
  split; [apply detectMotion_open_window; assumption|].
  split; [|split; [reflexivity|split; [reflexivity|]]].
  - intros Hctx.
    assert (events (detectMotion env s) =
            prependEvent
              (if audioCandidate env s then soundEvent env else motionEvent env)
              (events s)) as Hev.
    { rewrite detectMotion_events, Hl, Hc, Hg. cbn [andb negb].
      destruct (audioCandidate env s).
      - rewrite Hctx by reflexivity. reflexivity.
      - cbn [orb] in Hcand. rewrite Hcand. reflexivity. }
    split; [exact Hev|]. split.
    + intros Hlen. rewrite Hev, prependEvent_below by exact Hlen. reflexivity.
    + exists (if audioCandidate env s then soundEvent env else motionEvent env).
      split; [exact Hev|].
      split; [destruct (audioCandidate env s); [right | left]; reflexivity|].
      split; [destruct (audioCandidate env s); reflexivity|].
      rewrite detectMotion_isSuspicious, detectMotion_pending,
        detectMotion_isAnalyzing, Hl, Hc, Hg. cbn [andb negb].
      destruct (audioCandidate env s).
      * rewrite Hctx by reflexivity. repeat split.
      * cbn [orb] in Hcand. rewrite Hcand. repeat split.
  - intros Ha Hctx.
    rewrite detectMotion_events, detectMotion_isSuspicious,
      detectMotion_pending, detectMotion_isAnalyzing, Hl, Hc, Hg, Ha, Hctx.
    repeat split.
Qed.

(** ** A dropped verification still restarts the clock *)

(** C10.  With Smart Guard on and a verification in flight, a candidate that
    passes its threshold and the cooldown check sets the clock to [now] and
    then is dropped by the single-flight guard: no request is sent, no event
    is logged, the alarm is untouched.  Every tick of the next 1000 ms finds
    the window closed and accepts nothing. *)
Theorem C10_dropped_candidate (env : TickEnv) (s : AppState) :
  isSmartGuard s = true ->
  isAnalyzing s = true ->
  live env s = true ->
  audioCandidate env s || motionCandidate env s = true ->
  cooledDown env s = true ->
  let s' := detectMotion env s in
  lastDetectionTimeRef s' = now env /\
  pending s' = pending s /\ events s' = events s /\
  isSuspicious s' = isSuspicious s /\ isAnalyzing s' = true /\
  (forall env2, now env2 - now env <= 1000 ->
     let s'' := detectMotion env2 s' in
     lastDetectionTimeRef s'' = now env /\
     pending s'' = pending s' /\ events s'' = events s' /\
     isSuspicious s'' = isSuspicious s' /\ isAnalyzing s'' = true).
Proof.
  intros Hg Hb Hl Hcand Hc. cbv zeta.
  assert (lastDetectionTimeRef (detectMotion env s) = now env) as Hclock
    by (apply detectMotion_open_window; assumption).
  assert (isAnalyzing (detectMotion env s) = true) as Hflag.
  { rewrite detectMotion_isAnalyzing, Hb. destruct (_ && _); reflexivity. }
  assert (isSmartGuard (detectMotion env s) = true) as Hguard.
  { pose proof (detectMotion_untouched env s) as Hu. cbv zeta in Hu.
    destruct Hu as (_ & _ & _ & _ & _ & -> & _). exact Hg. }
  split; [exact Hclock|].
  split.
  { rewrite detectMotion_pending, Hb. cbn [negb].
    rewrite !andb_false_r. reflexivity. }
  split; [apply detectMotion_smart_guard; exact Hg|].
  split; [apply detectMotion_smart_guard; exact Hg|].
  split; [exact Hflag|].
  intros env2 Hnear.
  assert (cooledDown env2 (detectMotion env s) = false) as Hclosed.
  { unfold cooledDown. rewrite Hguard, Hclock. apply Z.ltb_ge.
    cbn [cooldownWindow]. lia. }
  destruct (detectMotion_closed_window env2 (detectMotion env s) Hclosed)
    as (H1 & H2 & H3 & H4 & H5).
  rewrite H1, H2, H3, H4, H5, Hclock, Hflag. repeat split.
Qed.

End Claims.

(** * Examples

    Each theorem above that has premises is applied here to a concrete
    session; [sampleParse] stands for [JSON.parse]. *)

Lemma blackFrame_canvasRaster : canvasRaster blackFrame.
Proof.
  unfold canvasRaster, blackFrame. cbn [data].
  rewrite repeat_length, Z2Nat.id; [reflexivity|].
  unfold canvas_width, canvas_height. lia.
Qed.

Lemma startedState_reachable : reachable sampleParse startedState.
Proof.
  exact (reachable_step sampleParse (StartCamera MediaStarted) initialState
           (reachable_initial sampleParse) I).
Qed.

(** A loud tick five seconds in, on a fresh session: accepted. *)
Lemma C1_cooldown_gate_witness :
  lastDetectionTimeRef (detectMotion (loudEnv 5000) startedState) = 5000.
Proof.
  refine (proj1 (proj2 (proj2 (C1_cooldown_gate (loudEnv 5000) startedState)))
            _ _ _).
  - reflexivity.
  - reflexivity.
  - cbn. lia.
Defined.

(** The frames of the example: the tick 200 ms after the first one compares
    two black frames. *)
Lemma C2_motion_threshold_witness :
  currentMotionLevel (detectMotion (loudEnv 5200) scanningState) =
  motionLevelOf canvas_width canvas_height (data blackFrame) (data blackFrame).
Proof.
  refine (proj1 (proj2 (C2_motion_threshold (loudEnv 5200) scanningState
                          (motionLevelOf canvas_width canvas_height
                             (data blackFrame) (data blackFrame))
                          _ _ _ _))).
  - change (1 <= 85 <= 99). lia.
  - reflexivity.
  - reflexivity.
  - reflexivity.
Defined.

(** Two black frames, on the first tick of the first session. *)
Lemma C3_motion_score_witness :
  (0 <= motionLevelOf canvas_width canvas_height
          (data blackFrame) (data blackFrame) <= 100)%Q /\
  lastMotionDetected (detectMotion (loudEnv 5000) startedState) = false.
Proof.
  pose proof (C3_motion_score sampleParse (loudEnv 5000) startedState blackFrame blackFrame
                blackFrame_canvasRaster blackFrame_canvasRaster
                startedState_reachable) as H.
  cbv zeta in H.
  destruct H as (_ & _ & _ & _ & _ & _ & Hrange & _ & _ & Hfirst).
  split; [exact Hrange|].
  exact (proj1 (proj2 (Hfirst eq_refl))).
Defined.

(** Every bin at 255 on a fresh session: the score is 100. *)
Lemma C4_audio_score_witness :
  exists max : Z,
    audioLevel (detectMotion (loudEnv 5000) startedState)
    = Num (inject_Z max / 255 * 100)%Q /\
    (0 <= inject_Z max / 255 * 100 <= 100)%Q.
Proof.
  destruct (C4_audio_score sampleParse (loudEnv 5000) startedState {| fftSize := 256 |}
              startedState_reachable eq_refl eq_refl)
    as (max & _ & _ & _ & Hlevel & Hrange & _).
  exists max. split; [exact Hlevel | exact Hrange].
Defined.

Lemma scanningState_reachable : reachable sampleParse scanningState.
Proof.
  exact (reachable_step sampleParse (Tick (loudEnv 5000)) startedState
           startedState_reachable I).
Qed.

(** The service wraps a negative answer in prose while a request is
    outstanding. *)
Lemma C6_verifier_degrades_witness :
  events (step sampleParse
            (Settle (Fulfilled (Some ("Answer: " ++ sampleAnswer ++ " (end)")))
               "r4t8u2v6y" 5400) scanningState)
  = events scanningState.
Proof.
  refine (proj1 (proj2 (proj2
            (C6_verifier_degrades sampleParse scanningState
               (Fulfilled (Some ("Answer: " ++ sampleAnswer ++ " (end)")))
               "r4t8u2v6y" 5400 "Answer: " sampleBody " (end)" _ _ _)))).
  - unfold occurs. cbn. intuition discriminate.
  - unfold occurs. cbn. intuition discriminate.
  - right. right.
    exists (Some ("Answer: " ++ sampleAnswer ++ " (end)")).
    exists (JObj [("isSuspicious", JBool false); ("reason", JStr "empty room")]).
    split; [reflexivity|]. split; reflexivity.
Defined.

(** One request outstanding: a second call is dropped. *)
Lemma C7_single_flight_witness :
  analyzeFrame "data:image/jpeg;base64,/9j/4AAS" motion scanningState
  = scanningState.
Proof.
  exact (proj1 (proj2 (proj2
           (C7_single_flight sampleParse scanningState scanningState_reachable)))
           "data:image/jpeg;base64,/9j/4AAS" motion eq_refl).
Defined.

(** C8, as the sentence states it, fails on a session that has run one tick:
    after the stop the previous frame is still stored, the audio score is
    still 100 and the clock still reads 5000. *)
Lemma C8_stop_camera_counterexample :
  reachable sampleParse scanningState /\
  prevFrameRef (stopCamera scanningState) = Some blackFrame /\
  audioLevel (stopCamera scanningState) = Num (25500 # 255) /\
  lastDetectionTimeRef (stopCamera scanningState) = 5000 /\
  ~ runStateCleared scanningState (stopCamera scanningState).
Proof.
  split; [exact scanningState_reachable|].
  split; [reflexivity|]. split; [reflexivity|]. split; [reflexivity|].
  intros (Hprev & _). discriminate Hprev.
Qed.

Lemma instantState_reachable : reachable sampleParse instantState.
Proof.
  exact (reachable_step sampleParse ToggleSmartGuard startedState
           startedState_reachable I).
Qed.

(** Loud ticks 400 ms apart, and the sound events they log. *)
Fixpoint loudTicks (n : nat) (t : Z) : list Action :=
  match n with
  | O => []
  | S k => Tick (loudEnv t) :: loudTicks k (t + 400)
  end.

Fixpoint loudEvents (n : nat) (t : Z) : list DetectionEvent :=
  match n with
  | O => []
  | S k => soundEvent (loudEnv t) :: loudEvents k (t + 400)
  end.

Lemma loudTicks_keep (n : nat) (t : Z) : ~ In ClearLogs (loudTicks n t).
Proof.
  revert t. induction n as [|n IH]; intros t; cbn [loudTicks In].
  - intros [].
  - intros [H | H]; [discriminate | exact (IH _ H)].
Qed.

(** With Smart Guard off every one of these ticks logs its sound event. *)
Lemma loudTicks_inserted (n : nat) (t : Z) (s : AppState) :
  isMonitoring s = true -> isSmartGuard s = false ->
  analyserRef s = Some {| fftSize := 256 |} -> audioSensitivity s = 60 ->
  lastDetectionTimeRef s + 300 < t ->
  insertedAlong sampleParse (loudTicks n t) s = loudEvents n t.
Proof.
  revert t s. induction n as [|n IH]; intros t s Hm Hg Ha Hs Ht;
    [reflexivity|].
  assert (live (loudEnv t) s = true) as Hl
    by (unfold live; rewrite Hm; reflexivity).
  assert (cooledDown (loudEnv t) s = true) as Hc.
  { unfold cooledDown, cooldownWindow. rewrite Hg. cbn [now loudEnv].
    apply Z.ltb_lt. lia. }
  assert (audioCandidate (loudEnv t) s = true) as Hloud
    by (unfold audioCandidate, audioScore; rewrite Ha, Hs; reflexivity).
  cbn [loudTicks loudEvents insertedAlong inserted].
  rewrite Hl, Hc, Hg, Hloud. cbn [andb negb getContext loudEnv step].
  f_equal.
  pose proof (detectMotion_untouched (loudEnv t) s) as Hsame.
  cbv zeta in Hsame.
  destruct Hsame as (Hm' & _ & _ & _ & Hs' & Hg' & Ha').
  apply IH; [congruence | congruence | congruence | congruence |].
  rewrite detectMotion_lastDetectionTimeRef, Hl, Hc, Hloud.
  cbn [andb orb now loudEnv]. lia.
Qed.

(** Fifty-one loud ticks on a session with Smart Guard off: the log holds
    the events of the last fifty, newest first. *)
Lemma C5_event_log_witness :
  events (run sampleParse (loudTicks 51 5000) instantState)
  = rev (loudEvents 50 5400).
Proof.
  pose proof (C5_event_log sampleParse instantState
                (soundEvent (loudEnv 5000)) (loudEvents 50 5400)
                instantState_reachable eq_refl) as H.
  destruct H as (_ & _ & _ & _ & _ & _ & _ & _ & Hrun & _).
  refine (proj1 (Hrun (loudTicks 51 5000) (loudTicks_keep 51 5000) _)).
  apply (loudTicks_inserted 51 5000 instantState);
    [reflexivity | reflexivity | reflexivity | reflexivity |].
  change (0 + 300 < 5000). lia.
Defined.

(** C9, as the sentence states it, fails for an audio candidate on a canvas
    without a 2D context: the candidate is accepted (the clock restarts) and
    no event is logged. *)
Lemma C9_instant_alert_counterexample :
  reachable sampleParse instantState /\
  isSmartGuard instantState = false /\
  live (loudEnvNoContext 5000) instantState = true /\
  audioCandidate (loudEnvNoContext 5000) instantState = true /\
  cooledDown (loudEnvNoContext 5000) instantState = true /\
  lastDetectionTimeRef (detectMotion (loudEnvNoContext 5000) instantState)
  = 5000 /\
  events (detectMotion (loudEnvNoContext 5000) instantState) = [] /\
  ~ instantAlert instantState
      (detectMotion (loudEnvNoContext 5000) instantState).
Proof.
  split; [exact instantState_reachable|].
  repeat (split; [reflexivity|]).
  intros (e & Hev & _). discriminate Hev.
Qed.

(** The same loud tick on a canvas with a context: one sound event. *)
Lemma C9_instant_alert_witness :
  instantAlert instantState (detectMotion (loudEnv 5000) instantState).
Proof.
  refine (proj2 (proj2 (proj1 (proj2
            (C9_instant_alert (loudEnv 5000) instantState _ _ _ _)) _)));
    try reflexivity.
Defined.

(** A second loud tick 1.5 s after the one that started the verification. *)
Lemma C10_dropped_candidate_witness :
  lastDetectionTimeRef (detectMotion (loudEnv 6500) scanningState) = 6500 /\
  pending (detectMotion (loudEnv 6500) scanningState) = pending scanningState.
Proof.
  pose proof (C10_dropped_candidate (loudEnv 6500) scanningState
                eq_refl eq_refl eq_refl eq_refl eq_refl) as H.
  cbv zeta in H. destruct H as (Hclock & Hpending & _).
  split; [exact Hclock | exact Hpending].
Defined.

(** ** The model at work *)

(** The worked scenario of the specification: sensitivity 85 gives the
    threshold 7.5; at the extremes of the slider it is 0.5 and 49.5. *)
Example motionThreshold_85 : (motionThreshold 85 == 15 # 2)%Q.
Proof. reflexivity. Qed.

Example motionThreshold_99 : (motionThreshold 99 == 1 # 2)%Q.
Proof. reflexivity. Qed.

Example motionThreshold_1 : (motionThreshold 1 == 99 # 2)%Q.
Proof. reflexivity. Qed.

(** One changed pixel out of four sampled on an 8 by 2 canvas: 25. *)
Example motionLevelOf_quarter :
  let black := repeat Byte.x00 64 in
  let lit := ([Byte.x10; Byte.x10; Byte.x10] ++ repeat Byte.x00 61)%list in
  (motionLevelOf 8 2 lit black == 25)%Q /\
  (motionLevelOf 8 2 black black == 0)%Q.
Proof. split; reflexivity. Qed.

(** A difference of exactly 45 is not a change. *)
Example pixelChanged_floor :
  pixelChanged [Byte.x0f; Byte.x0f; Byte.x0f; Byte.xff]
               [Byte.x00; Byte.x00; Byte.x00; Byte.xff] 0 = false /\
  pixelChanged [Byte.x10; Byte.x0f; Byte.x0f; Byte.xff]
               [Byte.x00; Byte.x00; Byte.x00; Byte.xff] 0 = true.
Proof. split; reflexivity. Qed.

(** The peak decides, not the mean: one bin at 51 among silent ones scores 20. *)
Example normalizedLevelOf_peak :
  exists q, normalizedLevelOf [Byte.x00; Byte.x33; Byte.x00; Byte.x00] = Num q
            /\ (q == 20)%Q.
Proof. eexists. split; reflexivity. Qed.

(** Braces out of order: [substring] swaps its arguments. *)
Example extractJson_swapped : extractJson "} {" = " ".
Proof. reflexivity. Qed.

Example extractJson_prose :
  extractJson ("Answer: " ++ sampleAnswer ++ " (end)") = sampleAnswer.
Proof. reflexivity. Qed.

(** Smart Guard on, clock at 5000: ticks 500 ms and 1000 ms later accept
    nothing, a tick 1001 ms later restarts the clock. *)
Example cooldown_scenario :
  lastDetectionTimeRef (detectMotion (loudEnvNoContext 5500) scanningState) = 5000 /\
  lastDetectionTimeRef (detectMotion (loudEnvNoContext 6000) scanningState) = 5000 /\
  lastDetectionTimeRef (detectMotion (loudEnvNoContext 6001) scanningState) = 6001.
Proof. repeat split; reflexivity. Qed.

(** A positive answer while a request is outstanding: the alarm goes on and
    the event carries the verifier's reason. *)
Example confirmed_scenario :
  let parse := fun _ : string =>
    Some (JObj [("isSuspicious", JBool true); ("reason", JStr "a person")]) in
  let s' := step parse (Settle (Fulfilled (Some "{}")) "r4t8u2v6y" 5400)
              scanningState in
  isSuspicious s' = true /\ isAnalyzing s' = false /\ pending s' = [] /\
  map reason (events s') = [JStr "a person"].
Proof. repeat split; reflexivity. Qed.

(** * The rest of the component

    The alarm sound, the indicators of the live view, the request payload and
    the way the commands compose. *)

(** ** Definitions *)

(** The effect on [isSuspicious] and [isMuted]: the alarm sound plays exactly
    under [isSuspicious && !isMuted]. *)
Definition alarmPlaying (s : AppState) : bool :=
  isSuspicious s && negb (isMuted s).

(** [events.filter(e => e.isSuspicious).length], the "Alerts" counter. *)
Definition alertsCount (s : AppState) : nat :=
  List.length (filter ev_isSuspicious (events s)).

(** The motion bar: [Math.min(currentMotionLevel * 5, 100)] per cent wide,
    red under [currentMotionLevel > (100 - sensitivity)]. *)
Definition motionBarWidth (s : AppState) : Q :=
  Qmin (currentMotionLevel s * 5) 100.

Definition motionBarRed (s : AppState) : bool :=
  Qgtb (currentMotionLevel s) (inject_Z (100 - sensitivity s)).

(** The audio bar is red under [audioLevel > (100 - audioSensitivity)]. *)
Definition audioBarRed (s : AppState) : bool :=
  number_gt (audioLevel s) (inject_Z (100 - audioSensitivity s)).

(** The "Motion Detected" badge: [lastMotionDetected && !isSuspicious]. *)
Definition motionBadge (s : AppState) : bool :=
  lastMotionDetected s && negb (isSuspicious s).

(** [s.split(c)]: the pieces between the occurrences of [c]; always at least
    one piece. *)
Fixpoint split (c : ascii) (s : string) : list string :=
  match s with
  | EmptyString => [EmptyString]
  | String a rest =>
      if Ascii.eqb a c then EmptyString :: split c rest
      else
        match split c rest with
        | piece :: pieces => String a piece :: pieces
        | [] => [String a EmptyString]
        end
  end.

(** [base64Image.split(',')[1]], the [data] of the request; [None] is
    [undefined]. *)
Definition inlineData (base64Image : string) : option string :=
  nth_error (split ","%char base64Image) 1.

(** An event as every insertion site builds it: flagged suspicious, with a
    reason that is not empty. *)
Definition wellFormedEvent (e : DetectionEvent) : Prop :=
  ev_isSuspicious e = true /\ truthy (Some (reason e)) = true.

(** A parser for the examples that reads every text as a positive answer. *)
Definition personParse (text : string) : option JSON :=
  Some (JObj [("isSuspicious", JBool true); ("reason", JStr "a person")]).

(** A session with Smart Guard off after one loud tick: one sound event. *)
Definition alertedState : AppState := detectMotion (loudEnv 5000) instantState.

(** ** What a step does to the log, the alarm and the clocks *)

Lemma Forall_firstn {A} (P : A -> Prop) (n : nat) (l : list A) :
  Forall P l -> Forall P (firstn n l).
Proof.
  intros H. revert n. induction H as [|x l Hx _ IH]; intros n.
  - rewrite firstn_nil. constructor.
  - destruct n as [|n]; [constructor|].
    rewrite firstn_cons. constructor; [exact Hx | apply IH].
Qed.

Lemma prependEvent_Forall (P : DetectionEvent -> Prop) (e : DetectionEvent)
    (log : list DetectionEvent) :
  P e -> Forall P log -> Forall P (prependEvent e log).
Proof.
  intros He Hlog. unfold prependEvent. apply Forall_firstn.
  constructor; assumption.
Qed.

Lemma soundEvent_wellFormed (env : TickEnv) : wellFormedEvent (soundEvent env).
Proof. split; reflexivity. Qed.

Lemma motionEvent_wellFormed (env : TickEnv) : wellFormedEvent (motionEvent env).
Proof. split; reflexivity. Qed.

Lemma js_or_truthy (a : option JSON) (b : JSON) :
  truthy (Some b) = true -> truthy (Some (js_or a b)) = true.
Proof.
  intros Hb. unfold js_or. destruct a as [v|]; [|exact Hb].
  destruct (truthy (Some v)) eqn:Hv; [exact Hv | exact Hb].
Qed.

Section Coverage.

Variable JSON_parse : string -> option JSON.

Lemma verifierEvent_wellFormed (base64Image : string) (r : Settled)
    (newId : string) (newDate : Z) :
  wellFormedEvent (verifierEvent JSON_parse base64Image r newId newDate).
Proof.
  split; [reflexivity|]. unfold verifierEvent. cbn [reason].
  destruct r as [|text]; [reflexivity|].
  destruct (JSON_parse (extractJson (responseText text))); [|reflexivity].
  apply js_or_truthy. reflexivity.
Qed.

(** A step leaves the log alone, empties it, or puts one well-formed event
    in front and raises the alarm. *)
Lemma step_events (a : Action) (s : AppState) :
  events (step JSON_parse a s) = events s \/
  events (step JSON_parse a s) = [] \/
  exists e, wellFormedEvent e /\
            events (step JSON_parse a s) = prependEvent e (events s) /\
            isSuspicious (step JSON_parse a s) = true.
Proof.
  destruct a; cbn [step]; try (left; reflexivity).
  - destruct o; left; reflexivity.
  - rewrite detectMotion_events, detectMotion_isSuspicious.
    destruct (live env s && cooledDown env s && negb (isSmartGuard s));
      [|left; reflexivity].
    destruct (audioCandidate env s); cbn [andb orb negb].
    + destruct (getContext env); [|left; reflexivity].
      right; right. exists (soundEvent env).
      split; [apply soundEvent_wellFormed|]. split; reflexivity.
    + destruct (motionCandidate env s); [|left; reflexivity].
      right; right. exists (motionEvent env).
      split; [apply motionEvent_wellFormed|]. split; reflexivity.
  - destruct (pending s) as [|base64Image rest]; [left; reflexivity|].
    unfold analyzeFrame_settle. rewrite analyzeFrame_try_cases.
    destruct (confirmed JSON_parse r); [|left; reflexivity].
    right; right. exists (verifierEvent JSON_parse base64Image r newId newDate).
    split; [apply verifierEvent_wellFormed|]. split; reflexivity.
  - right; left. reflexivity.
Qed.

(** The alarm flag after a step: only a tick or a settled request raises
    it, and with an event. *)
Lemma step_raises (a : Action) (s : AppState) :
  isSuspicious s = false ->
  isSuspicious (step JSON_parse a s) = true ->
  exists e, wellFormedEvent e /\
            events (step JSON_parse a s) = prependEvent e (events s).
Proof.
  intros Hoff Hon. destruct a; cbn [step] in *;
    try (unfold stopCamera in *; st_simpl; congruence).
  - destruct o; cbn [startCamera] in Hon; st_simpl; congruence.
  - rewrite detectMotion_isSuspicious in Hon. rewrite detectMotion_events.
    destruct (live env s && cooledDown env s && negb (isSmartGuard s));
      cbn [andb] in Hon; [|congruence].
    destruct (audioCandidate env s); cbn [andb orb negb] in Hon.
    + destruct (getContext env); cbn [andb orb negb] in Hon; [|congruence].
      exists (soundEvent env).
      split; [apply soundEvent_wellFormed | reflexivity].
    + destruct (motionCandidate env s); cbn [andb orb negb] in Hon;
        [|congruence].
      exists (motionEvent env).
      split; [apply motionEvent_wellFormed | reflexivity].
  - destruct (pending s) as [|base64Image rest]; [congruence|].
    unfold analyzeFrame_settle in *. rewrite analyzeFrame_try_cases in *.
    destruct (confirmed JSON_parse r); st_simpl; [|congruence].
    exists (verifierEvent JSON_parse base64Image r newId newDate).
    split; [apply verifierEvent_wellFormed | reflexivity].
Qed.

(** X1.  Every event in the log of a reachable state is flagged suspicious
    and has a reason that is not empty, so the "Alerts" counter of the live
    view, which counts the flagged events, is the length of the log. *)
Theorem X1_logged_events (s : AppState) :
  reachable JSON_parse s ->
  Forall wellFormedEvent (events s) /\
  alertsCount s = List.length (events s).
Proof.
  intros Hreach.
  assert (Forall wellFormedEvent (events s)) as Hall.
  { induction Hreach as [|a s _ IH _]; [constructor|].
    destruct (step_events a s) as [-> | [-> | (e & He & -> & _)]].
    - exact IH.
    - constructor.
    - apply prependEvent_Forall; assumption. }
  split; [exact Hall|]. unfold alertsCount.
  induction Hall as [|e l [He _] _ IH]; [reflexivity|].
  cbn [filter]. rewrite He. cbn [List.length]. rewrite IH. reflexivity.
Qed.

(** X2.  The alarm and the log move together: a step that raises the alarm
    puts an event in front of the log, and a step that puts an event in the
    log leaves the alarm raised. *)
Theorem X2_alarm_with_event (a : Action) (s : AppState) :
  (isSuspicious s = false -> isSuspicious (step JSON_parse a s) = true ->
   exists e, wellFormedEvent e /\
             events (step JSON_parse a s) = prependEvent e (events s)) /\
  ((List.length (events s) < List.length (events (step JSON_parse a s)))%nat ->
   isSuspicious (step JSON_parse a s) = true).
Proof.
  split; [apply step_raises|].
  intros Hgrow.
  destruct (step_events a s) as [Heq | [Heq | (e & _ & _ & Hon)]].
  - rewrite Heq in Hgrow. lia.
  - rewrite Heq in Hgrow. cbn [List.length] in Hgrow. lia.
  - exact Hon.
Qed.

(** ** One tick *)

Lemma detectMotion_lastFrameTimeRef (env : TickEnv) (s : AppState) :
  lastFrameTimeRef (detectMotion env s) =
  if live env s && negb (now env - lastFrameTimeRef s <? 100) then now env
  else lastFrameTimeRef s.
Proof.
  pose proof (detectAudio_untouched env s) as H. cbv zeta in H.
  destruct H as (_ & _ & _ & _ & _ & _ & _ & _ & _ & Ht & _).
  destruct (live env s) eqn:Hl.
  - rewrite detectMotion_live by exact Hl.
    rewrite detectFrame_lastFrameTimeRef, Ht.
    destruct (now env - lastFrameTimeRef s <? 100); reflexivity.
  - rewrite detectMotion_not_live by exact Hl. reflexivity.
Qed.

Lemma motionCandidate_context (env : TickEnv) (s : AppState) :
  motionCandidate env s = true -> getContext env = true.
Proof.
  unfold motionCandidate, comparesFrames. intros H.
  apply andb_true_iff in H as [H _]. apply andb_true_iff in H as [H _].
  apply andb_true_iff in H as [_ H]. exact H.
Qed.

Lemma prependEvent_grows (e : DetectionEvent) (log : list DetectionEvent) :
  (List.length (prependEvent e log) <= S (List.length log))%nat.
Proof.
  unfold prependEvent. rewrite length_firstn. cbn [List.length]. lia.
Qed.

(** X3.  A tick accepts at most one candidate: it logs at most one event
    (the sound event or the motion event of that tick) or sends at most one
    snapshot to the verifier, and never does both. *)
Theorem X3_one_acceptance_per_tick (env : TickEnv) (s : AppState) :
  let s' := detectMotion env s in
  (events s' = events s \/ pending s' = pending s) /\
  (events s' = events s \/
   events s' = prependEvent (soundEvent env) (events s) \/
   events s' = prependEvent (motionEvent env) (events s)) /\
  (pending s' = pending s \/
   pending s' = (pending s ++ [soundSnapshot env])%list \/
   pending s' = (pending s ++ [motionSnapshot env])%list) /\
  (List.length (events s') <= S (List.length (events s)))%nat /\
  (List.length (pending s') <= S (List.length (pending s)))%nat.
Proof.
  cbv zeta. rewrite detectMotion_events, detectMotion_pending.
  pose proof (prependEvent_grows (soundEvent env) (events s)).
  pose proof (prependEvent_grows (motionEvent env) (events s)).
  destruct (live env s), (cooledDown env s), (isSmartGuard s),
    (isAnalyzing s), (audioCandidate env s), (getContext env),
    (motionCandidate env s); cbn [andb negb];
    rewrite ?length_app; cbn [List.length];
    (repeat split; auto; lia).
Qed.

(** X4.  Within a tick the audio reading is served first.  When both readings
    are candidates and the cooldown window is open, the motion flag is still
    raised, but what is logged (Smart Guard off) is the sound event, and
    what is sent to the verifier (Smart Guard on, none in flight) is the
    snapshot of the audio branch. *)
Theorem X4_audio_before_motion (env : TickEnv) (s : AppState) :
  live env s = true ->
  cooledDown env s = true ->
  audioCandidate env s = true ->
  motionCandidate env s = true ->
  let s' := detectMotion env s in
  lastMotionDetected s' = true /\
  lastDetectionTimeRef s' = now env /\
  (isSmartGuard s = false ->
   events s' = prependEvent (soundEvent env) (events s) /\
   pending s' = pending s) /\
  (isSmartGuard s = true -> isAnalyzing s = false ->
   pending s' = (pending s ++ [soundSnapshot env])%list /\
   events s' = events s).
Proof.
  intros Hl Hc Ha Hm. cbv zeta.
  pose proof (motionCandidate_context env s Hm) as Hctx.
  rewrite detectMotion_lastMotionDetected, detectMotion_lastDetectionTimeRef,
    detectMotion_events, detectMotion_pending, Hl, Hc, Ha, Hm, Hctx.
  cbn [andb orb].
  split; [reflexivity|]. split; [reflexivity|]. split.
  - intros ->. split; reflexivity.
  - intros -> ->. split; reflexivity.
Qed.

(** X5.  Frames are grabbed at most once per 100 ms.  A tick that passes the
    cadence gate stamps the frame clock with [now]; a tick less than 100 ms
    later grabs no frame and scores no motion: the stored frame, the frame
    clock, the motion score and the motion flag stay as they are, and the
    motion reading of that tick is no candidate. *)
Theorem X5_frame_cadence (env env2 : TickEnv) (s : AppState) :
  live env s = true ->
  100 <= now env - lastFrameTimeRef s ->
  now env2 - now env < 100 ->
  let s' := detectMotion env s in
  let s'' := detectMotion env2 s' in
  lastFrameTimeRef s' = now env /\
  motionCandidate env2 s' = false /\
  prevFrameRef s'' = prevFrameRef s' /\
  lastFrameTimeRef s'' = now env /\
  currentMotionLevel s'' = currentMotionLevel s' /\
  lastMotionDetected s'' = lastMotionDetected s'.
Proof.
  intros Hl Hgate Hsoon. cbv zeta.
  assert (lastFrameTimeRef (detectMotion env s) = now env) as Hclock.
  { rewrite detectMotion_lastFrameTimeRef, Hl.
    destruct (Z.ltb_spec (now env - lastFrameTimeRef s) 100); [lia|].
    reflexivity. }
  remember (detectMotion env s) as s1 eqn:Hs1.
  assert ((now env2 - lastFrameTimeRef s1 <? 100) = true)
    as Hclosed by (rewrite Hclock; apply Z.ltb_lt; exact Hsoon).
  assert (comparesFrames env2 s1 = false) as Hcmp
    by (unfold comparesFrames; rewrite Hclosed; reflexivity).
  assert (motionCandidate env2 s1 = false) as Hcand
    by (unfold motionCandidate; rewrite Hcmp; reflexivity).
  split; [exact Hclock|]. split; [exact Hcand|].
  rewrite detectMotion_prevFrameRef, detectMotion_lastFrameTimeRef,
    detectMotion_currentMotionLevel, detectMotion_lastMotionDetected,
    Hclosed, Hcmp, Hcand, Hclock.
  cbn [negb]. rewrite !andb_false_r. repeat split.
Qed.

(** X6.  On a canvas that yields no 2D context a tick logs nothing, sends
    nothing, leaves the alarm as it is and neither compares nor stores a
    frame; it can only publish the audio level and stamp the two clocks. *)
Theorem X6_no_context (env : TickEnv) (s : AppState) :
  getContext env = false ->
  let s' := detectMotion env s in
  events s' = events s /\ pending s' = pending s /\
  isSuspicious s' = isSuspicious s /\ isAnalyzing s' = isAnalyzing s /\
  prevFrameRef s' = prevFrameRef s /\
  currentMotionLevel s' = currentMotionLevel s /\
  lastMotionDetected s' = lastMotionDetected s.
Proof.
  intros Hctx. cbv zeta.
  assert (comparesFrames env s = false) as Hcmp
    by (unfold comparesFrames; rewrite Hctx, andb_false_r; reflexivity).
  assert (motionCandidate env s = false) as Hcand
    by (unfold motionCandidate; rewrite Hcmp; reflexivity).
  rewrite detectMotion_events, detectMotion_pending,
    detectMotion_isSuspicious, detectMotion_isAnalyzing,
    detectMotion_prevFrameRef, detectMotion_currentMotionLevel,
    detectMotion_lastMotionDetected, Hctx, Hcmp, Hcand.
  rewrite !andb_false_r.
  destruct (live env s && cooledDown env s && negb (isSmartGuard s)),
    (live env s && cooledDown env s && isSmartGuard s && negb (isAnalyzing s)),
    (live env s && cooledDown env s && isSmartGuard s),
    (audioCandidate env s); cbn [andb orb]; repeat split.
Qed.

(** ** The clocks *)

Lemma step_clocks (a : Action) (s : AppState) :
  (exists env, a = Tick env) \/
  (lastDetectionTimeRef (step JSON_parse a s) = lastDetectionTimeRef s /\
   lastFrameTimeRef (step JSON_parse a s) = lastFrameTimeRef s).
Proof.
  destruct a; cbn [step]; try (right; split; reflexivity).
  - destruct o; right; split; reflexivity.
  - left. exists env. reflexivity.
  - right. destruct (pending s) as [|base64Image rest];
      [split; reflexivity|].
    unfold analyzeFrame_settle. rewrite analyzeFrame_try_cases.
    destruct (confirmed JSON_parse r); split; reflexivity.
Qed.

(** X7.  Neither clock ever runs backwards, whatever the wall clock reports.
    A step that moves the cooldown clock advances it by more than the
    cooldown window (so by more than 300 ms), and a step that moves the
    frame clock advances it by at least 100 ms. *)
Theorem X7_clocks_advance (a : Action) (s : AppState) :
  let s' := step JSON_parse a s in
  lastDetectionTimeRef s <= lastDetectionTimeRef s' /\
  (lastDetectionTimeRef s' <> lastDetectionTimeRef s ->
   lastDetectionTimeRef s + cooldownWindow (isSmartGuard s)
   < lastDetectionTimeRef s') /\
  lastFrameTimeRef s <= lastFrameTimeRef s' /\
  (lastFrameTimeRef s' <> lastFrameTimeRef s ->
   lastFrameTimeRef s + 100 <= lastFrameTimeRef s').
Proof.
  cbv zeta. destruct (step_clocks a s) as [(env & ->) | [-> ->]].
  - cbn [step].
    rewrite detectMotion_lastDetectionTimeRef, detectMotion_lastFrameTimeRef.
    pose proof (cooldownWindow_pos (isSmartGuard s)) as Hw.
    destruct (cooledDown env s) eqn:Hc.
    + apply cooledDown_lt in Hc.
      destruct (live env s && (audioCandidate env s || motionCandidate env s));
        cbn [andb];
        destruct (live env s); cbn [andb negb];
        destruct (Z.ltb_spec (now env - lastFrameTimeRef s) 100);
        cbn [negb]; repeat split; intros; lia.
    + rewrite andb_false_r.
      destruct (live env s); cbn [andb negb];
        destruct (Z.ltb_spec (now env - lastFrameTimeRef s) 100);
        cbn [negb]; repeat split; intros; lia.
  - repeat split; intros; lia.
Qed.

(** ** Sessions *)




(** X9.  The stored frame outlives the session.  After a stop and a new
    start, the first tick that passes the cadence gate scores the new frame
    against the last frame of the session before, and raises the motion flag
    when that score is above the threshold. *)
Theorem X9_frame_survives_restart (env : TickEnv) (s : AppState)
    (prevFrame : ImageData) :
  prevFrameRef s = Some prevFrame ->
  videoRef env = true -> canvasRef env = true -> getContext env = true ->
  100 <= now env - lastFrameTimeRef s ->
  let restarted :=
    step JSON_parse (StartCamera MediaStarted) (step JSON_parse StopCamera s) in
  let score :=
    motionLevelOf canvas_width canvas_height
      (data (getImageData env)) (data prevFrame) in
  let s' := detectMotion env restarted in
  prevFrameRef restarted = Some prevFrame /\
  currentMotionLevel s' = score /\
  (Qgtb score (motionThreshold (sensitivity s)) = true ->
   lastMotionDetected s' = true) /\
  prevFrameRef s' = Some (getImageData env).
Proof.
  intros Hprev Hv Hc Hctx Hgate. cbv zeta. cbn [step].
  set (restarted := startCamera MediaStarted (stopCamera s)).
  assert (prevFrameRef restarted = Some prevFrame) as Hp by exact Hprev.
  assert (live env restarted = true) as Hl
    by (unfold live; rewrite Hv, Hc; reflexivity).
  assert (comparesFrames env restarted = true) as Hcmp.
  { unfold comparesFrames. rewrite Hp, Hctx.
    change (lastFrameTimeRef restarted) with (lastFrameTimeRef s).
    destruct (Z.ltb_spec (now env - lastFrameTimeRef s) 100); [lia|].
    reflexivity. }
  assert (motionScore env restarted
          = Some (motionLevelOf canvas_width canvas_height
                    (data (getImageData env)) (data prevFrame))) as Hscore
    by (unfold motionScore; rewrite Hp; reflexivity).
  split; [exact Hp|]. split; [|split].
  - rewrite detectMotion_currentMotionLevel, Hl, Hcmp, Hscore. reflexivity.
  - intros Habove.
    rewrite detectMotion_lastMotionDetected, Hl. unfold motionCandidate.
    rewrite Hcmp, Hscore.
    change (sensitivity restarted) with (sensitivity s).
    rewrite Habove. reflexivity.
  - rewrite detectMotion_prevFrameRef, Hl, Hctx.
    change (lastFrameTimeRef restarted) with (lastFrameTimeRef s).
    destruct (Z.ltb_spec (now env - lastFrameTimeRef s) 100); [lia|].
    reflexivity.
Qed.

(** ** A request from the tick to its answer *)

(** X10.  The event of a confirmed verification carries the snapshot the tick
    sent.  With Smart Guard on and nothing in flight, an accepted candidate
    (on a canvas with a context) sends the snapshot of its branch and sets
    the in-flight flag without touching log or alarm; when that request
    settles with a positive answer, one event with that snapshot, the new id
    and the new date is put in front of the log, the alarm is raised and the
    flag is cleared. *)
Theorem X10_request_round_trip (env : TickEnv) (s : AppState) (r : Settled)
    (newId : string) (newDate : Z) :
  reachable JSON_parse s ->
  isSmartGuard s = true -> isAnalyzing s = false ->
  live env s = true -> cooledDown env s = true -> getContext env = true ->
  audioCandidate env s || motionCandidate env s = true ->
  confirmed JSON_parse r = true ->
  let snapshot :=
    if audioCandidate env s then soundSnapshot env else motionSnapshot env in
  let s1 := step JSON_parse (Tick env) s in
  let s2 := step JSON_parse (Settle r newId newDate) s1 in
  (pending s1 = [snapshot] /\ isAnalyzing s1 = true /\
   events s1 = events s /\ isSuspicious s1 = isSuspicious s) /\
  (exists e,
     events s2 = prependEvent e (events s) /\
     image e = snapshot /\ id e = newId /\ timestamp e = newDate /\
     wellFormedEvent e) /\
  isSuspicious s2 = true /\ isAnalyzing s2 = false /\ pending s2 = [].
Proof.
  intros Hreach Hg Hb Hl Hc Hctx Hcand Hconf. cbv zeta.
  destruct (reachable_invariant JSON_parse s Hreach) as (_ & Hsf & _).
  pose proof (single_flight_idle s Hsf Hb) as Hidle.
  assert (pending (detectMotion env s)
          = [if audioCandidate env s then soundSnapshot env
             else motionSnapshot env]) as Hpend.
  { rewrite detectMotion_pending, Hl, Hc, Hg, Hb, Hctx, Hidle.
    cbn [andb negb app].
    destruct (audioCandidate env s); [reflexivity|].
    cbn [orb] in Hcand. rewrite Hcand. reflexivity. }
  assert (events (detectMotion env s) = events s /\
          isSuspicious (detectMotion env s) = isSuspicious s) as [Hev Hal]
    by (apply detectMotion_smart_guard; exact Hg).
  cbn [step]. rewrite Hpend.
  unfold analyzeFrame_settle. rewrite analyzeFrame_try_cases, Hconf.
  st_simpl. rewrite Hev.
  split.
  - split; [reflexivity|]. split; [|split; [reflexivity | exact Hal]].
    rewrite detectMotion_isAnalyzing, Hl, Hc, Hg, Hb, Hctx. cbn [andb].
    destruct (audioCandidate env s); [reflexivity|].
    cbn [orb] in Hcand. rewrite Hcand. reflexivity.
  - split; [|repeat split].
    eexists. split; [reflexivity|].
    split; [reflexivity|]. split; [reflexivity|]. split; [reflexivity|].
    apply verifierEvent_wellFormed.
Qed.

(** X11.  A verification that settles after the session was stopped is not
    discarded: a positive answer still puts its event in the log and raises
    the alarm, with the monitoring flag down and the stream released. *)
Theorem X11_answer_after_stop (s : AppState) (r : Settled)
    (newId : string) (newDate : Z) (base64Image : string) :
  pending s = [base64Image] ->
  confirmed JSON_parse r = true ->
  let s' := step JSON_parse (Settle r newId newDate)
              (step JSON_parse StopCamera s) in
  isMonitoring s' = false /\ stream s' = None /\
  isSuspicious s' = true /\
  alarmPlaying s' = negb (isMuted s) /\
  events s' =
    prependEvent (verifierEvent JSON_parse base64Image r newId newDate)
      (events s) /\
  isAnalyzing s' = false.
Proof.
  intros Hpend Hconf. cbv zeta. cbn [step].
  change (pending (stopCamera s)) with (pending s). rewrite Hpend.
  unfold analyzeFrame_settle. rewrite analyzeFrame_try_cases, Hconf.
  repeat split.
Qed.

(** ** The answer of the service *)

Lemma confirmed_object (text : option string) :
  confirmed JSON_parse (Fulfilled text) = true <->
  exists fields value,
    JSON_parse (extractJson (responseText text)) = Some (JObj fields) /\
    own_property "isSuspicious" fields = Some value /\
    truthy (Some value) = true.
Proof.
  unfold confirmed.
  destruct (JSON_parse (extractJson (responseText text))) as [result|].
  - destruct result as [| b | q | str | items | fields]; unfold property;
      try (split; [intros H; cbn [truthy] in H; discriminate H
                  | intros (f & v & Heq & _); discriminate Heq]).
    destruct (own_property "isSuspicious" fields) as [value|] eqn:Hprop.
    + split.
      * intros Ht. exists fields, value. repeat split; assumption.
      * intros (f & v & Heq & Hp & Hv). injection Heq as <-.
        rewrite Hprop in Hp. injection Hp as <-. exact Hv.
    + split; [intros H; cbn [truthy] in H; discriminate H|].
      intros (f & v & Heq & Hp & _). injection Heq as <-.
      rewrite Hprop in Hp. discriminate Hp.
  - split; [discriminate|]. intros (f & v & Heq & _). discriminate Heq.
Qed.

(** X12.  While a request is in flight and the alarm is down, the answer
    raises the alarm exactly when its text, cut to the braces, parses to an
    object that has an [isSuspicious] property with a truthy value.  [null],
    a boolean, a number, a string, an array, and an object without the key
    or with a falsy value, raise nothing. *)
Theorem X12_what_confirms (s : AppState) (text : option string)
    (newId : string) (newDate : Z) :
  pending s <> [] ->
  isSuspicious s = false ->
  (isSuspicious (step JSON_parse (Settle (Fulfilled text) newId newDate) s)
   = true <->
   exists fields value,
     JSON_parse (extractJson (responseText text)) = Some (JObj fields) /\
     own_property "isSuspicious" fields = Some value /\
     truthy (Some value) = true).
Proof.
  intros Hpend Hoff. rewrite <- confirmed_object. cbn [step].
  destruct (pending s) as [|base64Image rest]; [congruence|].
  unfold analyzeFrame_settle. rewrite analyzeFrame_try_cases.
  destruct (confirmed JSON_parse (Fulfilled text)); st_simpl.
  - split; reflexivity.
  - rewrite Hoff. split; discriminate.
Qed.

(** ** Muting *)

Lemma detectAudio_setIsMuted (env : TickEnv) (b : bool) (s : AppState) :
  detectAudio env (setIsMuted b s) = setIsMuted b (detectAudio env s).
Proof.
  unfold detectAudio, analyzeFrame. st_simpl.
  repeat (split_branch; st_simpl); reflexivity.
Qed.

Lemma detectFrame_setIsMuted (env : TickEnv) (b : bool) (s : AppState) :
  detectFrame env (setIsMuted b s) = setIsMuted b (detectFrame env s).
Proof.
  unfold detectFrame, compareFrames, analyzeFrame. st_simpl.
  repeat (split_branch; st_simpl); reflexivity.
Qed.

Lemma detectMotion_setIsMuted (env : TickEnv) (b : bool) (s : AppState) :
  detectMotion env (setIsMuted b s) = setIsMuted b (detectMotion env s).
Proof.
  unfold detectMotion. st_simpl.
  destruct (negb (isMonitoring s) || negb (videoRef env)
            || negb (canvasRef env)); [reflexivity|].
  rewrite detectAudio_setIsMuted. apply detectFrame_setIsMuted.
Qed.

(** X13.  Muting touches nothing but the sound.  Every other action commutes
    with the mute button, so the log, the alarm flag, the scores and the
    clocks of a run do not depend on when, or whether, the user muted; the
    alarm sounds exactly when the alarm flag is up and the mute is off. *)
Theorem X13_mute_is_only_sound (a : Action) (s : AppState) :
  a <> ToggleMute ->
  step JSON_parse a (step JSON_parse ToggleMute s)
  = step JSON_parse ToggleMute (step JSON_parse a s) /\
  events (step JSON_parse a (step JSON_parse ToggleMute s))
  = events (step JSON_parse a s) /\
  isSuspicious (step JSON_parse a (step JSON_parse ToggleMute s))
  = isSuspicious (step JSON_parse a s) /\
  alarmPlaying (step JSON_parse ToggleMute s)
  = isSuspicious s && isMuted s.
Proof.
  intros Hne.
  assert (step JSON_parse a (step JSON_parse ToggleMute s)
          = step JSON_parse ToggleMute (step JSON_parse a s)) as Hcomm.
  { destruct a; cbn [step]; try reflexivity; try congruence.
    - destruct o; reflexivity.
    - rewrite detectMotion_setIsMuted.
      pose proof (detectMotion_untouched env s) as H. cbv zeta in H.
      destruct H as (_ & _ & -> & _). reflexivity.
    - st_simpl. destruct (pending s) as [|base64Image rest]; [reflexivity|].
      unfold analyzeFrame_settle. rewrite !analyzeFrame_try_cases.
      destruct (confirmed JSON_parse r); reflexivity. }
  split; [exact Hcomm|]. rewrite Hcomm. cbn [step].
  split; [reflexivity|]. split; [reflexivity|].
  unfold alarmPlaying. st_simpl. rewrite negb_involutive. reflexivity.
Qed.

(** ** The indicators of the live view *)

Lemma motionThreshold_below_bar (sensitivity : Z) :
  1 <= sensitivity <= 99 ->
  (motionThreshold sensitivity < inject_Z (100 - sensitivity))%Q.
Proof.
  intros H. rewrite motionThreshold_slider by exact H.
  destruct (inject_Z_bounds 1 99 (100 - sensitivity)) as [H1 _]; [lia|].
  change (inject_Z 1) with 1%Q in H1. lra.
Qed.

(** X14.  The motion bar and the motion detector use different thresholds.
    The bar turns red only above [100 - sensitivity], which on the slider
    range is strictly more than the detection threshold
    [(100 - sensitivity) / 2]; [sensitivity] is a dependency of the effect
    that owns the loop, so the tick and the render that follows it read the
    same value.  After a tick that compared frames a red motion bar implies
    a raised motion flag, and a score equal to [100 - sensitivity] raises
    the flag under a bar that is not red. *)
Theorem X14_bars (env : TickEnv) (s : AppState) :
  1 <= sensitivity s <= 99 ->
  live env s = true ->
  comparesFrames env s = true ->
  let s' := detectMotion env s in
  (motionBarRed s' = true -> lastMotionDetected s' = true) /\
  ((currentMotionLevel s' == inject_Z (100 - sensitivity s))%Q ->
   motionBarRed s' = false /\ lastMotionDetected s' = true).
Proof.
  intros Hrange Hl Hcmp. cbv zeta.
  pose proof (detectMotion_untouched env s) as Hu. cbv zeta in Hu.
  destruct Hu as (_ & _ & _ & Hsens & _).
  - assert (exists level, motionScore env s = Some level) as (level & Hscore).
    { unfold comparesFrames in Hcmp. unfold motionScore.
      destruct (prevFrameRef s); [eexists; reflexivity|].
      rewrite andb_false_r in Hcmp. discriminate. }
    assert (currentMotionLevel (detectMotion env s) = level) as Hlevel
      by (rewrite detectMotion_currentMotionLevel, Hl, Hcmp, Hscore;
          reflexivity).
    assert (lastMotionDetected (detectMotion env s) = true <->
            (motionThreshold (sensitivity s) < level)%Q \/
            lastMotionDetected s = true) as Hflag.
    { rewrite detectMotion_lastMotionDetected, Hl. unfold motionCandidate.
      rewrite Hcmp, Hscore. cbn [andb]. rewrite <- Qgtb_lt.
      destruct (Qgtb level (motionThreshold (sensitivity s))).
      - split; [intros _; left; reflexivity | reflexivity].
      - split; [intros H; right; exact H
               | intros [H | H]; [discriminate | exact H]]. }
    pose proof (motionThreshold_below_bar (sensitivity s) Hrange) as Hbelow.
    unfold motionBarRed. rewrite Hlevel, Hsens. split.
    + intros Hred. apply Qgtb_lt in Hred. apply Hflag. left.
      apply Qlt_trans with (inject_Z (100 - sensitivity s)); assumption.
    + intros Heq. split.
      * destruct (Qgtb level (inject_Z (100 - sensitivity s))) eqn:Hred;
          [|reflexivity].
        apply Qgtb_lt in Hred. rewrite Heq in Hred.
        exfalso. exact (Qlt_irrefl _ Hred).
      * apply Hflag. left. rewrite Heq. exact Hbelow.
Qed.

(** ** Slots of the log *)

(** X15.  The log is a window on the last 50 insertions.  After any run of
    insertions into a log within the cap its length is the smaller of 50 and
    the number of entries offered; an event that was inserted and followed by
    fewer than 50 others sits at the slot that counts them; and 50 or more
    later insertions replace the whole log, whatever it held. *)
Theorem X15_log_window (e : DetectionEvent) (es log : list DetectionEvent) :
  (List.length log <= 50)%nat ->
  List.length (insertAll es log)
  = Nat.min 50 (List.length es + List.length log) /\
  ((List.length es < 50)%nat ->
   nth_error (insertAll es (prependEvent e log)) (List.length es) = Some e) /\
  ((50 <= List.length es)%nat ->
   insertAll es (prependEvent e log) = firstn 50 (rev es)).
Proof.
  intros Hlog. split; [|split].
  - rewrite insertAll_firstn by exact Hlog.
    rewrite length_firstn, length_app, length_rev. reflexivity.
  - intros Hfew. rewrite insertAll_firstn by apply prependEvent_length.
    rewrite nth_error_firstn.
    destruct (Nat.ltb_spec (List.length es) 50); [|lia].
    rewrite nth_error_app2 by (rewrite length_rev; lia).
    rewrite length_rev, Nat.sub_diag. unfold prependEvent.
    rewrite firstn_cons. reflexivity.
  - intros Hmany. rewrite insertAll_firstn by apply prependEvent_length.
    rewrite firstn_app, length_rev.
    replace (50 - List.length es)%nat with 0%nat by lia.
    rewrite firstn_O, app_nil_r. reflexivity.
Qed.

(** ** The text of the answer and of the request *)

Lemma substring_0_0 (s : string) : String.substring 0 0 s = "".
Proof. destruct s; reflexivity. Qed.

(** X16.  What the adapter parses when the braces are missing.  A text with
    neither brace is cut to the empty string.  A text with an opening brace
    and no closing one is cut to what stands before the first opening brace,
    because [substring] swaps its arguments.  A missing or empty response
    text is read as the empty object. *)
Theorem X16_missing_braces (pre rest : string) :
  ~ occurs "{"%char pre ->
  ~ occurs "}"%char (pre ++ "{" ++ rest) ->
  extractJson pre = "" /\
  extractJson (pre ++ "{" ++ rest) = pre /\
  extractJson (responseText None) = "{}" /\
  extractJson (responseText (Some "")) = "{}".
Proof.
  intros Hopen Hclose.
  assert (~ occurs "}"%char pre) as Hclose_pre.
  { unfold occurs in *. intros Hin. apply Hclose. clear - Hin.
    induction pre as [|a pre IH]; [destruct Hin|].
    cbn [String.append list_ascii_of_string] in *.
    destruct Hin as [-> | Hin]; [left; reflexivity | right; apply IH; exact Hin]. }
  split; [|split; [|split; reflexivity]].
  - unfold extractJson, js_substring.
    rewrite (indexOf_absent _ _ Hopen), (lastIndexOf_absent _ _ Hclose_pre).
    replace (Z.to_nat _) with 0%nat by lia.
    replace (Z.to_nat _) with 0%nat by lia.
    apply substring_0_0.
  - unfold extractJson, js_substring.
    change (pre ++ "{" ++ rest) with (pre ++ String "{"%char rest) in *.
    rewrite (indexOf_first _ pre rest Hopen), (lastIndexOf_absent _ _ Hclose).
    rewrite string_length_app.
    replace (Z.to_nat _) with 0%nat by lia.
    replace (Z.to_nat _) with (String.length pre) by lia.
    apply (substring_middle "" pre ("{" ++ rest)).
Qed.

Lemma split_absent (c : ascii) (s : string) :
  ~ occurs c s -> split c s = [s].
Proof.
  unfold occurs. induction s as [|a s IH]; intros H; cbn [split].
  - reflexivity.
  - cbn [list_ascii_of_string] in H.
    destruct (Ascii.eqb_spec a c) as [-> | Hne].
    + exfalso. apply H. left. reflexivity.
    + rewrite IH by (intros Hin; apply H; right; exact Hin). reflexivity.
Qed.

Lemma split_first (c : ascii) (head tail : string) :
  ~ occurs c head ->
  split c (head ++ String c tail) = head :: split c tail.
Proof.
  unfold occurs. induction head as [|a head IH]; intros H;
    cbn [String.append split].
  - rewrite Ascii.eqb_refl. reflexivity.
  - cbn [list_ascii_of_string] in H.
    destruct (Ascii.eqb_spec a c) as [-> | Hne].
    + exfalso. apply H. left. reflexivity.
    + rewrite IH by (intros Hin; apply H; right; exact Hin). reflexivity.
Qed.

(** X17.  The image data of the request is what stands between the first and
    the second comma of the snapshot.  For a data URL (a header without a
    comma, a comma, a payload without a comma) it is the payload; anything
    after a second comma is cut off; a snapshot without a comma sends no
    data at all. *)
Theorem X17_inline_data (header payload rest : string) :
  ~ occurs ","%char header ->
  ~ occurs ","%char payload ->
  inlineData (header ++ "," ++ payload) = Some payload /\
  inlineData (header ++ "," ++ payload ++ "," ++ rest) = Some payload /\
  inlineData header = None.
Proof.
  intros Hh Hp. unfold inlineData. split; [|split].
  - change (header ++ "," ++ payload)
      with (header ++ String ","%char payload).
    rewrite split_first, split_absent by assumption. reflexivity.
  - change (header ++ "," ++ payload ++ "," ++ rest)
      with (header ++ String ","%char (payload ++ String ","%char rest)).
    rewrite !split_first by assumption. reflexivity.
  - rewrite split_absent by assumption. reflexivity.
Qed.

(** ** The ends of the two scales *)

Lemma number_gt_false (q y : Q) : (q <= y)%Q -> number_gt (Num q) y = false.
Proof.
  intros Hle. destruct (number_gt (Num q) y) eqn:H; [|reflexivity].
  apply number_gt_lt in H. exfalso. exact (Qlt_not_le _ _ H Hle).
Qed.

(** X18.  On the slider range of the audio sensitivity, silence is never a
    candidate and a bin at full scale always is: with every bin at 0 the
    audio reading of a tick is no candidate, and with some bin at 255 it is
    one, whatever the other bins hold. *)
Theorem X18_audio_extremes (env : TickEnv) (s : AppState)
    (analyser : AnalyserNode) :
  reachable JSON_parse s ->
  analyserRef s = Some analyser ->
  1 <= audioSensitivity s <= 99 ->
  ((forall k, getByteFrequencyData env k = Byte.x00) ->
   audioCandidate env s = false) /\
  ((exists k, (k < 128)%nat /\ getByteFrequencyData env k = Byte.xff) ->
   audioCandidate env s = true).
Proof.
  intros Hreach Han Hrange.
  destruct (reachable_invariant JSON_parse s Hreach) as (_ & _ & _ & Hshape).
  assert (Z.to_nat (frequencyBinCount analyser) = 128%nat) as Hbins
    by (unfold frequencyBinCount; rewrite (Hshape analyser Han); reflexivity).
  destruct (normalizedLevelOf_spec (dataArrayOf env analyser))
    as (max & Hscore & Hin & Hmax & _).
  { intros Hnil. pose proof (dataArrayOf_length env analyser) as Hlen.
    rewrite Hnil, Hbins in Hlen. discriminate. }
  destruct (inject_Z_bounds 1 99 (100 - audioSensitivity s)) as [Hlo Hhi];
    [lia|].
  change (inject_Z 1) with 1%Q in Hlo.
  change (inject_Z 99) with (99 # 1)%Q in Hhi.
  unfold audioCandidate, audioScore, audioThreshold. rewrite Han, Hscore.
  split.
  - intros Hsilent.
    assert (max = 0) as ->.
    { apply in_map_iff in Hin as (b & <- & Hb).
      unfold dataArrayOf in Hb. apply in_map_iff in Hb as (k & <- & _).
      rewrite Hsilent. reflexivity. }
    apply number_gt_false.
    setoid_replace (inject_Z 0 / 255 * 100)%Q with 0%Q by reflexivity. lra.
  - intros (k & Hk & Hloud).
    assert (max = 255) as ->.
    { assert (In Byte.xff (dataArrayOf env analyser)) as Hxff.
      { unfold dataArrayOf. rewrite <- Hloud. apply in_map.
        apply in_seq. rewrite Hbins. lia. }
      pose proof (Hmax _ Hxff) as Hge. change (u8 Byte.xff) with 255 in Hge.
      apply in_map_iff in Hin as (b & <- & _).
      pose proof (u8_range b). lia. }
    apply number_gt_lt.
    setoid_replace (inject_Z 255 / 255 * 100)%Q with 100%Q by reflexivity.
    lra.
Qed.

Lemma filter_none {A} (f : A -> bool) (l : list A) :
  (forall x, In x l -> f x = false) -> filter f l = [].
Proof.
  induction l as [|a l IH]; intros H; cbn [filter]; [reflexivity|].
  rewrite (H a) by (left; reflexivity).
  apply IH. intros x Hx. apply H. right. exact Hx.
Qed.

Lemma filter_all {A} (f : A -> bool) (l : list A) :
  (forall x, In x l -> f x = true) -> filter f l = l.
Proof.
  induction l as [|a l IH]; intros H; cbn [filter]; [reflexivity|].
  rewrite (H a) by (left; reflexivity). f_equal.
  apply IH. intros x Hx. apply H. right. exact Hx.
Qed.

Lemma countChanged_canvas (frame prevFrame : ImageData) :
  canvasRaster frame -> canvasRaster prevFrame ->
  countChanged (data frame) (data prevFrame)
  = Z.of_nat (List.length
                (filter (fun i => 45 <? colourDistance frame prevFrame i)
                   (sampleOffsets (List.length (data frame))))).
Proof.
  intros Hf Hp. rewrite countChanged_filter. do 2 f_equal.
  apply filter_ext_in. intros i Hi. apply pixelChanged_canvas; assumption.
Qed.

Lemma motionLevelOf_none_changed (frame prevFrame : ImageData) :
  canvasRaster frame -> canvasRaster prevFrame ->
  (forall i, In i (sampleOffsets (List.length (data frame))) ->
             colourDistance frame prevFrame i <= 45) ->
  (motionLevelOf canvas_width canvas_height (data frame) (data prevFrame)
   == 0)%Q.
Proof.
  intros Hf Hp Hnone. rewrite motionLevelOf_canvas_count.
  rewrite countChanged_canvas by assumption.
  rewrite filter_none; [reflexivity|].
  intros i Hi. apply Z.ltb_ge. apply Hnone. exact Hi.
Qed.

Lemma motionLevelOf_all_changed (frame prevFrame : ImageData) :
  canvasRaster frame -> canvasRaster prevFrame ->
  (forall i, In i (sampleOffsets (List.length (data frame))) ->
             45 < colourDistance frame prevFrame i) ->
  (motionLevelOf canvas_width canvas_height (data frame) (data prevFrame)
   == 100)%Q.
Proof.
  intros Hf Hp Hall. rewrite motionLevelOf_canvas_count.
  rewrite countChanged_canvas by assumption.
  rewrite filter_all by (intros i Hi; apply Z.ltb_lt; apply Hall; exact Hi).
  rewrite sampleOffsets_length, (canvasRaster_samples _ Hf). reflexivity.
Qed.

Lemma motionCandidate_all_changed (env : TickEnv) (s : AppState)
    (prevFrame : ImageData) :
  canvasRaster (getImageData env) -> canvasRaster prevFrame ->
  prevFrameRef s = Some prevFrame ->
  comparesFrames env s = true ->
  (forall i, In i (sampleOffsets (List.length (data (getImageData env)))) ->
             45 < colourDistance (getImageData env) prevFrame i) ->
  1 <= sensitivity s <= 99 ->
  motionCandidate env s = true.
Proof.
  intros Hf Hp Hprev Hcmp Hall Hrange.
  unfold motionCandidate, motionScore. rewrite Hcmp, Hprev.
  cbn [andb]. apply Qgtb_lt.
  rewrite (motionLevelOf_all_changed _ _ Hf Hp Hall).
  rewrite motionThreshold_slider by exact Hrange.
  destruct (inject_Z_bounds 1 99 (100 - sensitivity s)) as [_ Hhi]; [lia|].
  change (inject_Z 99) with (99 # 1)%Q in Hhi. lra.
Qed.

(** X19.  The ends of the motion scale, for two frames of the canvas size.
    When no sampled pixel differs by more than 45 (summed over red, green
    and blue) the score is 0 and the motion reading is no candidate at any
    sensitivity at all; when every sampled pixel does, the score is 100 and
    the reading is a candidate at every sensitivity of the slider. *)
Theorem X19_motion_extremes (env : TickEnv) (s : AppState)
    (prevFrame : ImageData) :
  canvasRaster (getImageData env) ->
  canvasRaster prevFrame ->
  prevFrameRef s = Some prevFrame ->
  comparesFrames env s = true ->
  let frame := getImageData env in
  let offsets := sampleOffsets (List.length (data frame)) in
  ((forall i, In i offsets -> colourDistance frame prevFrame i <= 45) ->
   (exists q, motionScore env s = Some q /\ (q == 0)%Q) /\
   motionCandidate env s = false) /\
  ((forall i, In i offsets -> 45 < colourDistance frame prevFrame i) ->
   (exists q, motionScore env s = Some q /\ (q == 100)%Q) /\
   (1 <= sensitivity s <= 99 -> motionCandidate env s = true)).
Proof.
  intros Hf Hp Hprev Hcmp. cbv zeta.
  assert (motionScore env s
          = Some (motionLevelOf canvas_width canvas_height
                    (data (getImageData env)) (data prevFrame))) as Hscore
    by (unfold motionScore; rewrite Hprev; reflexivity).
  split.
  - intros Hnone.
    pose proof (motionLevelOf_none_changed _ _ Hf Hp Hnone) as Hzero.
    split; [eexists; split; [exact Hscore | exact Hzero]|].
    unfold motionCandidate. rewrite Hcmp, Hscore. cbn [andb].
    destruct (Qgtb _ _) eqn:Hgt; [|reflexivity].
    apply Qgtb_lt in Hgt. rewrite Hzero in Hgt.
    pose proof (motionThreshold_floor (sensitivity s)). lra.
  - intros Hall. split.
    + eexists. split; [exact Hscore|].
      apply motionLevelOf_all_changed; assumption.
    + intros Hrange.
      apply (motionCandidate_all_changed env s prevFrame); assumption.
Qed.

(** ** Starting without sound, and switching Smart Guard in flight *)

(** X20.  When permission is denied nothing changes.  When the stream is
    granted but the audio graph cannot be built, monitoring starts all the
    same; in a component that has no analyser yet, such a session watches
    motion only: no tick reads an audio level, and no event or request of a
    tick comes from the audio branch. *)
Theorem X20_start_without_sound (env : TickEnv) (s : AppState) :
  analyserRef s = None ->
  let s1 := step JSON_parse (StartCamera AudioSetupFailed) s in
  let s' := detectMotion env s1 in
  step JSON_parse (StartCamera MediaDenied) s = s /\
  (isMonitoring s1 = true /\ stream s1 = Some LiveStream /\
   analyserRef s1 = None) /\
  audioCandidate env s1 = false /\
  audioLevel s' = audioLevel s /\
  (events s' = events s \/
   events s' = prependEvent (motionEvent env) (events s)) /\
  (pending s' = pending s \/
   pending s' = (pending s ++ [motionSnapshot env])%list).
Proof.
  intros Han. cbv zeta. cbn [step].
  set (s1 := startCamera AudioSetupFailed s).
  assert (analyserRef s1 = None) as Han1 by exact Han.
  assert (audioCandidate env s1 = false) as Ha
    by (unfold audioCandidate, audioScore; rewrite Han1; reflexivity).
  split; [reflexivity|]. split; [repeat split; exact Han|].
  split; [exact Ha|].
  rewrite detectMotion_audioLevel, detectMotion_events, detectMotion_pending.
  unfold audioScore. rewrite Han1, Ha.
  change (events s1) with (events s). change (pending s1) with (pending s).
  change (audioLevel s1) with (audioLevel s).
  split; [destruct (live env s1); reflexivity|].
  split.
  - destruct (live env s1 && cooledDown env s1 && negb (isSmartGuard s1));
      [|left; reflexivity].
    destruct (motionCandidate env s1); [right | left]; reflexivity.
  - destruct (live env s1 && cooledDown env s1 && isSmartGuard s1
              && negb (isAnalyzing s1)); [|left; reflexivity].
    destruct (motionCandidate env s1); [right | left]; reflexivity.
Qed.

(** X21.  Switching Smart Guard does not cancel a verification in flight:
    settling the request and pressing the switch commute, so a positive
    answer that arrives after Smart Guard was turned off still logs its
    event and raises the alarm. *)
Theorem X21_switch_in_flight (s : AppState) (r : Settled)
    (newId : string) (newDate : Z) :
  confirmed JSON_parse r = true ->
  pending s <> [] ->
  let s' := step JSON_parse (Settle r newId newDate)
              (step JSON_parse ToggleSmartGuard s) in
  s' = step JSON_parse ToggleSmartGuard
         (step JSON_parse (Settle r newId newDate) s) /\
  isSuspicious s' = true /\
  (exists e, wellFormedEvent e /\ events s' = prependEvent e (events s)).
Proof.
  intros Hconf Hpend. cbv zeta. cbn [step]. st_simpl.
  destruct (pending s) as [|base64Image rest]; [congruence|].
  unfold analyzeFrame_settle. rewrite !analyzeFrame_try_cases, Hconf.
  split; [reflexivity|]. split; [reflexivity|].
  exists (verifierEvent JSON_parse base64Image r newId newDate).
  split; [apply verifierEvent_wellFormed | reflexivity].
Qed.

End Coverage.

(** ** Examples for the rest of the component *)

(** A white frame of the canvas size, and a loud tick that grabs it. *)
Definition whiteFrame : ImageData :=
  mkImageData (repeat Byte.xff (Z.to_nat (4 * canvas_width * canvas_height))).

Definition brightEnv (t : Z) : TickEnv :=
  {| now := t; videoRef := true; canvasRef := true;
     getByteFrequencyData := fun _ => Byte.xff;
     getContext := true; getImageData := whiteFrame;
     soundSnapshot := "data:image/jpeg;base64,/9j/4AAT";
     soundId := "h2n6b9v4c"; soundDate := t;
     motionSnapshot := "data:image/jpeg;base64,/9j/4AAU";
     motionId := "j5k1l8m3n"; motionDate := t |}.

Lemma whiteFrame_canvasRaster : canvasRaster whiteFrame.
Proof.
  unfold canvasRaster, whiteFrame. cbn [data].
  rewrite repeat_length, Z2Nat.id; [reflexivity|].
  unfold canvas_width, canvas_height. lia.
Qed.

Lemma canvas_offset_room (frame : ImageData) (i : nat) :
  canvasRaster frame ->
  In i (sampleOffsets (List.length (data frame))) ->
  (i + 16 <= List.length (data frame))%nat.
Proof.
  unfold canvasRaster, canvas_width, canvas_height. intros Hf Hin.
  apply sampleOffsets_In in Hin as [Hlt Hmod].
  pose proof (Nat.div_mod_eq i 16) as Hi.
  pose proof (Nat.div_mod_eq (List.length (data frame)) 16) as Hl.
  assert (List.length (data frame) mod 16 = 0)%nat as Hlm.
  { apply Nat2Z.inj. rewrite Nat2Z.inj_mod, Hf. reflexivity. }
  lia.
Qed.

(** Every sampled pixel of the white frame differs from the black one by
    765. *)
Lemma white_on_black (i : nat) :
  In i (sampleOffsets (List.length (data whiteFrame))) ->
  45 < colourDistance whiteFrame blackFrame i.
Proof.
  intros Hin.
  pose proof (canvas_offset_room whiteFrame i whiteFrame_canvasRaster Hin)
    as Hroom.
  unfold colourDistance, byteAt.
  unfold whiteFrame in Hroom |- *. unfold blackFrame. cbn [data] in Hroom |- *.
  rewrite repeat_length in Hroom.
  rewrite !nth_repeat, !nth_repeat_lt by lia.
  change (u8 Byte.xff) with 255. change (u8 Byte.x00) with 0. lia.
Qed.

(** A second session, started after the first one was stopped on
    [scanningState]. *)
Definition restartedState : AppState :=
  step sampleParse (StartCamera MediaStarted)
    (step sampleParse StopCamera scanningState).

Lemma restartedState_reachable : reachable sampleParse restartedState.
Proof.
  exact (reachable_step sampleParse (StartCamera MediaStarted) _
           (reachable_step sampleParse StopCamera scanningState
              scanningState_reachable I) I).
Qed.

Lemma restartedState_score :
  motionScore (brightEnv 5200) restartedState
  = Some (motionLevelOf canvas_width canvas_height
            (data whiteFrame) (data blackFrame)).
Proof. reflexivity. Qed.

(** C3, as the sentence states it, fails on the first tick of a second
    session: the frame grabbed last in the first session is still stored,
    so the white frame of the first tick is compared with it, scores 100,
    is a motion candidate and raises the motion flag. *)
Lemma C3_motion_score_counterexample :
  reachable sampleParse restartedState /\
  restartedState = startCamera MediaStarted (stopCamera scanningState) /\
  prevFrameRef restartedState = Some blackFrame /\
  live (brightEnv 5200) restartedState = true /\
  (currentMotionLevel (detectMotion (brightEnv 5200) restartedState)
   == 100)%Q /\
  ~ (currentMotionLevel (detectMotion (brightEnv 5200) restartedState)
     == 0)%Q /\
  motionCandidate (brightEnv 5200) restartedState = true /\
  lastMotionDetected (detectMotion (brightEnv 5200) restartedState) = true.
Proof.
  assert (live (brightEnv 5200) restartedState = true) as Hl by reflexivity.
  assert (comparesFrames (brightEnv 5200) restartedState = true) as Hcmp
    by reflexivity.
  assert (currentMotionLevel (detectMotion (brightEnv 5200) restartedState)
          == 100)%Q as Hscore.
  { rewrite detectMotion_currentMotionLevel, Hl, Hcmp, restartedState_score.
    cbn [andb].
    exact (motionLevelOf_all_changed whiteFrame blackFrame
             whiteFrame_canvasRaster blackFrame_canvasRaster white_on_black). }
  assert (motionCandidate (brightEnv 5200) restartedState = true) as Hcand.
  { apply (motionCandidate_all_changed (brightEnv 5200) restartedState
             blackFrame whiteFrame_canvasRaster blackFrame_canvasRaster
             eq_refl Hcmp white_on_black).
    change (1 <= 85 <= 99). lia. }
  split; [exact restartedState_reachable|].
  split; [reflexivity|]. split; [reflexivity|]. split; [exact Hl|].
  split; [exact Hscore|]. split; [|split; [exact Hcand|]].
  - rewrite Hscore. discriminate.
  - rewrite detectMotion_lastMotionDetected, Hl, Hcand. reflexivity.
Qed.

Lemma alertedState_reachable : reachable sampleParse alertedState.
Proof.
  exact (reachable_step sampleParse (Tick (loudEnv 5000)) instantState
           instantState_reachable I).
Qed.

Lemma startedState_reachable_person : reachable personParse startedState.
Proof.
  exact (reachable_step personParse (StartCamera MediaStarted) initialState
           (reachable_initial personParse) I).
Qed.

(** The log after one instant alert. *)
Lemma X1_logged_events_witness :
  alertsCount alertedState = List.length (events alertedState).
Proof.
  exact (proj2 (X1_logged_events sampleParse alertedState
                  alertedState_reachable)).
Defined.

(** A loud tick on a white frame 400 ms after the alert, Smart Guard off:
    both readings are candidates and the sound event is logged. *)
Lemma X4_audio_before_motion_witness :
  lastMotionDetected (detectMotion (brightEnv 5400) alertedState) = true /\
  lastDetectionTimeRef (detectMotion (brightEnv 5400) alertedState) = 5400.
Proof.
  assert (1 <= sensitivity alertedState <= 99) as Hrange
    by (change (1 <= 85 <= 99); lia).
  pose proof (X4_audio_before_motion (brightEnv 5400) alertedState
                eq_refl eq_refl eq_refl
                (motionCandidate_all_changed (brightEnv 5400) alertedState
                   blackFrame whiteFrame_canvasRaster blackFrame_canvasRaster
                   eq_refl eq_refl white_on_black Hrange))
    as H.
  cbv zeta in H. destruct H as (Hflag & Hclock & _).
  split; [exact Hflag | exact Hclock].
Defined.

(** A tick at 5000 and another 50 ms later. *)
Lemma X5_frame_cadence_witness :
  prevFrameRef (detectMotion (loudEnv 5050)
                  (detectMotion (loudEnv 5000) startedState))
  = prevFrameRef (detectMotion (loudEnv 5000) startedState).
Proof.
  assert (100 <= now (loudEnv 5000) - lastFrameTimeRef startedState) as Hgate
    by (change (100 <= 5000 - 0); lia).
  assert (now (loudEnv 5050) - now (loudEnv 5000) < 100) as Hsoon
    by (change (5050 - 5000 < 100); lia).
  pose proof (X5_frame_cadence (loudEnv 5000) (loudEnv 5050) startedState
                eq_refl Hgate Hsoon) as H.
  cbv zeta in H. destruct H as (_ & _ & Hprev & _). exact Hprev.
Defined.

Lemma X6_no_context_witness :
  events (detectMotion (loudEnvNoContext 5000) instantState)
  = events instantState.
Proof.
  exact (proj1 (X6_no_context (loudEnvNoContext 5000) instantState eq_refl)).
Defined.


(** A new session 200 ms after the first tick of the old one. *)
Lemma X9_frame_survives_restart_witness :
  prevFrameRef (step sampleParse (StartCamera MediaStarted)
                  (step sampleParse StopCamera scanningState))
  = Some blackFrame.
Proof.
  assert (100 <= now (loudEnv 5200) - lastFrameTimeRef scanningState) as Hgate
    by (change (100 <= 5200 - 5000); lia).
  exact (proj1 (X9_frame_survives_restart sampleParse (loudEnv 5200)
                  scanningState blackFrame eq_refl eq_refl eq_refl eq_refl
                  Hgate)).
Defined.

(** A loud tick on a fresh session, answered positively. *)
Lemma X10_request_round_trip_witness :
  isSuspicious
    (step personParse (Settle (Fulfilled (Some "{}")) "r4t8u2v6y" 5400)
       (step personParse (Tick (loudEnv 5000)) startedState)) = true.
Proof.
  pose proof (X10_request_round_trip personParse (loudEnv 5000) startedState
                (Fulfilled (Some "{}")) "r4t8u2v6y" 5400
                startedState_reachable_person
                eq_refl eq_refl eq_refl eq_refl eq_refl eq_refl eq_refl) as H.
  cbv zeta in H. destruct H as (_ & _ & Halarm & _). exact Halarm.
Defined.

Lemma X11_answer_after_stop_witness :
  isSuspicious
    (step personParse (Settle (Fulfilled (Some "{}")) "r4t8u2v6y" 5400)
       (step personParse StopCamera scanningState)) = true.
Proof.
  pose proof (X11_answer_after_stop personParse scanningState
                (Fulfilled (Some "{}")) "r4t8u2v6y" 5400
                "data:image/jpeg;base64,/9j/4AAQ" eq_refl eq_refl) as H.
  cbv zeta in H. destruct H as (_ & _ & Halarm & _). exact Halarm.
Defined.

Lemma X12_what_confirms_witness :
  isSuspicious
    (step personParse (Settle (Fulfilled (Some "{}")) "r4t8u2v6y" 5400)
       scanningState) = true.
Proof.
  assert (pending scanningState <> []) as Hpend
    by (change (["data:image/jpeg;base64,/9j/4AAQ"] <> []); discriminate).
  apply (proj2 (X12_what_confirms personParse scanningState (Some "{}")
                  "r4t8u2v6y" 5400 Hpend eq_refl)).
  exists [("isSuspicious", JBool true); ("reason", JStr "a person")].
  exists (JBool true). repeat split.
Defined.

Lemma X13_mute_is_only_sound_witness :
  step sampleParse Dismiss (step sampleParse ToggleMute alertedState)
  = step sampleParse ToggleMute (step sampleParse Dismiss alertedState).
Proof.
  refine (proj1 (X13_mute_is_only_sound sampleParse Dismiss alertedState _)).
  discriminate.
Defined.

(** A white frame against the stored black one: the bar is red and the
    flag is up. *)
Lemma X14_bars_witness :
  lastMotionDetected (detectMotion (brightEnv 5200) scanningState) = true.
Proof.
  assert (1 <= sensitivity scanningState <= 99) as Hrange
    by (change (1 <= 85 <= 99); lia).
  assert (live (brightEnv 5200) scanningState = true) as Hl by reflexivity.
  assert (comparesFrames (brightEnv 5200) scanningState = true) as Hcmp
    by reflexivity.
  apply (proj1 (X14_bars (brightEnv 5200) scanningState Hrange Hl Hcmp)).
  unfold motionBarRed. apply Qgtb_lt.
  pose proof (detectMotion_untouched (brightEnv 5200) scanningState) as Hu.
  cbv zeta in Hu. destruct Hu as (_ & _ & _ & Hsens & _).
  rewrite Hsens, detectMotion_currentMotionLevel, Hl, Hcmp.
  change (motionScore (brightEnv 5200) scanningState)
    with (Some (motionLevelOf canvas_width canvas_height
                  (data whiteFrame) (data blackFrame))).
  cbn [andb].
  rewrite (motionLevelOf_all_changed whiteFrame blackFrame
             whiteFrame_canvasRaster blackFrame_canvasRaster white_on_black).
  change (sensitivity scanningState) with 85. reflexivity.
Defined.

(** An event followed by three others sits in the fourth slot. *)
Lemma X15_log_window_witness :
  nth_error
    (insertAll (map numberedEvent (seq 1 3))
       (prependEvent (numberedEvent 0) []))
    3
  = Some (numberedEvent 0).
Proof.
  assert ((List.length (@nil DetectionEvent) <= 50)%nat) as Hlog
    by (cbn [List.length]; lia).
  refine (proj1 (proj2 (X15_log_window (numberedEvent 0)
                          (map numberedEvent (seq 1 3)) [] Hlog)) _).
  cbn [List.length map seq]. lia.
Defined.

Lemma X16_missing_braces_witness :
  extractJson "I cannot tell. {maybe" = "I cannot tell. ".
Proof.
  refine (proj1 (proj2 (X16_missing_braces "I cannot tell. " "maybe" _ _))).
  - unfold occurs. cbn. intuition discriminate.
  - unfold occurs. cbn. intuition discriminate.
Defined.

Lemma X17_inline_data_witness :
  inlineData "data:image/jpeg;base64,/9j/4AAQ" = Some "/9j/4AAQ".
Proof.
  refine (proj1 (X17_inline_data "data:image/jpeg;base64" "/9j/4AAQ" "" _ _)).
  - unfold occurs. cbn. intuition discriminate.
  - unfold occurs. cbn. intuition discriminate.
Defined.

Lemma X18_audio_extremes_witness :
  audioCandidate (loudEnv 5000) startedState = true.
Proof.
  assert (1 <= audioSensitivity startedState <= 99) as Hrange
    by (change (1 <= 60 <= 99); lia).
  apply (proj2 (X18_audio_extremes sampleParse (loudEnv 5000) startedState
                  {| fftSize := 256 |} startedState_reachable eq_refl Hrange)).
  exists 0%nat. split; [lia | reflexivity].
Defined.

(** A white frame against the stored black one: the score is 100. *)
Lemma X19_motion_extremes_witness :
  exists q, motionScore (brightEnv 5200) scanningState = Some q
            /\ (q == 100)%Q.
Proof.
  pose proof (X19_motion_extremes (brightEnv 5200) scanningState
                blackFrame whiteFrame_canvasRaster
                blackFrame_canvasRaster eq_refl eq_refl) as H.
  cbv zeta in H. destruct H as (_ & Hall).
  exact (proj1 (Hall white_on_black)).
Defined.

(** The first start of the component, with the audio graph failing. *)
Lemma X20_start_without_sound_witness :
  audioCandidate (loudEnv 5000)
    (step sampleParse (StartCamera AudioSetupFailed) initialState) = false.
Proof.
  pose proof (X20_start_without_sound sampleParse (loudEnv 5000) initialState
                eq_refl) as H.
  cbv zeta in H. destruct H as (_ & _ & Hnone & _). exact Hnone.
Defined.

Lemma X21_switch_in_flight_witness :
  isSuspicious
    (step personParse (Settle (Fulfilled (Some "{}")) "r4t8u2v6y" 5400)
       (step personParse ToggleSmartGuard scanningState)) = true.
Proof.
  assert (pending scanningState <> []) as Hpend
    by (change (["data:image/jpeg;base64,/9j/4AAQ"] <> []); discriminate).
  pose proof (X21_switch_in_flight personParse scanningState
                (Fulfilled (Some "{}")) "r4t8u2v6y" 5400 eq_refl Hpend) as H.
  cbv zeta in H. destruct H as (_ & Halarm & _). exact Halarm.
Defined.
